(** * edi-extract: the element extractor and the X12 handlers

    A shallow embedding of [edi.py] and [x12.py].

    - Python text ([str]) is a [string] whose characters are the code
      points below 256.
    - The parser instance and the traversal state are attribute and key
      maps ([gmap string pyval]): an attribute that was never assigned is
      absent, and reading it raises [AttributeError].
    - Instances of [EdiDocument] and [EdiPart] live in a heap and are
      referred to by location, since the handlers reach them through the
      traversal state and mutate them in place.  Lists and failure records
      are values.
    - Exceptions are results of the computation; a raised exception keeps
      the mutations done so far.  The text of an exception is not kept,
      except where it ends up in a failure record.
    - The two library calls the code relies on, the date conversion and the
      escape decoding, are parameters of the model.
    - Methods are called as the classes define them, and [warn] only
      reports: its calls are left out. *)

From Stdlib Require Import ZArith Lia String Ascii List DecimalString.
From stdpp Require Import base option list strings gmap.
Import ListNotations.
Local Open Scope string_scope.
Local Open Scope Z_scope.
Local Open Scope list_scope.
#[local] Set Warnings "-register-all".

(** ** Python text primitives *)

Module PyStr.

(** [str(i)] for an [int]. *)
Definition str_of_int (i : Z) : string :=
  NilZero.string_of_int (Z.to_int i).

Definition dquote : ascii := ascii_of_nat 34.

Definition hex_digit (n : nat) : ascii :=
  match n with
  | 0 => "0" | 1 => "1" | 2 => "2" | 3 => "3" | 4 => "4" | 5 => "5"
  | 6 => "6" | 7 => "7" | 8 => "8" | 9 => "9" | 10 => "a" | 11 => "b"
  | 12 => "c" | 13 => "d" | 14 => "e" | _ => "f"
  end%char%nat.

Fixpoint contains_char (c : ascii) (s : string) : bool :=
  match s with
  | EmptyString => false
  | String d s' => if Ascii.eqb c d then true else contains_char c s'
  end.

(** Code points below 256 that [repr] writes as they are. *)
Definition printable (n : nat) : bool :=
  ((32 <=? n) && (n <? 127) || (161 <=? n) && negb (n =? 173))%nat.

Definition repr_char (quote : ascii) (c : ascii) : string :=
  let n := nat_of_ascii c in
  if Ascii.eqb c "\" then "\\"
  else if Ascii.eqb c quote then String "\" (String quote "")
  else if (n =? 9)%nat then "\t"
  else if (n =? 10)%nat then "\n"
  else if (n =? 13)%nat then "\r"
  else if printable n then String c ""
  else String "\" (String "x" (String (hex_digit (n / 16)) (String (hex_digit (n mod 16)) ""))).

Fixpoint repr_body (quote : ascii) (s : string) : string :=
  match s with
  | EmptyString => ""
  | String c s' => repr_char quote c +:+ repr_body quote s'
  end.

(** [repr(s)] for a [str]: single quotes, unless the text has a single
    quote and no double quote. *)
Definition repr (s : string) : string :=
  let quote : ascii :=
    if contains_char "'" s && negb (contains_char dquote s) then dquote else "'"%char in
  String quote (repr_body quote s +:+ String quote "").

(** [s.split(sep)] for a non-empty [sep]: [skip] counts the characters of
    a separator occurrence still to be passed over, [cur] is the piece
    collected so far. *)
Fixpoint split_go (sep : string) (skip : nat) (cur : string) (s : string) : list string :=
  match s with
  | EmptyString => [cur]
  | String c s' =>
      match skip with
      | S k => split_go sep k cur s'
      | O =>
          if String.prefix sep s
          then cur :: split_go sep (String.length sep - 1) "" s'
          else split_go sep 0 (cur +:+ String c "") s'
      end
  end.

Definition split_on (sep : string) (s : string) : list string :=
  split_go sep 0 "" s.

(** Characters for which [str.isspace] holds, below 256. *)
Definition is_space (c : ascii) : bool :=
  let n := nat_of_ascii c in
  ((9 <=? n) && (n <=? 13) || (28 <=? n) && (n <=? 32) || (n =? 133) || (n =? 160))%nat.

(** [s.split(None)]: runs of white space separate, none at the ends. *)
Fixpoint split_ws_go (cur : string) (s : string) : list string :=
  match s with
  | EmptyString => if String.eqb cur "" then [] else [cur]
  | String c s' =>
      if is_space c
      then (if String.eqb cur "" then split_ws_go "" s' else cur :: split_ws_go "" s')
      else split_ws_go (cur +:+ String c "") s'
  end.

Definition split_ws (s : string) : list string := split_ws_go "" s.

(** [l[i]] for an [int] index: counted from the end when negative, [None]
    for [IndexError]. *)
Definition index {A} (l : list A) (i : Z) : option A :=
  let n := Z.of_nat (length l) in
  if (0 <=? i) && (i <? n) then l !! Z.to_nat i
  else if (- n <=? i) && (i <? 0) then l !! Z.to_nat (n + i)
  else None.

(** [s[:n]]. *)
Definition take (n : nat) (s : string) : string := String.substring 0 n s.

End PyStr.

(** ** Python values *)

(** A position request of [universal_element_extract]: an [int], a pair
    [(element_index, subelement_index)], a list of those, or a mapping from
    labels to those or to [{"pos": ..., "date": ...}] records. *)
Inductive leaf_position :=
  | PosInt (i : Z)
  | PosTuple (i j : Z).

Inductive named_position :=
  | Plain (p : leaf_position)
  | Spec (pos : option leaf_position) (date : option bool).

Inductive position :=
  | Single (p : leaf_position)
  | PosList (l : list leaf_position)
  | PosDict (d : list (string * named_position)).

(** [ElementExtractionFailure]; [V] is the type of Python values. *)
Record ElementExtractionFailure_ (V : Type) := {
  failure_point : string;
  failure_reason : string;
  segment : string;
  failed_position : position;
  element : option string;
  subposition : option Z;
  date : bool;
  date_format_in : V;
  date_format_out : string
}.
Arguments failure_point {V} _.
Arguments failure_reason {V} _.
Arguments segment {V} _.
Arguments failed_position {V} _.
Arguments element {V} _.
Arguments subposition {V} _.
Arguments date {V} _.
Arguments date_format_in {V} _.
Arguments date_format_out {V} _.

(** The Python values the parser handles.  [VRef] is a reference to an
    [EdiDocument] or [EdiPart] instance in the heap; [VMethod] is a bound
    handler of the parser. *)
Inductive pyval :=
  | VNone
  | VBool (b : bool)
  | VStr (s : string)
  | VFail (f : ElementExtractionFailure_ pyval)
  | VRef (l : nat)
  | VTuple (l : list pyval)
  | VList (l : list pyval)
  | VDict (d : list (pyval * pyval))
  | VMethod (name : string).

Abbreviation ElementExtractionFailure := (ElementExtractionFailure_ pyval).

(** Truth value of a Python value ([ElementExtractionFailure],
    [EdiDocument] and [EdiPart] define neither [__bool__] nor [__len__]). *)
Definition truthy (v : pyval) : bool :=
  match v with
  | VNone => false
  | VBool b => b
  | VStr s => negb (String.eqb s "")
  | VFail _ => true
  | VRef _ => true
  | VTuple l => negb (Nat.eqb (length l) 0)
  | VList l => negb (Nat.eqb (length l) 0)
  | VDict d => negb (Nat.eqb (length d) 0)
  | VMethod _ => true
  end.

(** [v == s] for a [str] literal [s]. *)
Definition eq_str (v : pyval) (s : string) : bool :=
  match v with
  | VStr t => String.eqb t s
  | _ => false
  end.

(** [v in group] for a tuple [group] of [str] literals. *)
Definition in_strs (v : pyval) (group : list string) : bool :=
  existsb (eq_str v) group.

(** [==] on the values that serve as dictionary keys here: text, tuples of
    keys, [None], booleans and instance references (identity). *)
Fixpoint key_eqb (a b : pyval) {struct a} : bool :=
  match a, b with
  | VNone, VNone => true
  | VBool x, VBool y => Bool.eqb x y
  | VStr x, VStr y => String.eqb x y
  | VRef x, VRef y => Nat.eqb x y
  | VMethod x, VMethod y => String.eqb x y
  | VTuple xs, VTuple ys =>
      (fix go (xs ys : list pyval) {struct xs} : bool :=
         match xs, ys with
         | [], [] => true
         | x :: xs', y :: ys' => key_eqb x y && go xs' ys'
         | _, _ => false
         end) xs ys
  | _, _ => false
  end.

(** Whether [hash(v)] is defined: lists and dictionaries have none, a tuple
    has one when its items do. *)
Fixpoint hashable (v : pyval) : bool :=
  match v with
  | VList _ | VDict _ => false
  | VTuple l => forallb hashable l
  | _ => true
  end.

(** [d[k] = v] on an insertion-ordered dictionary. *)
Fixpoint dict_set (k v : pyval) (d : list (pyval * pyval)) : list (pyval * pyval) :=
  match d with
  | [] => [(k, v)]
  | (k', v') :: d' => if key_eqb k' k then (k', v) :: d' else (k', v') :: dict_set k v d'
  end.

(** Lookup in a table whose keys are [str] literals. *)
Fixpoint table_get {A} (t : list (string * A)) (k : string) : option A :=
  match t with
  | [] => None
  | (k', a) :: t' => if String.eqb k' k then Some a else table_get t' k
  end.

(** ** Exceptions, the heap and the computation monad *)

Inductive exn :=
  | TypeError
  | ValueError
  | UnicodeDecodeError
  | KeyError
  | AttributeError.

Inductive result (A : Type) :=
  | Ok (a : A)
  | Raise (e : exn).
Arguments Ok {A} _.
Arguments Raise {A} _.

(** An instance in the heap: its class and its [__dict__]. *)
Record instance := {
  cls : string;
  attrs : gmap string pyval
}.

(** What a handler call can reach: the parser instance [self] (its
    [__dict__]), the traversal-state dictionary [state] passed to the
    handlers, and the heap of document and part instances. *)
Record World := {
  self : gmap string pyval;
  state : gmap string pyval;
  heap : list instance
}.

Definition with_self (f : gmap string pyval -> gmap string pyval) (w : World) : World :=
  {| self := f (self w); state := state w; heap := heap w |}.

Definition with_state (f : gmap string pyval -> gmap string pyval) (w : World) : World :=
  {| self := self w; state := f (state w); heap := heap w |}.

Definition with_heap (f : list instance -> list instance) (w : World) : World :=
  {| self := self w; state := state w; heap := f (heap w) |}.

Definition M (A : Type) : Type := World -> result A * World.

Definition ret {A} (a : A) : M A := fun w => (Ok a, w).

Definition raise {A} (e : exn) : M A := fun w => (Raise e, w).

Definition bind {A B} (m : M A) (k : A -> M B) : M B :=
  fun w =>
    match m w with
    | (Ok a, w') => k a w'
    | (Raise e, w') => (Raise e, w')
    end.

Definition lift {A} (r : result A) : M A := fun w => (r, w).

Declare Scope py_scope.
Delimit Scope py_scope with py.
Notation "x <- m ;; k" := (bind m (fun x => k))
  (at level 100, m at next level, right associativity) : py_scope.
Notation "m ;;; k" := (bind m (fun _ => k))
  (at level 100, right associativity) : py_scope.
Local Open Scope py_scope.

(** [self.name], [self.name = v], [hasattr(self, name)]. *)
Definition getattr (name : string) : M pyval :=
  fun w => match self w !! name with
           | Some v => (Ok v, w)
           | None => (Raise AttributeError, w)
           end.

Definition setattr (name : string) (v : pyval) : M unit :=
  fun w => (Ok tt, with_self (insert name v) w).

(** [state[key]] and [state[key] = v]. *)
Definition state_get (key : string) : M pyval :=
  fun w => match state w !! key with
           | Some v => (Ok v, w)
           | None => (Raise KeyError, w)
           end.

Definition state_set (key : string) (v : pyval) : M unit :=
  fun w => (Ok tt, with_state (insert key v) w).

(** A new instance; its reference is the next free location. *)
Definition new_instance (o : instance) : M pyval :=
  fun w => (Ok (VRef (length (heap w))), with_heap (fun h => h ++ [o]) w).

(** [target.name = v]: an instance in the heap takes any attribute; text,
    [None], lists and the other built-in values take none.  (A failure
    record is a value here and is treated like them.) *)
Definition obj_setattr (target : pyval) (name : string) (v : pyval) : M unit :=
  fun w =>
    match target with
    | VRef l =>
        match heap w !! l with
        | Some o =>
            (Ok tt, with_heap (fun h => <[l := {| cls := cls o; attrs := <[name := v]> (attrs o) |}]> h) w)
        | None => (Raise AttributeError, w)
        end
    | _ => (Raise AttributeError, w)
    end.

Fixpoint mapM {A B} (f : A -> M B) (l : list A) : M (list B) :=
  match l with
  | [] => ret []
  | a :: l' => b <- f a ;; bs <- mapM f l' ;; ret (b :: bs)
  end.

(** ** Static tables of [edi.py] and [x12.py] *)

Definition VALID_LANGUAGES : list string := ["X12"; "EDIFACT"].

Definition DEFAULT_SEPARATORS : list (string * list (string * string)) :=
  [ ("X12", [("ELEMENT", "*"); ("SEGMENT", "~"); ("SUBELEMENT", "<")]);
    ("EDIFACT", [("ELEMENT", "+"); ("SEGMENT", "'"); ("SUBELEMENT", ":")]) ].

Definition EDI_SEGMENTS : list (string * list (string * list string)) :=
  [ ("X12",
     [ ("ENVELOPE", ["ISA"]); ("INNER_MESSAGE", ["GS"]); ("RECORD_START", ["BFR"]);
       ("ADDRESS", ["N1"]); ("LOOP", ["ST"]); ("CLAIM_DETAILS", ["N9"]);
       ("PART_DETAILS", ["LIN"]); ("DATE_DETAILS", ["DTM"]);
       ("SERVICE_LINE_DETAILS", ["SSS"]); ("PROBLEM_RECORD_DETAILS", ["PRR"]);
       ("MESSAGE", ["MSG"]); ("TOTAL_CHARGE", ["AMT"]); ("ACCUM", ["SHP"; "ATH"]);
       ("RELEASE", ["FST"]); ("RELEASE_TYPE", ["SDP"]); ("QUANTITY", ["QTY"]);
       ("REFERENCE", ["REF"]); ("FILE_END", ["SE"]) ]);
    ("EDIFACT",
     [ ("ENVELOPE", ["UNB"]); ("INNER_MESSAGE", []); ("RECORD_START", ["UNH"]);
       ("ADDRESS", ["NAD"]); ("LOOP", ["BGM"]); ("CLAIM_DETAILS", []);
       ("PART_DETAILS", ["LIN"]); ("DATE_DETAILS", ["DTM"]);
       ("SERVICE_LINE_DETAILS", []); ("PROBLEM_RECORD_DETAILS", []);
       ("MESSAGE", ["MSG"]); ("TOTAL_CHARGE", []); ("ACCUM", [""]);
       ("RELEASE", [""]); ("RELEASE_TYPE", ["SCC"]); ("QUANTITY", ["QTY"]);
       ("REFERENCE", ["REF"]); ("FILE_END", ["UNT"]) ]) ].

Definition DATE_FORMATS : list (string * string) :=
  [ ("0020", "%y%m%d"); ("0030", "%y%m%d"); ("0040", "%Y%m%d");
    ("0050", "%Y%m%d"); ("0060", "%Y%m%d") ].

Definition START_SEGMENTS : list (string * string) :=
  [ ("861", "BRA"); ("810", "BIG"); ("824", "BGN"); ("997", "AK1");
    ("856", "BSN"); ("822", "BGN"); ("862", "BSS"); ("142", "BGN");
    ("853", "BGN"); ("830", "BFR"); ("850", "BEG"); ("855", "BAK");
    ("860", "BCH"); ("864", "BMG"); ("820", "TRN"); ("832", "BCT") ].

(** The defaults of the keyword parameters of [universal_element_extract]
    and of [ElementExtractionFailure]. *)
Definition default_format_in : pyval := VStr "%Y%m%d".
Definition default_format_out : string := "%m-%d-%Y".

(** [table[a][b]] on a nested table. *)
Definition table_get2 {A} (t : list (string * list (string * A))) (a b : string) : result A :=
  match table_get t a with
  | Some t' =>
      match table_get t' b with
      | Some x => Ok x
      | None => Raise KeyError
      end
  | None => Raise KeyError
  end.

(** ** Reference versions of the two library calls

    The model below takes [datetime.strptime(..).strftime(..)] and
    [str.encode().decode('unicode_escape')] as parameters.  The definitions
    of this part are reference versions of them on the inputs the
    repository's own formats and separators need; they serve to run the
    model on concrete segments. *)

Module Reference.

Inductive directive := DY | Dy | Dm | Dd.

Inductive token :=
  | TDir (d : directive)
  | TLit (c : ascii).

(** A format made of [%Y], [%y], [%m], [%d], [%%] and literal characters. *)
Fixpoint parse_format (fmt : string) : option (list token) :=
  match fmt with
  | EmptyString => Some []
  | String "%" (String c rest) =>
      match
        (if Ascii.eqb c "Y" then Some (TDir DY)
         else if Ascii.eqb c "y" then Some (TDir Dy)
         else if Ascii.eqb c "m" then Some (TDir Dm)
         else if Ascii.eqb c "d" then Some (TDir Dd)
         else if Ascii.eqb c "%" then Some (TLit "%")
         else None)
      with
      | Some t => option_map (cons t) (parse_format rest)
      | None => None
      end
  | String "%" EmptyString => None
  | String c rest => option_map (cons (TLit c)) (parse_format rest)
  end.

Definition digit (c : ascii) : option nat :=
  let n := nat_of_ascii c in
  if ((48 <=? n) && (n <=? 57))%nat then Some (n - 48)%nat else None.

Definition is_letter (c : ascii) : bool :=
  let n := nat_of_ascii c in
  ((65 <=? n) && (n <=? 90) || (97 <=? n) && (n <=? 122) || (128 <=? n))%nat.

Definition count_dir (d : directive) (toks : list token) : nat :=
  length (List.filter (fun t => match t, d with
                           | TDir DY, DY | TDir Dy, Dy | TDir Dm, Dm | TDir Dd, Dd => true
                           | _, _ => false
                           end) toks).

(** The input formats the reference parser covers: no directive twice,
    one year directive at most, literals that the pattern of [strptime]
    matches as themselves. *)
Definition supported_in (toks : list token) : bool :=
  ((count_dir DY toks + count_dir Dy toks <=? 1) && (count_dir Dm toks <=? 1)
   && (count_dir Dd toks <=? 1))%nat
  && forallb (fun t => match t with
                       | TLit c => negb (is_letter c) && negb (PyStr.is_space c)
                       | TDir _ => true
                       end) toks.

(** The alternatives of a directive's pattern at the head of [s], in the
    order the pattern lists them: the number read and the rest. *)
Definition alternatives (d : directive) (s : string) : list (nat * string) :=
  match d with
  | DY =>
      match s with
      | String a (String b (String c (String e rest))) =>
          match digit a, digit b, digit c, digit e with
          | Some x, Some y, Some z, Some t => [((1000 * x + 100 * y + 10 * z + t)%nat, rest)]
          | _, _, _, _ => []
          end
      | _ => []
      end
  | Dy =>
      match s with
      | String a (String b rest) =>
          match digit a, digit b with
          | Some x, Some y => [((10 * x + y)%nat, rest)]
          | _, _ => []
          end
      | _ => []
      end
  | Dm =>
      match s with
      | String a rest1 =>
          let two :=
            match rest1 with
            | String b rest2 =>
                match digit a, digit b with
                | Some 1%nat, Some y => if (y <=? 2)%nat then [((10 + y)%nat, rest2)] else []
                | Some 0%nat, Some y => if (1 <=? y)%nat then [(y, rest2)] else []
                | _, _ => []
                end
            | EmptyString => []
            end in
          let one :=
            match digit a with
            | Some x => if (1 <=? x)%nat then [(x, rest1)] else []
            | None => []
            end in
          two ++ one
      | EmptyString => []
      end
  | Dd =>
      match s with
      | String a rest1 =>
          let two :=
            match rest1 with
            | String b rest2 =>
                match digit a, digit b with
                | Some 3%nat, Some y => if (y <=? 1)%nat then [((30 + y)%nat, rest2)] else []
                | Some 1%nat, Some y => [((10 + y)%nat, rest2)]
                | Some 2%nat, Some y => [((20 + y)%nat, rest2)]
                | Some 0%nat, Some y => if (1 <=? y)%nat then [(y, rest2)] else []
                | _, _ => []
                end
            | EmptyString => []
            end in
          let one :=
            match digit a with
            | Some x => if (1 <=? x)%nat then [(x, rest1)] else []
            | None => []
            end in
          let padded :=
            match rest1 with
            | String b rest2 =>
                if Ascii.eqb a " " then
                  match digit b with
                  | Some y => if (1 <=? y)%nat then [(y, rest2)] else []
                  | None => []
                  end
                else []
            | EmptyString => []
            end in
          two ++ one ++ padded
      | EmptyString => []
      end
  end.

(** The fields read so far: [%Y], [%y], [%m], [%d]. *)
Record fields := {
  f_Y : option nat;
  f_y : option nat;
  f_m : option nat;
  f_d : option nat
}.

Definition set_field (d : directive) (v : nat) (f : fields) : fields :=
  match d with
  | DY => {| f_Y := Some v; f_y := f_y f; f_m := f_m f; f_d := f_d f |}
  | Dy => {| f_Y := f_Y f; f_y := Some v; f_m := f_m f; f_d := f_d f |}
  | Dm => {| f_Y := f_Y f; f_y := f_y f; f_m := Some v; f_d := f_d f |}
  | Dd => {| f_Y := f_Y f; f_y := f_y f; f_m := f_m f; f_d := Some v |}
  end.

Fixpoint first_some {A B} (g : A -> option B) (l : list A) : option B :=
  match l with
  | [] => None
  | a :: l' => match g a with Some b => Some b | None => first_some g l' end
  end.

(** The first match of the pattern at the start of [s], by backtracking
    over the alternatives; the text after the match is returned. *)
Fixpoint match_tokens (toks : list token) (s : string) (f : fields) : option (fields * string) :=
  match toks with
  | [] => Some (f, s)
  | TLit c :: toks' =>
      match s with
      | String c' s' => if Ascii.eqb c c' then match_tokens toks' s' f else None
      | EmptyString => None
      end
  | TDir d :: toks' =>
      first_some (fun '(v, rest) => match_tokens toks' rest (set_field d v f)) (alternatives d s)
  end.

Definition is_leap (y : nat) : bool :=
  ((y mod 4 =? 0) && (negb (y mod 100 =? 0) || (y mod 400 =? 0)))%nat.

Definition days_in_month (y m : nat) : nat :=
  match m with
  | 2 => if is_leap y then 29 else 28
  | 4 | 6 | 9 | 11 => 30
  | _ => 31
  end%nat.

Definition pad2 (n : nat) : string :=
  String (ascii_of_nat (48 + n / 10 mod 10)) (String (ascii_of_nat (48 + n mod 10)) "").

Definition pad4 (n : nat) : string :=
  pad2 (n / 100) +:+ pad2 (n mod 100).

Fixpoint format_date (toks : list token) (y m d : nat) : string :=
  match toks with
  | [] => ""
  | TLit c :: toks' => String c (format_date toks' y m d)
  | TDir DY :: toks' => pad4 y +:+ format_date toks' y m d
  | TDir Dy :: toks' => pad2 (y mod 100) +:+ format_date toks' y m d
  | TDir Dm :: toks' => pad2 m +:+ format_date toks' y m d
  | TDir Dd :: toks' => pad2 d +:+ format_date toks' y m d
  end.

(** [datetime.strptime(element, fmt_in).strftime(fmt_out)]: the text on the
    left, or on the right the message of the exception raised (for a
    format that is no [str], the message without the name of its type).
    [%Y] is written with four digits. *)
Definition strptime_strftime (element : string) (fmt_in : pyval) (fmt_out : string) : string + string :=
  match fmt_in with
  | VStr fin =>
      match parse_format fin, parse_format fmt_out with
      | Some tin, Some tout =>
          if supported_in tin then
            match match_tokens tin element {| f_Y := None; f_y := None; f_m := None; f_d := None |} with
            | None =>
                inr ("time data " +:+ PyStr.repr element +:+ " does not match format " +:+ PyStr.repr fin)
            | Some (f, String c rest) => inr ("unconverted data remains: " +:+ String c rest)
            | Some (f, EmptyString) =>
                let year :=
                  match f_Y f, f_y f with
                  | Some y, _ => y
                  | None, Some y => if (y <=? 68)%nat then (2000 + y)%nat else (1900 + y)%nat
                  | None, None => 1900%nat
                  end in
                let month := default 1%nat (f_m f) in
                let day := default 1%nat (f_d f) in
                if (year =? 0)%nat then inr "year 0 is out of range"
                else if (days_in_month year month <? day)%nat then inr "day is out of range for month"
                else inl (format_date tout year month day)
            end
          else inr "format outside the reference converter"
      | _, _ => inr "format outside the reference converter"
      end
  | _ => inr "strptime() argument 2 must be str"
  end.

Definition hex_value (c : ascii) : option nat :=
  let n := nat_of_ascii c in
  if ((48 <=? n) && (n <=? 57))%nat then Some (n - 48)%nat
  else if ((97 <=? n) && (n <=? 102))%nat then Some (n - 87)%nat
  else if ((65 <=? n) && (n <=? 70))%nat then Some (n - 55)%nat
  else None.

(** The character a one-letter escape stands for. *)
Definition simple_escape (c : ascii) : option ascii :=
  if Ascii.eqb c "\" then Some "\"%char
  else if Ascii.eqb c "'" then Some "'"%char
  else if Ascii.eqb c PyStr.dquote then Some PyStr.dquote
  else if Ascii.eqb c "a" then Some (ascii_of_nat 7)
  else if Ascii.eqb c "b" then Some (ascii_of_nat 8)
  else if Ascii.eqb c "f" then Some (ascii_of_nat 12)
  else if Ascii.eqb c "n" then Some (ascii_of_nat 10)
  else if Ascii.eqb c "r" then Some (ascii_of_nat 13)
  else if Ascii.eqb c "t" then Some (ascii_of_nat 9)
  else if Ascii.eqb c "v" then Some (ascii_of_nat 11)
  else None.

Definition result_map {A B} (g : A -> B) (r : result A) : result B :=
  match r with
  | Ok a => Ok (g a)
  | Raise e => Raise e
  end.

(** [s.encode().decode('unicode_escape')] for text whose escapes are the
    one-letter ones and [\xhh]: a code point from 128 on is read back as
    the two bytes of its UTF-8 form, an unknown escape stays as it is, a
    cut-off escape raises.  Octal, [\u], [\U] and [\N] escapes are not
    covered and are reported as a decoding error. *)
Fixpoint escape_decode (s : string) : result string :=
  match s with
  | EmptyString => Ok ""
  | String c s1 =>
      if Ascii.eqb c "\" then
        match s1 with
        | EmptyString => Raise UnicodeDecodeError
        | String e s2 =>
            match simple_escape e with
            | Some ch => result_map (String ch) (escape_decode s2)
            | None =>
                if Ascii.eqb e "x" then
                  match s2 with
                  | String h1 (String h2 s3) =>
                      match hex_value h1, hex_value h2 with
                      | Some a, Some b =>
                          result_map (String (ascii_of_nat (16 * a + b))) (escape_decode s3)
                      | _, _ => Raise UnicodeDecodeError
                      end
                  | _ => Raise UnicodeDecodeError
                  end
                else if (nat_of_ascii e =? 10)%nat then escape_decode s2
                else if Ascii.eqb e "u" || Ascii.eqb e "U" || Ascii.eqb e "N"
                        || ((48 <=? nat_of_ascii e) && (nat_of_ascii e <=? 55))%nat
                then Raise UnicodeDecodeError
                else result_map (fun t => String "\" (String e t)) (escape_decode s2)
            end
        end
      else
        let n := nat_of_ascii c in
        if (n <? 128)%nat then result_map (String c) (escape_decode s1)
        else result_map (fun t => String (ascii_of_nat (192 + n / 64))
                                    (String (ascii_of_nat (128 + n mod 64)) t))
                        (escape_decode s1)
  end.

End Reference.

(** ** A parser and a traversal state to run the model on *)

(** The attributes of an [X12] parser built with the default separators,
    in the order [__init__] sets them. *)
Definition x12_attributes : gmap string pyval :=
  list_to_map
    [ ("language", VStr "X12");
      ("element_separator", VStr "*");
      ("subelement_separator", VStr "<");
      ("segment_separator", VStr "~");
      ("envelope_segment", VTuple [VStr "ISA"]);
      ("inner_message_segment", VTuple [VStr "GS"]);
      ("record_start_segment", VTuple [VStr "BFR"]);
      ("address_segment", VTuple [VStr "N1"]);
      ("loop_segment", VTuple [VStr "ST"]);
      ("claim_details_segment", VTuple [VStr "N9"]);
      ("part_details_segment", VTuple [VStr "LIN"]);
      ("date_details_segment", VTuple [VStr "DTM"]);
      ("release_type_segment", VTuple [VStr "SDP"]);
      ("release_segment", VTuple [VStr "FST"]);
      ("qty_details_segment", VTuple [VStr "QTY"]);
      ("reference_segment", VTuple [VStr "REF"]);
      ("accum_segment", VTuple [VStr "SHP"; VStr "ATH"]);
      ("service_line_details_segment", VTuple [VStr "SSS"]);
      ("problem_record_details_segment", VTuple [VStr "PRR"]);
      ("message_segment", VTuple [VStr "MSG"]);
      ("total_charge_segment", VTuple [VStr "AMT"]);
      ("file_end_segment", VTuple [VStr "SE"]);
      ("DISPATCH_MAP",
       VDict
         [ (VTuple [VStr "ISA"], VMethod "handle_envelope");
           (VTuple [VStr "GS"], VMethod "handle_inner");
           (VTuple [VStr "BFR"], VMethod "handle_start");
           (VTuple [VStr "N1"], VMethod "handle_address");
           (VTuple [VStr "LIN"], VMethod "handle_part");
           (VTuple [VStr "FST"], VMethod "handle_release");
           (VTuple [VStr "SHP"; VStr "ATH"], VMethod "handle_accum");
           (VTuple [VStr "SE"], VMethod "handle_end");
           (VTuple [VStr "ST"], VMethod "handle_loop") ]) ].

(** An open Document (at location 0) with one Part (at location 1), as
    [EdiDocument("0001")] and [EdiPart("P100")] leave them. *)
Definition sample_document : instance :=
  {| cls := "EdiDocument";
     attrs := list_to_map
                [ ("ref_no", VStr "0001"); ("part_list", VList [VRef 1%nat]);
                  ("document_issue_date", VStr "01-15-2025") ] |}.

Definition sample_part : instance :=
  {| cls := "EdiPart";
     attrs := list_to_map
                [ ("part_no", VStr "P100"); ("revision", VNone); ("part_rev", VStr "P100-None");
                  ("release_list", VList []); ("po", VNone); ("address", VNone);
                  ("total_accum", VNone); ("total_accum_start_date", VNone);
                  ("total_accum_end_date", VNone) ] |}.

(** A parser after an inner-message segment of version 0040, in the middle
    of a Document. *)
Definition sample_world : World :=
  {| self := <["date_format" := VStr "%Y%m%d"]> (<["edi_version" := VStr "0040"]> x12_attributes);
     state := list_to_map
                [ ("edi_class", VRef 0%nat); ("edi_class_list", VList []);
                  ("part_record", VRef 1%nat); ("address", VNone);
                  ("document_issue_date", VStr "01-15-2025") ];
     heap := [sample_document; sample_part] |}.

(** A world with nothing in it: where a parser is constructed. *)
Definition empty_world : World := {| self := ∅; state := ∅; heap := [] |}.

(** ** The parser: [EdiBase] and [EdiX12] *)

Section Edi.

(** [datetime.strptime(element, fmt_in).strftime(fmt_out)]: [inl] the
    reformatted date, [inr] the text [str(e)] of the exception [e] raised. *)
Variable strptime_strftime : string -> pyval -> string -> string + string.

(** [s.encode().decode('unicode_escape')]. *)
Variable escape_decode : string -> result string.

(** [text.split(sep)] for the separator stored in the parser. *)
Definition split_by (sep : pyval) (text : string) : result (list string) :=
  match sep with
  | VStr "" => Raise ValueError
  | VStr t => Ok (PyStr.split_on t text)
  | VNone => Ok (PyStr.split_ws text)
  | _ => Raise TypeError
  end.

(** [EdiBase.handle_extraction_error]: the log is created on first use;
    the failure is appended and returned. *)
Definition handle_extraction_error (error : ElementExtractionFailure) : M pyval :=
  fun w =>
    match self w !! "extraction_errors" with
    | None => (Ok (VFail error), with_self (insert "extraction_errors" (VList [VFail error])) w)
    | Some (VList log) =>
        (Ok (VFail error), with_self (insert "extraction_errors" (VList (log ++ [VFail error]))) w)
    | Some _ => (Raise AttributeError, w)
    end.

(** The inner function [extract_one] of [universal_element_extract]; the
    first five arguments are the variables of the enclosing call it
    closes over ([position] is the whole request, [single_date] whether the
    request is an [int]).  The calls to [warn] only report and are left
    out. *)
Definition extract_one (segment : string) (position : position) (date : bool)
    (date_format_in : pyval) (date_format_out : string) (single_date : bool)
    (pos : option leaf_position) (force_date : option bool) : M pyval :=
  let subpos := match pos with Some (PosTuple _ j) => Some j | _ => None end in
  sep <- getattr "element_separator" ;;
  elements <- lift (split_by sep segment) ;;
  match pos with
  | None => raise TypeError
  | Some lp =>
      let i := match lp with PosInt i => i | PosTuple i _ => i end in
      match PyStr.index elements i with
      | None =>
          handle_extraction_error
            {| failure_point := "Element Index";
               failure_reason :=
                 "Position " +:+ PyStr.str_of_int i +:+ " out of range for " +:+ PyStr.repr segment;
               segment := segment;
               failed_position := Single (PosInt i);
               element := None;
               subposition := None;
               date := false;
               date_format_in := default_format_in;
               date_format_out := default_format_out |}
      | Some element0 =>
          let date_stage (element : string) : M pyval :=
            if date then
              match strptime_strftime element date_format_in date_format_out with
              | inl converted => ret (VStr converted)
              | inr reason =>
                  if single_date || default false force_date then
                    handle_extraction_error
                      {| failure_point := "Date conversion";
                         failure_reason := reason;
                         segment := segment;
                         failed_position := position;
                         element := Some element;
                         subposition := subpos;
                         date := false;
                         date_format_in := date_format_in;
                         date_format_out := date_format_out |}
                  else ret (VStr element)
              end
            else ret (VStr element) in
          match subpos with
          | None => date_stage element0
          | Some j =>
              subsep <- getattr "subelement_separator" ;;
              parts <- lift (split_by subsep element0) ;;
              match PyStr.index parts j with
              | None =>
                  handle_extraction_error
                    {| failure_point := "Subelement Index";
                       failure_reason :=
                         "Subposition " +:+ PyStr.str_of_int j +:+ " out of range for "
                         +:+ PyStr.repr element0;
                       segment := segment;
                       failed_position := position;
                       element := Some element0;
                       subposition := Some j;
                       date := false;
                       date_format_in := default_format_in;
                       date_format_out := default_format_out |}
              | Some element1 => date_stage element1
              end
          end
      end
  end.

(** The loop over the items of a mapping request: [result[key] = ...]. *)
Fixpoint extract_named (one : option leaf_position -> option bool -> M pyval)
    (items : list (string * named_position)) (result : list (pyval * pyval))
    : M (list (pyval * pyval)) :=
  match items with
  | [] => ret result
  | (key, spec) :: items' =>
      let '(pos, force_date) :=
        match spec with
        | Spec pos force_date => (pos, force_date)
        | Plain p => (Some p, None)
        end in
      v <- one pos force_date ;;
      extract_named one items' (dict_set (VStr key) v result)
  end.

(** [EdiBase.universal_element_extract]. *)
Definition universal_element_extract (segment : string) (position : position)
    (date : bool) (date_format_in : pyval) (date_format_out : string) : M pyval :=
  let single_date := match position with Single (PosInt _) => true | _ => false end in
  let one := extract_one segment position date date_format_in date_format_out single_date in
  match position with
  | Single p => one (Some p) None
  | PosList l => vs <- mapM (fun p => one (Some p) None) l ;; ret (VList vs)
  | PosDict d => result <- extract_named one d [] ;; ret (VDict result)
  end.

(** *** [EdiBase.__init__] *)

(** The attributes [default_segments] sets, each with its role in
    [EDI_SEGMENTS], in the order of the assignments. *)
Definition segment_attributes : list (string * string) :=
  [ ("envelope_segment", "ENVELOPE"); ("inner_message_segment", "INNER_MESSAGE");
    ("record_start_segment", "RECORD_START"); ("address_segment", "ADDRESS");
    ("loop_segment", "LOOP"); ("claim_details_segment", "CLAIM_DETAILS");
    ("part_details_segment", "PART_DETAILS"); ("date_details_segment", "DATE_DETAILS");
    ("release_type_segment", "RELEASE_TYPE"); ("release_segment", "RELEASE");
    ("qty_details_segment", "QUANTITY"); ("reference_segment", "REFERENCE");
    ("accum_segment", "ACCUM"); ("service_line_details_segment", "SERVICE_LINE_DETAILS");
    ("problem_record_details_segment", "PROBLEM_RECORD_DETAILS");
    ("message_segment", "MESSAGE"); ("total_charge_segment", "TOTAL_CHARGE");
    ("file_end_segment", "FILE_END") ].

(** The entries of the [DISPATCH_MAP] display: the attribute that gives the
    key, and the handler. *)
Definition dispatch_entries : list (string * string) :=
  [ ("envelope_segment", "handle_envelope"); ("inner_message_segment", "handle_inner");
    ("record_start_segment", "handle_start"); ("address_segment", "handle_address");
    ("part_details_segment", "handle_part"); ("release_segment", "handle_release");
    ("accum_segment", "handle_accum"); ("file_end_segment", "handle_end");
    ("loop_segment", "handle_loop") ].

(** [table[self.language][role]]. *)
Definition by_language {A} (t : list (string * list (string * A))) (role : string) : M A :=
  lang <- getattr "language" ;;
  match lang with
  | VStr l => lift (table_get2 t l role)
  | _ => raise KeyError
  end.

Fixpoint for_each {A} (f : A -> M unit) (l : list A) : M unit :=
  match l with
  | [] => ret tt
  | a :: l' => f a ;;; for_each f l'
  end.

Definition default_segments : M unit :=
  for_each (fun '(attr, role) =>
              codes <- by_language EDI_SEGMENTS role ;;
              setattr attr (VTuple (map VStr codes)))
           segment_attributes.

Fixpoint build_dispatch (entries : list (string * string)) (d : list (pyval * pyval))
    : M (list (pyval * pyval)) :=
  match entries with
  | [] => ret d
  | (attr, handler) :: entries' =>
      key <- getattr attr ;;
      if hashable key then build_dispatch entries' (dict_set key (VMethod handler) d)
      else raise TypeError
  end.

(** [self.name = self.name.encode().decode('unicode_escape')]. *)
Definition decode_attribute (name : string) : M unit :=
  v <- getattr name ;;
  match v with
  | VStr s => d <- lift (escape_decode s) ;; setattr name (VStr d)
  | _ => raise AttributeError
  end.

(** [not separator] for an optional [str] argument. *)
Definition not_given (separator : option string) : bool :=
  match separator with
  | None => true
  | Some s => String.eqb s ""
  end.

Definition EdiBase_init (language : string)
    (element_separator subelement_separator segment_separator : option string)
    (kwargs : list (string * pyval)) : M unit :=
  if negb (existsb (String.eqb language) VALID_LANGUAGES) then raise ValueError
  else
    setattr "language" (VStr language) ;;;
    (if not_given element_separator
     then d <- by_language DEFAULT_SEPARATORS "ELEMENT" ;; setattr "element_separator" (VStr d)
     else ret tt) ;;;
    (if not_given subelement_separator
     then d <- by_language DEFAULT_SEPARATORS "SUBELEMENT" ;; setattr "subelement_separator" (VStr d)
     else ret tt) ;;;
    (if not_given segment_separator
     then d <- by_language DEFAULT_SEPARATORS "SEGMENT" ;; setattr "segment_separator" (VStr d)
     else ret tt) ;;;
    decode_attribute "element_separator" ;;;
    decode_attribute "subelement_separator" ;;;
    decode_attribute "segment_separator" ;;;
    default_segments ;;;
    for_each (fun '(key, value) => setattr key value) kwargs ;;;
    d <- build_dispatch dispatch_entries [] ;;
    setattr "DISPATCH_MAP" (VDict d).

(** *** Classes and instantiation *)

(** A class body: the names it declares with [@abstractmethod] and the
    methods it defines. *)
Record class_body := {
  declared_abstract : list string;
  defined : list string
}.

Definition EdiBase_body : class_body :=
  {| declared_abstract :=
       [ "handle_envelope"; "handle_inner"; "handle_loop"; "handle_start"; "handle_address";
         "handle_part"; "handle_release"; "handle_accum"; "handle_end" ];
     defined :=
       [ "__init__"; "handle_extraction_error"; "default_segments"; "universal_element_extract" ] |}.

Definition EdiX12_body : class_body :=
  {| declared_abstract := [];
     defined :=
       [ "__init__"; "handle_envelope"; "handle_inner"; "handle_loop"; "handle_start";
         "handle_address"; "handle_accum" ] |}.

(** [cls.__abstractmethods__] as [ABCMeta] computes it: the names the class
    declares abstract, and those of the base's that it does not define. *)
Definition abstractmethods (base_abstract : list string) (body : class_body) : list string :=
  declared_abstract body
  ++ List.filter (fun name => negb (existsb (String.eqb name) (defined body))) base_abstract.

Definition EdiBase_abstractmethods : list string := abstractmethods [] EdiBase_body.

Definition EdiX12_abstractmethods : list string :=
  abstractmethods EdiBase_abstractmethods EdiX12_body.

(** [cls(...)]: a class with abstract methods left is not instantiated;
    otherwise [__init__] runs on a new, empty instance. *)
Definition instantiate (abstract : list string) (init : M unit) : M unit :=
  fun w =>
    match abstract with
    | [] => init (with_self (fun _ => ∅) w)
    | _ :: _ => (Raise TypeError, w)
    end.

(** [EdiX12.__init__], and [EdiX12(...)]. *)
Definition EdiX12_init (element_separator subelement_separator segment_separator : option string)
    (kwargs : list (string * pyval)) : M unit :=
  EdiBase_init "X12" element_separator subelement_separator segment_separator kwargs.

Definition EdiX12 (element_separator subelement_separator segment_separator : option string)
    (kwargs : list (string * pyval)) : M unit :=
  instantiate EdiX12_abstractmethods
    (EdiX12_init element_separator subelement_separator segment_separator kwargs).

(** *** The handlers of [EdiX12] *)

Definition extract_element (segment : string) (i : Z) : M pyval :=
  universal_element_extract segment (Single (PosInt i)) false default_format_in default_format_out.

Definition handle_envelope (segment : string) : M unit :=
  for_each (fun '(attr, i) => v <- extract_element segment i ;; setattr attr v)
    [ ("sender_id", 6); ("sender_qualifier", 5); ("receiver_id", 8);
      ("receiver_qualifier", 7); ("transaction_no", 13) ].

(** [v[:4]]. *)
Definition slice4 (v : pyval) : result pyval :=
  match v with
  | VStr s => Ok (VStr (PyStr.take 4 s))
  | VList l => Ok (VList (take 4 l))
  | VTuple l => Ok (VTuple (take 4 l))
  | _ => Raise TypeError
  end.

(** [DATE_FORMATS.get(version, '%Y%m%d')]. *)
Definition date_format_of (version : pyval) : result pyval :=
  match version with
  | VStr v => Ok (VStr (default "%Y%m%d" (table_get DATE_FORMATS v)))
  | _ => if hashable version then Ok (VStr "%Y%m%d") else Raise TypeError
  end.

Definition handle_inner (segment : string) : M unit :=
  v <- extract_element segment 8 ;;
  version <- lift (slice4 v) ;;
  setattr "edi_version" version ;;;
  edi_version <- getattr "edi_version" ;;
  fmt <- lift (date_format_of edi_version) ;;
  setattr "date_format" fmt ;;;
  date_format <- getattr "date_format" ;;
  issued <- universal_element_extract segment (Single (PosInt 4)) true date_format default_format_out ;;
  state_set "document_issue_date" issued.

(** [START_SEGMENTS[document_type]]. *)
Definition start_segment_of (document_type : pyval) : result pyval :=
  match document_type with
  | VStr t =>
      match table_get START_SEGMENTS t with
      | Some code => Ok (VStr code)
      | None => Raise KeyError
      end
  | _ => if hashable document_type then Raise KeyError else Raise TypeError
  end.

Definition handle_loop (segment : string) : M unit :=
  v <- extract_element segment 1 ;;
  setattr "document_type" v ;;;
  document_type <- getattr "document_type" ;;
  code <- lift (start_segment_of document_type) ;;
  setattr "record_start_segment" code.

Definition GROUP_3 : list string := ["BFR"; "BEG"; "BAK"; "BCH"].
Definition GROUP_2 : list string := ["BSN"; "BSS"; "BGN"; "AK1"; "TRN"].
Definition GROUP_1 : list string := ["BRA"; "BIG"].

Definition record_no_index (record_start_segment : pyval) : Z :=
  if in_strs record_start_segment GROUP_3 then 3
  else if in_strs record_start_segment GROUP_2 then 2
  else if in_strs record_start_segment GROUP_1 then 1
  else 0.

(** [EdiDocument(ref_no)]. *)
Definition EdiDocument (ref_no : pyval) : M pyval :=
  new_instance {| cls := "EdiDocument";
                  attrs := <["part_list" := VList []]> (<["ref_no" := ref_no]> ∅) |}.

(** [state[key].append(item)]. *)
Definition state_append (key : string) (item : M pyval) : M unit :=
  target <- state_get key ;;
  match target with
  | VList l => x <- item ;; state_set key (VList (l ++ [x]))
  | _ => raise AttributeError
  end.

Definition handle_start (segment : string) : M unit :=
  record_start_segment <- getattr "record_start_segment" ;;
  record_no <- extract_element segment (record_no_index record_start_segment) ;;
  open <- state_get "edi_class" ;;
  (if truthy open
   then state_append "edi_class_list" (state_get "edi_class") ;;;
        state_set "edi_class" VNone
   else ret tt) ;;;
  edi_class <- EdiDocument record_no ;;
  issued <- state_get "document_issue_date" ;;
  obj_setattr edi_class "document_issue_date" issued ;;;
  date_format <- getattr "date_format" ;;
  horizon <- universal_element_extract segment (PosList [PosInt 6; PosInt 7]) true
               date_format default_format_out ;;
  match horizon with
  | VList [horizon_start; horizon_end] =>
      obj_setattr edi_class "horizon_start_date" horizon_start ;;;
      obj_setattr edi_class "horizon_end_date" horizon_end ;;;
      state_set "edi_class" edi_class
  | _ => raise ValueError
  end.

Definition handle_address (segment : string) : M unit :=
  address_type <- extract_element segment 1 ;;
  (if eq_str address_type "ST"
   then v <- extract_element segment 4 ;; state_set "address" v
   else ret tt) ;;;
  address <- state_get "address" ;;
  both <- (if truthy address
           then part_record <- state_get "part_record" ;; ret (truthy part_record)
           else ret false) ;;
  if both : bool
  then plant <- state_get "address" ;;
       part_record <- state_get "part_record" ;;
       obj_setattr part_record "plant" plant
  else ret tt.

(** [a, b, ... = values] followed by [state["part_record"].name = a] for
    each name in turn. *)
Fixpoint assign_to_part (names : list string) (values : list pyval) : M unit :=
  match names, values with
  | [], _ => ret tt
  | name :: names', v :: values' =>
      part_record <- state_get "part_record" ;;
      obj_setattr part_record name v ;;;
      assign_to_part names' values'
  | _ :: _, [] => raise ValueError
  end.

(** The list request of [handle_accum], unpacked into as many names. *)
Definition accum_fields (segment : string) (positions : list Z) (names : list string) : M unit :=
  r <- universal_element_extract segment (PosList (map PosInt positions)) true
         default_format_in default_format_out ;;
  match r with
  | VList values =>
      if Nat.eqb (length values) (length names) then assign_to_part names values
      else raise ValueError
  | _ => raise TypeError
  end.

Definition handle_accum (segment : string) : M unit :=
  accum_type <- extract_element segment 1 ;;
  part_record <- state_get "part_record" ;;
  if truthy part_record then
    if eq_str accum_type "01" then
      accum_fields segment [2; 4] ["last_received_ship_quantity"; "last_received_ship_date"]
    else if eq_str accum_type "02" then
      accum_fields segment [2; 4; 6] ["total_accum"; "total_accum_start_date"; "total_accum_end_date"]
    else if eq_str accum_type "PQ" then
      accum_fields segment [3; 5; 2] ["total_accum"; "total_accum_start_date"; "total_accum_end_date"]
    else ret tt
  else ret tt.

(** *** Reading the results *)

(** The failure log of the parser: empty until the first failure. *)
Definition extraction_errors (w : World) : list pyval :=
  match self w !! "extraction_errors" with
  | Some (VList log) => log
  | _ => []
  end.

(** The failures among the leaves of a returned value, in the order of the
    leaves. *)
Definition is_failure (v : pyval) : bool :=
  match v with
  | VFail _ => true
  | _ => false
  end.

Definition returned_failures (v : pyval) : list pyval :=
  match v with
  | VFail f => [VFail f]
  | VList l => List.filter is_failure l
  | VDict d => List.filter is_failure (map snd d)
  | _ => []
  end.

(** [target.name] for an instance in the heap. *)
Definition obj_getattr (w : World) (target : pyval) (name : string) : option pyval :=
  match target with
  | VRef l => match heap w !! l with
              | Some o => attrs o !! name
              | None => None
              end
  | _ => None
  end.

(** The log is absent or is a list, so that a failure can be appended. *)
Definition log_ok (w : World) : Prop :=
  match self w !! "extraction_errors" with
  | None | Some (VList _) => True
  | Some _ => False
  end.

(** The world after [error] has been appended to the log. *)
Definition log_failure (error : ElementExtractionFailure) (w : World) : World :=
  with_self (insert "extraction_errors" (VList (extraction_errors w ++ [VFail error]))) w.

(** [segment.split(self.element_separator)]. *)
Definition elements_of (w : World) (segment : string) : result (list string) :=
  match self w !! "element_separator" with
  | Some sep => split_by sep segment
  | None => Raise AttributeError
  end.

(** The index a leaf request takes in the list of elements. *)
Definition element_index (p : leaf_position) : Z :=
  match p with
  | PosInt i => i
  | PosTuple i _ => i
  end.

(** A mapping request has every label once. *)
Definition well_formed (position : position) : Prop :=
  match position with
  | PosDict d => NoDup (map fst d)
  | _ => True
  end.

(** [w'] is [w] with [produced] appended to the log and nothing else
    changed. *)
Definition grows (w w' : World) (produced : list pyval) : Prop :=
  state w' = state w /\ heap w' = heap w
  /\ (forall name, name <> "extraction_errors" -> self w' !! name = self w !! name)
  /\ extraction_errors w' = extraction_errors w ++ produced
  /\ (log_ok w -> log_ok w').

(** What one leaf extraction does: text leaves the world as it is, a
    failure is the last entry of the log, an exception leaves the world as
    it is. *)
Definition leaf_outcome (w : World) (out : result pyval * World) : Prop :=
  match fst out with
  | Ok (VStr _) => snd out = w
  | Ok (VFail f) => log_ok w /\ snd out = log_failure f w
  | Ok _ => False
  | Raise _ => snd out = w
  end.

(** The failure [extract_one] builds when element [i] is missing. *)
Definition element_index_failure (segment : string) (i : Z) : ElementExtractionFailure :=
  {| failure_point := "Element Index";
     failure_reason :=
       "Position " +:+ PyStr.str_of_int i +:+ " out of range for " +:+ PyStr.repr segment;
     segment := segment;
     failed_position := Single (PosInt i);
     element := None;
     subposition := None;
     date := false;
     date_format_in := default_format_in;
     date_format_out := default_format_out |}.

(** The failure [extract_one] builds when [element] is no date. *)
Definition date_conversion_failure (reason segment : string) (position : position)
    (element : string) (subpos : option Z) (date_format_in : pyval) (date_format_out : string)
    : ElementExtractionFailure :=
  {| failure_point := "Date conversion";
     failure_reason := reason;
     segment := segment;
     failed_position := position;
     element := Some element;
     subposition := subpos;
     date := false;
     date_format_in := date_format_in;
     date_format_out := date_format_out |}.

(** The date stage of a list request: the reformatted date, or the text as
    it is when it is no date. *)
Definition best_effort_date (e : string) (date_format_in : pyval) (date_format_out : string)
    : string :=
  match strptime_strftime e date_format_in date_format_out with
  | inl converted => converted
  | inr _ => e
  end.

(** The leaf a request for element [i] gives without the date option, and
    inside a list request with it. *)
Definition plain_leaf (segment : string) (elements : list string) (i : Z) : pyval :=
  match PyStr.index elements i with
  | Some e => VStr e
  | None => VFail (element_index_failure segment i)
  end.

Definition dated_leaf (date_format_in : pyval) (date_format_out : string)
    (segment : string) (elements : list string) (i : Z) : pyval :=
  match PyStr.index elements i with
  | Some e => VStr (best_effort_date e date_format_in date_format_out)
  | None => VFail (element_index_failure segment i)
  end.

(** The leaf a single [int] request gives with the date option. *)
Definition strict_dated_leaf (date_format_in : pyval) (date_format_out : string)
    (segment : string) (elements : list string) (i : Z) : pyval :=
  match PyStr.index elements i with
  | Some e =>
      match strptime_strftime e date_format_in date_format_out with
      | inl converted => VStr converted
      | inr reason =>
          VFail (date_conversion_failure reason segment (Single (PosInt i)) e None
                   date_format_in date_format_out)
      end
  | None => VFail (element_index_failure segment i)
  end.

(** The world after the leaf [v] has been returned: a failure is in the
    log. *)
Definition log_leaf (v : pyval) (w : World) : World :=
  match v with
  | VFail error => log_failure error w
  | _ => w
  end.

Definition log_leaves (vs : list pyval) (w : World) : World :=
  fold_left (fun w0 v => log_leaf v w0) vs w.

(** The instance [handle_start] leaves for the Document it opens. *)
Definition new_document (ref_no issued horizon_start horizon_end : pyval) : instance :=
  {| cls := "EdiDocument";
     attrs := <["horizon_end_date" := horizon_end]>
                (<["horizon_start_date" := horizon_start]>
                   (<["document_issue_date" := issued]>
                      (<["part_list" := VList []]> (<["ref_no" := ref_no]> ∅)))) |}.

(** Two worlds whose parsers split alike. *)
Definition same_separators (w1 w2 : World) : Prop :=
  self w1 !! "element_separator" = self w2 !! "element_separator"
  /\ self w1 !! "subelement_separator" = self w2 !! "subelement_separator".

(** What every failure built for a call on [seg] with request [position]
    and the two date formats has: the segment, [date] left unset, and one of
    the three kinds with its fields. *)
Definition failure_of_call (seg : string) (position : position) (fin : pyval) (fout : string)
    (error : ElementExtractionFailure) : Prop :=
  segment error = seg
  /\ date error = false
  /\ ((failure_point error = "Element Index"
       /\ element error = None /\ subposition error = None
       /\ (exists i, failed_position error = Single (PosInt i))
       /\ date_format_in error = default_format_in
       /\ date_format_out error = default_format_out)
      \/ (failure_point error = "Subelement Index"
          /\ failed_position error = position
          /\ (exists e j, element error = Some e /\ subposition error = Some j)
          /\ date_format_in error = default_format_in
          /\ date_format_out error = default_format_out)
      \/ (failure_point error = "Date conversion"
          /\ failed_position error = position
          /\ (exists e, element error = Some e)
          /\ date_format_in error = fin
          /\ date_format_out error = fout)).

(** A leaf of a returned value: text or a failure. *)
Definition is_leaf (v : pyval) : Prop :=
  (exists s, v = VStr s) \/ (exists error, v = VFail error).

(** The requests whose date failures are reported: an [int], or a mapping
    with an entry marked [date: True]. *)
Definition reports_dates (position : position) : bool :=
  match position with
  | Single (PosInt _) => true
  | Single (PosTuple _ _) => false
  | PosList _ => false
  | PosDict d =>
      existsb (fun item => match snd item with
                           | Spec _ (Some true) => true
                           | _ => false
                           end) d
  end.

(** The position and the date mark of one entry of a mapping request. *)
Definition item_request (item : string * named_position) : option leaf_position * option bool :=
  match snd item with
  | Spec pos force_date => (pos, force_date)
  | Plain p => (Some p, None)
  end.

(** A separator that [str.split] accepts: [None] or a non-empty text. *)
Definition splits (sep : option pyval) : Prop :=
  match sep with
  | Some VNone => True
  | Some (VStr s) => s <> ""
  | _ => False
  end.

(** A parser that can extract: both separators split, and the failure log
    can take a failure. *)
Definition parser_ready (w : World) : Prop :=
  log_ok w
  /\ splits (self w !! "element_separator")
  /\ splits (self w !! "subelement_separator").

(** A request in which every mapping entry names a position. *)
Definition names_positions (position : position) : Prop :=
  match position with
  | PosDict d => Forall (fun item => fst (item_request item) <> None) d
  | _ => True
  end.

(** The instance after [names] were assigned [values], one after the
    other. *)
Fixpoint set_attrs (o : instance) (names : list string) (values : list pyval) : instance :=
  match names, values with
  | name :: names', v :: values' =>
      set_attrs {| cls := cls o; attrs := <[name := v]> (attrs o) |} names' values'
  | _, _ => o
  end.

(** The world after each attribute of [items] was given the leaf extracted
    at its position, one after the other. *)
Definition store_leaves (seg : string) (elements : list string) (items : list (string * Z))
    (w : World) : World :=
  fold_left (fun w0 item =>
               with_self (insert (fst item) (plain_leaf seg elements (snd item)))
                 (log_leaf (plain_leaf seg elements (snd item)) w0))
            items w.

(** *** The other classes of [edi.py] and [x12.py] *)

Definition FORECAST_CROSSREF : list (string * list (string * string)) :=
  [ ("X12",
     [ ("A", "Immediate"); ("B", "Pilot/Prevolume"); ("C", "Firm"); ("D", "Planning");
       ("Z", "Mutually Defined") ]) ].

Definition TIMING_CROSSREF : list (string * list (string * string)) :=
  [ ("X12",
     [ ("D", "Discrete"); ("C", "Daily"); ("F", "Flexible Interval"); ("M", "Monthly Bucket");
       ("W", "Weekly Bucket"); ("Z", "Mutually Defined") ]) ].

(** [kwargs.get(key, None)] for the keyword arguments of a call. *)
Definition kwargs_get (kwargs : list (string * pyval)) (key : string) : pyval :=
  default VNone (table_get kwargs key).

(** A call that passes one of the function's own parameters again among
    the keyword arguments raises [TypeError] before the body runs. *)
Definition check_kwargs (parameters : list string) (kwargs : list (string * pyval)) : M unit :=
  if existsb (fun item => existsb (String.eqb (fst item)) parameters) kwargs
  then raise TypeError
  else ret tt.

(** [for key, value in kwargs.items(): setattr(self, key, value)] for an
    instance under construction. *)
Definition with_kwargs (kwargs : list (string * pyval)) (a : gmap string pyval)
    : gmap string pyval :=
  fold_left (fun a0 item => <[fst item := snd item]> a0) kwargs a.

(** [target.add_attr(...)] with keyword arguments, a method of
    [EdiDocument] that [EdiPart] inherits; the other instances and the
    built-in values have none. *)
Definition add_attr (target : pyval) (kwargs : list (string * pyval)) : M unit :=
  fun w =>
    match target with
    | VRef l =>
        match heap w !! l with
        | Some o =>
            if String.eqb (cls o) "EdiDocument" || String.eqb (cls o) "EdiPart" then
              (check_kwargs ["self"] kwargs ;;;
               for_each (fun item => obj_setattr target (fst item) (snd item)) kwargs) w
            else (Raise AttributeError, w)
        | None => (Raise AttributeError, w)
        end
    | _ => (Raise AttributeError, w)
    end.

(** The values whose [str()] the model gives: [None], booleans, text and
    failure records (whose [__str__] is their segment). *)
Inductive printable :=
  | PNone
  | PBool (b : bool)
  | PText (s : string)
  | PFailure (error : ElementExtractionFailure).

Definition printable_value (p : printable) : pyval :=
  match p with
  | PNone => VNone
  | PBool b => VBool b
  | PText s => VStr s
  | PFailure error => VFail error
  end.

Definition str_of (p : printable) : string :=
  match p with
  | PNone => "None"
  | PBool true => "True"
  | PBool false => "False"
  | PText s => s
  | PFailure error => segment error
  end.

(** [a or b]. *)
Definition py_or (a b : pyval) : pyval := if truthy a then a else b.

(** [EdiPart(part_no, revision, **kwargs)]; [EdiDocument.__init__] is not
    called. *)
Definition EdiPart_init (part_no revision : printable) (kwargs : list (string * pyval))
    : M pyval :=
  check_kwargs ["self"; "part_no"; "revision"] kwargs ;;;
  new_instance
    {| cls := "EdiPart";
       attrs :=
         with_kwargs kwargs
           (<["total_accum_end_date" := VNone]>
              (<["total_accum_start_date" := VNone]>
                 (<["total_accum" := VNone]>
                    (<["address" := VNone]>
                       (<["po" := py_or (kwargs_get kwargs "po") (kwargs_get kwargs "customer_po")]>
                          (<["release_list" := VList []]>
                             (<["part_rev" := VStr (str_of part_no +:+ "-" +:+ str_of revision)]>
                                (<["revision" := printable_value revision]>
                                   (<["part_no" := printable_value part_no]> ∅))))))))) |}.

(** The names [getattr] finds on the class of an [EdiPart], whatever the
    instance holds (the names every object inherits are left out). *)
Definition EdiPart_methods : list string :=
  ["__init__"; "__repr__"; "set_if_none"; "add_attr"].

(** [target.set_if_none(name, value)], a method of [EdiPart]. *)
Definition set_if_none (target : pyval) (name : string) (value : pyval) : M unit :=
  fun w =>
    match target with
    | VRef l =>
        match heap w !! l with
        | Some o =>
            if String.eqb (cls o) "EdiPart" then
              match attrs o !! name with
              | Some VNone => obj_setattr target name value w
              | Some _ => (Ok tt, w)
              | None =>
                  if existsb (String.eqb name) EdiPart_methods then (Ok tt, w)
                  else obj_setattr target name value w
              end
            else (Raise AttributeError, w)
        | None => (Raise AttributeError, w)
        end
    | _ => (Raise AttributeError, w)
    end.

(** [table[language].get(code, None)] for a code-to-label table. *)
Definition crossref (table : list (string * list (string * string))) (language : pyval)
    (code : pyval) : result pyval :=
  match language with
  | VStr lang =>
      match table_get table lang with
      | Some labels =>
          match code with
          | VStr c => Ok (match table_get labels c with Some label => VStr label | None => VNone end)
          | _ => if hashable code then Ok VNone else Raise TypeError
          end
      | None => Raise KeyError
      end
  | _ => if hashable language then Raise KeyError else Raise TypeError
  end.

(** [X12ReleaseDetails(date, quantity, rel_type, rel_timing, **kwargs)]:
    [EdiReleaseDetails.__init__] sets [__language__] to ['X12'] and stores
    date and quantity, then the two codes are decoded under that language,
    then the keyword arguments are stored. *)
Definition X12ReleaseDetails (date quantity rel_type rel_timing : pyval)
    (kwargs : list (string * pyval)) : M pyval :=
  check_kwargs ["self"; "date"; "quantity"; "rel_type"; "rel_timing"] kwargs ;;;
  type_label <- lift (crossref FORECAST_CROSSREF (VStr "X12") rel_type) ;;
  timing_label <- lift (crossref TIMING_CROSSREF (VStr "X12") rel_timing) ;;
  new_instance {| cls := "X12ReleaseDetails";
                  attrs := with_kwargs kwargs
                             (<["rel_timing" := timing_label]>
                                (<["rel_type" := type_label]>
                                   (<["quantity" := quantity]>
                                      (<["date" := date]>
                                         (<["__language__" := VStr "X12"]> ∅))))) |}.

(** The keyword arguments of a call that become plain attributes: every key
    once, none of them one of the function's own parameters, and none a
    double-underscore name ([setattr] on [__class__] or [__dict__] does not
    store an attribute). *)
Definition keyword_arguments (parameters : list string) (kwargs : list (string * pyval)) : Prop :=
  NoDup (map fst kwargs)
  /\ existsb (fun item => existsb (String.eqb (fst item)) parameters) kwargs = false
  /\ existsb (fun item => String.prefix "__" (fst item)) kwargs = false.

(** The attribute [name] after the keyword arguments were stored over the
    attributes [a]. *)
Definition kwargs_or (kwargs : list (string * pyval)) (a : gmap string pyval) (name : string)
    : option pyval :=
  match table_get kwargs name with
  | Some v => Some v
  | None => a !! name
  end.

(** The attributes [EdiBase.__init__] has set for a language when it comes
    to the keyword arguments, read from the tables: the language, the three
    default separators and the eighteen segment attributes. *)
Definition default_attributes (language : string) : gmap string pyval :=
  let separators := default [] (table_get DEFAULT_SEPARATORS language) in
  let segments := default [] (table_get EDI_SEGMENTS language) in
  fold_left
    (fun a item =>
       <[fst item := VTuple (map VStr (default [] (table_get segments (snd item))))]> a)
    segment_attributes
    (<["segment_separator" := VStr (default "" (table_get separators "SEGMENT"))]>
       (<["subelement_separator" := VStr (default "" (table_get separators "SUBELEMENT"))]>
          (<["element_separator" := VStr (default "" (table_get separators "ELEMENT"))]>
             (<["language" := VStr language]> ∅)))).

(** The parameters of [EdiBase.__init__], which its keyword arguments
    cannot name. *)
Definition EdiBase_parameters : list string :=
  ["self"; "language"; "element_separator"; "subelement_separator"; "segment_separator"].

(** What [__init__] does once the defaults are set: the keyword arguments,
    then the dispatch map. *)
Definition finish_init (kwargs : list (string * pyval)) : M unit :=
  for_each (fun '(key, value) => setattr key value) kwargs ;;;
  d <- build_dispatch dispatch_entries [] ;;
  setattr "DISPATCH_MAP" (VDict d).

(** The value an attribute holds after [set_if_none]: the new one when the
    attribute was absent or [None], its own otherwise. *)
Definition or_if_none (current : option pyval) (value : pyval) : pyval :=
  match current with
  | Some VNone | None => value
  | Some v => v
  end.

(** An attribute name that no class of the model defines: not one of the
    methods of [EdiPart], and not one of the double-underscore names every
    object has. *)
Definition attribute_name (name : string) : Prop :=
  existsb (String.eqb name) EdiPart_methods = false /\ String.prefix "__" name = false.

(** The label of a code in the [X12] part of a code-to-label table. *)
Definition x12_label (table : list (string * list (string * string))) (code : pyval) : pyval :=
  match code with
  | VStr c =>
      match table_get (default [] (table_get table "X12")) c with
      | Some label => VStr label
      | None => VNone
      end
  | _ => VNone
  end.

(** The parser calls [self.handle_extraction_error]: the method of the
    class, as long as no instance attribute of that name (one stored
    through the keyword arguments of [__init__], say) stands before it. *)
Definition calls_class_handler (w : World) : Prop :=
  self w !! "handle_extraction_error" = None.

(** The failure [extract_one] builds when subelement [j] of [element] is
    missing. *)
Definition subelement_index_failure (segment : string) (position : position)
    (element : string) (j : Z) : ElementExtractionFailure :=
  {| failure_point := "Subelement Index";
     failure_reason :=
       "Subposition " +:+ PyStr.str_of_int j +:+ " out of range for " +:+ PyStr.repr element;
     segment := segment;
     failed_position := position;
     element := Some element;
     subposition := Some j;
     date := false;
     date_format_in := default_format_in;
     date_format_out := default_format_out |}.

(** What [extract_one] has built at a leaf when it returns or calls
    [handle_extraction_error]: the text, or the failure record it passes to
    the handler; an exception where a split or the request itself raises.
    The separators are those of [w]; the log plays no part. *)
Definition built_leaf (w : World) (segment : string) (position : position) (date : bool)
    (date_format_in : pyval) (date_format_out : string) (single_date : bool)
    (pos : option leaf_position) (force_date : option bool) : result pyval :=
  match elements_of w segment with
  | Raise e => Raise e
  | Ok elements =>
      match pos with
      | None => Raise TypeError
      | Some lp =>
          match PyStr.index elements (element_index lp) with
          | None => Ok (VFail (element_index_failure segment (element_index lp)))
          | Some element0 =>
              let date_stage (element : string) (subpos : option Z) : result pyval :=
                if date then
                  match strptime_strftime element date_format_in date_format_out with
                  | inl converted => Ok (VStr converted)
                  | inr reason =>
                      if single_date || default false force_date then
                        Ok (VFail (date_conversion_failure reason segment position element subpos
                                     date_format_in date_format_out))
                      else Ok (VStr element)
                  end
                else Ok (VStr element) in
              match lp with
              | PosInt _ => date_stage element0 None
              | PosTuple _ j =>
                  match self w !! "subelement_separator" with
                  | None => Raise AttributeError
                  | Some subsep =>
                      match split_by subsep element0 with
                      | Raise e => Raise e
                      | Ok parts =>
                          match PyStr.index parts j with
                          | None =>
                              Ok (VFail (subelement_index_failure segment position element0 j))
                          | Some element1 => date_stage element1 (Some j)
                          end
                      end
                  end
              end
          end
      end
  end.

(** The leaves built for a list request, up to the first exception. *)
Fixpoint built_list (one : leaf_position -> result pyval) (l : list leaf_position)
    : result (list pyval) :=
  match l with
  | [] => Ok []
  | p :: l' =>
      match one p with
      | Ok v =>
          match built_list one l' with
          | Ok vs => Ok (v :: vs)
          | Raise e => Raise e
          end
      | Raise e => Raise e
      end
  end.

(** The mapping built for a mapping request, up to the first exception. *)
Fixpoint built_named (one : option leaf_position -> option bool -> result pyval)
    (items : list (string * named_position)) (entries : list (pyval * pyval))
    : result (list (pyval * pyval)) :=
  match items with
  | [] => Ok entries
  | item :: items' =>
      match one (fst (item_request item)) (snd (item_request item)) with
      | Ok v => built_named one items' (dict_set (VStr (fst item)) v entries)
      | Raise e => Raise e
      end
  end.

(** The value built for a whole request: each leaf of it is what
    [extract_one] has built there, a failure record included. *)
Definition built_request (w : World) (segment : string) (position : position) (date : bool)
    (date_format_in : pyval) (date_format_out : string) : result pyval :=
  let single_date := match position with Single (PosInt _) => true | _ => false end in
  let one := built_leaf w segment position date date_format_in date_format_out single_date in
  match position with
  | Single p => one (Some p) None
  | PosList l =>
      match built_list (fun p => one (Some p) None) l with
      | Ok vs => Ok (VList vs)
      | Raise e => Raise e
      end
  | PosDict d =>
      match built_named one d [] with
      | Ok kvs => Ok (VDict kvs)
      | Raise e => Raise e
      end
  end.

(** ** Properties *)

(** *** The failure log *)

Lemma handle_extraction_error_ok (error : ElementExtractionFailure) (w : World) :
  log_ok w -> handle_extraction_error error w = (Ok (VFail error), log_failure error w).
Proof.
  unfold log_ok, handle_extraction_error, log_failure, extraction_errors.
  destruct (self w !! "extraction_errors") as [[]|]; try contradiction; reflexivity.
Qed.

Lemma handle_extraction_error_not_ok (error : ElementExtractionFailure) (w : World) :
  ~ log_ok w -> handle_extraction_error error w = (Raise AttributeError, w).
Proof.
  unfold log_ok, handle_extraction_error.
  destruct (self w !! "extraction_errors") as [[]|]; intros H; try reflexivity; exfalso; apply H; exact I.
Qed.

Lemma log_ok_dec (w : World) : log_ok w \/ ~ log_ok w.
Proof.
  unfold log_ok. destruct (self w !! "extraction_errors") as [[]|]; auto.
Qed.

Lemma log_failure_errors (error : ElementExtractionFailure) (w : World) :
  extraction_errors (log_failure error w) = extraction_errors w ++ [VFail error].
Proof.
  unfold log_failure, extraction_errors at 1. simpl. rewrite lookup_insert_eq. reflexivity.
Qed.

Lemma log_failure_ok (error : ElementExtractionFailure) (w : World) :
  log_ok (log_failure error w).
Proof.
  unfold log_ok, log_failure. simpl. rewrite lookup_insert_eq. exact I.
Qed.

Lemma log_failure_self (error : ElementExtractionFailure) (w : World) (name : string) :
  name <> "extraction_errors" -> self (log_failure error w) !! name = self w !! name.
Proof.
  intros H. unfold log_failure. simpl. rewrite lookup_insert_ne; [reflexivity | congruence].
Qed.

Lemma log_failure_state (error : ElementExtractionFailure) (w : World) :
  state (log_failure error w) = state w.
Proof. reflexivity. Qed.

Lemma log_failure_heap (error : ElementExtractionFailure) (w : World) :
  heap (log_failure error w) = heap w.
Proof. reflexivity. Qed.

Lemma handle_extraction_error_outcome (error : ElementExtractionFailure) (w : World) :
  leaf_outcome w (handle_extraction_error error w).
Proof.
  destruct (log_ok_dec w) as [H | H].
  - rewrite handle_extraction_error_ok by assumption. split; [assumption | reflexivity].
  - rewrite handle_extraction_error_not_ok by assumption. reflexivity.
Qed.

Lemma extract_one_outcome segment position date fin fout single_date pos force_date (w : World) :
  leaf_outcome w (extract_one segment position date fin fout single_date pos force_date w).
Proof.
  unfold extract_one, bind, getattr, lift, raise.
  destruct (self w !! "element_separator") as [sep|]; [|reflexivity].
  destruct (split_by sep segment) as [elements|]; [|reflexivity].
  destruct pos as [lp|]; [|reflexivity].
  destruct (PyStr.index elements _) as [element0|];
    [|apply handle_extraction_error_outcome].
  assert (Hdate : forall e w0, w0 = w ->
            leaf_outcome w
              ((if date
                then match strptime_strftime e fin fout with
                     | inl converted => ret (VStr converted)
                     | inr reason =>
                         if single_date || default false force_date
                         then handle_extraction_error
                                {| failure_point := "Date conversion"; failure_reason := reason;
                                   segment := segment; failed_position := position;
                                   element := Some e;
                                   subposition := match lp with PosTuple _ j => Some j | _ => None end;
                                   date := false; date_format_in := fin; date_format_out := fout |}
                         else ret (VStr e)
                     end
                else ret (VStr e)) w0)).
  { intros e w0 ->. destruct date; [|reflexivity].
    destruct (strptime_strftime e fin fout); [reflexivity|].
    destruct (single_date || default false force_date);
      [apply handle_extraction_error_outcome | reflexivity]. }
  destruct lp as [i | i j]; simpl.
  - apply Hdate. reflexivity.
  - destruct (self w !! "subelement_separator") as [subsep|]; [|reflexivity].
    destruct (split_by subsep element0) as [parts|]; [|reflexivity].
    destruct (PyStr.index parts j) as [element1|];
      [|apply handle_extraction_error_outcome].
    apply Hdate. reflexivity.
Qed.

Lemma grows_refl (w : World) : grows w w [].
Proof.
  unfold grows. rewrite app_nil_r. auto.
Qed.

Lemma grows_log_failure (error : ElementExtractionFailure) (w : World) :
  grows w (log_failure error w) [VFail error].
Proof.
  unfold grows. split; [reflexivity|]. split; [reflexivity|].
  split; [intros name H; apply log_failure_self; assumption|].
  split; [apply log_failure_errors | intros _; apply log_failure_ok].
Qed.

Lemma grows_trans (w w1 w2 : World) (p1 p2 : list pyval) :
  grows w w1 p1 -> grows w1 w2 p2 -> grows w w2 (p1 ++ p2).
Proof.
  intros (Hs1 & Hh1 & Ha1 & He1 & Hl1) (Hs2 & Hh2 & Ha2 & He2 & Hl2).
  unfold grows. split; [congruence|]. split; [congruence|].
  split; [intros name H; rewrite Ha2, Ha1 by assumption; reflexivity|].
  split; [rewrite He2, He1, app_assoc; reflexivity | auto].
Qed.

Lemma leaf_outcome_grows (w : World) (out : result pyval * World) :
  leaf_outcome w out ->
  grows w (snd out) (match fst out with Ok v => returned_failures v | Raise _ => [] end)
  /\ (forall v, fst out = Ok v -> (exists s, v = VStr s) \/ (exists f, v = VFail f)).
Proof.
  unfold leaf_outcome. destruct out as [[v|e] w']; simpl.
  - destruct v; try contradiction.
    + intros ->. split; [apply grows_refl|]. intros v [= <-]. left. eauto.
    + intros [_ ->]. split; [apply grows_log_failure|]. intros v [= <-]. right. eauto.
  - intros ->. split; [apply grows_refl|]. intros v [=].
Qed.

Lemma mapM_grows (one : leaf_position -> M pyval) (l : list leaf_position) :
  (forall p w, leaf_outcome w (one p w)) ->
  forall w, exists produced,
    grows w (snd (mapM one l w)) produced
    /\ forall vs, fst (mapM one l w) = Ok vs ->
         List.filter is_failure vs = produced /\ length vs = length l.
Proof.
  intros Hone. induction l as [|p l IH]; intros w; simpl.
  - exists []. split; [apply grows_refl|]. intros vs [= <-]. auto.
  - unfold bind. pose proof (leaf_outcome_grows w (one p w) (Hone p w)) as [Hg Hleaf].
    destruct (one p w) as [[v|e] w1]; simpl in *.
    + destruct (IH w1) as (produced & Hg1 & Hret).
      destruct (mapM one l w1) as [[vs|e] w2]; simpl in *.
      * exists (returned_failures v ++ produced).
        split; [eapply grows_trans; eassumption|].
        intros vs' [= <-]. destruct (Hret vs eq_refl) as [<- Hlen].
        split; [|simpl; congruence].
        destruct (Hleaf v eq_refl) as [[s ->] | [f ->]]; reflexivity.
      * exists (returned_failures v ++ produced).
        split; [eapply grows_trans; eassumption|]. intros vs [=].
    + exists []. split; [assumption|]. intros vs [=].
Qed.

Lemma dict_set_fresh (k : string) (v : pyval) (d : list (pyval * pyval)) :
  Forall (fun kv => exists s, fst kv = VStr s /\ s <> k) d ->
  dict_set (VStr k) v d = d ++ [(VStr k, v)].
Proof.
  induction 1 as [|[k' v'] d (s & Hk & Hne) _ IH]; simpl; [reflexivity|].
  simpl in Hk. subst k'. simpl.
  destruct (String.eqb s k) eqn:E; [apply String.eqb_eq in E; contradiction|].
  rewrite IH. reflexivity.
Qed.

Lemma extract_named_grows (one : option leaf_position -> option bool -> M pyval)
    (items : list (string * named_position)) :
  (forall pos force w, leaf_outcome w (one pos force w)) ->
  NoDup (map fst items) ->
  forall result w,
    Forall (fun kv => exists s, fst kv = VStr s /\ s ∉ map fst items) result ->
    exists produced,
      grows w (snd (extract_named one items result w)) produced
      /\ forall d, fst (extract_named one items result w) = Ok d ->
           exists added, d = result ++ added
             /\ List.filter is_failure (map snd added) = produced.
Proof.
  intros Hone. induction items as [|[key spec] items IH]; intros Hnd result w Hres; simpl.
  - exists []. split; [apply grows_refl|]. intros d [= <-]. exists []. rewrite app_nil_r. auto.
  - set (pf := match spec with Spec pos force_date => (pos, force_date) | Plain p => (Some p, None) end).
    destruct pf as [pos force_date]. unfold bind.
    pose proof (leaf_outcome_grows w _ (Hone pos force_date w)) as [Hg Hleaf].
    destruct (one pos force_date w) as [[v|e] w1]; simpl in *.
    + inversion Hnd as [|? ? Hnotin Hnd']; subst.
      rewrite dict_set_fresh.
      2:{ eapply Forall_impl; [exact Hres|]. intros kv (s & Hk & Hs). exists s. split; [assumption|].
          intros ->. apply Hs. simpl. apply list_elem_of_here. }
      destruct (IH Hnd' (result ++ [(VStr key, v)]) w1) as (produced & Hg1 & Hret).
      { apply Forall_app. split.
        - eapply Forall_impl; [exact Hres|]. intros kv (s & Hk & Hs). exists s. split; [assumption|].
          intros Hin. apply Hs. simpl. apply list_elem_of_further. assumption.
        - constructor; [|constructor]. exists key. split; [reflexivity|]. assumption. }
      exists (returned_failures v ++ produced).
      split; [eapply grows_trans; eassumption|].
      intros d Hd. destruct (Hret d Hd) as (added & -> & Hf).
      exists ((VStr key, v) :: added). rewrite <- app_assoc. split; [reflexivity|].
      simpl. rewrite <- Hf.
      destruct (Hleaf v eq_refl) as [[s ->] | [f ->]]; reflexivity.
    + exists []. split; [assumption|]. intros d [=].
Qed.

(** *** Single requests *)

Lemma index_out_of_range {A} (l : list A) (i : Z) :
  Z.of_nat (length l) <= i -> PyStr.index l i = None.
Proof.
  intros H. unfold PyStr.index.
  destruct (Z.leb_spec 0 i); destruct (Z.ltb_spec i (Z.of_nat (length l)));
    destruct (Z.leb_spec (- Z.of_nat (length l)) i); destruct (Z.ltb_spec i 0);
    simpl; try reflexivity; lia.
Qed.

Lemma index_from_end {A} (l : list A) (i : Z) :
  - Z.of_nat (length l) <= i < 0 ->
  PyStr.index l i = l !! Z.to_nat (Z.of_nat (length l) + i)
  /\ is_Some (l !! Z.to_nat (Z.of_nat (length l) + i)).
Proof.
  intros H. unfold PyStr.index.
  destruct (Z.leb_spec 0 i); [lia|]. simpl.
  destruct (Z.leb_spec (- Z.of_nat (length l)) i); [|lia].
  destruct (Z.ltb_spec i 0); [|lia]. simpl. split; [reflexivity|].
  apply lookup_lt_is_Some. lia.
Qed.

(** C5. When a segment has no more elements than the requested element
    index, a single request (with or without a subelement index) returns,
    without raising, the Element Index failure whose segment is that
    segment and whose position is that index, and appends it to the log. *)
Theorem short_segment_element_index_failure (seg : string) (p : leaf_position)
    (date : bool) (date_format_in : pyval) (date_format_out : string)
    (w : World) (elements : list string) :
  elements_of w seg = Ok elements ->
  Z.of_nat (length elements) <= element_index p ->
  log_ok w ->
  exists error,
    universal_element_extract seg (Single p) date date_format_in date_format_out w
      = (Ok (VFail error), log_failure error w)
    /\ failure_point error = "Element Index"
    /\ segment error = seg
    /\ failed_position error = Single (PosInt (element_index p)).
Proof.
  intros Helts Hlen Hlog.
  exists (element_index_failure seg (element_index p)).
  split; [|repeat split].
  unfold universal_element_extract, extract_one, bind, getattr, lift.
  unfold elements_of in Helts.
  destruct (self w !! "element_separator") as [sep|]; [|discriminate].
  rewrite Helts.
  change (match p with PosInt i => i | PosTuple i _ => i end) with (element_index p).
  rewrite index_out_of_range by assumption.
  apply handle_extraction_error_ok. assumption.
Qed.

(** C10. A negative element index whose absolute value does not exceed the
    number of elements is counted from the end of the segment: without the
    date option the request returns that element and changes nothing
    (index -1 gives the last element), and with it the only failure it can
    return is a Date conversion one. *)
Theorem negative_index_counts_from_end (segment : string) (i : Z)
    (date_format_in : pyval) (date_format_out : string) (w : World) (elements : list string) :
  elements_of w segment = Ok elements ->
  - Z.of_nat (length elements) <= i < 0 ->
  exists e,
    elements !! Z.to_nat (Z.of_nat (length elements) + i) = Some e
    /\ (i = -1 -> last elements = Some e)
    /\ universal_element_extract segment (Single (PosInt i)) false date_format_in date_format_out w
       = (Ok (VStr e), w)
    /\ forall error,
         fst (universal_element_extract segment (Single (PosInt i)) true
                date_format_in date_format_out w) = Ok (VFail error) ->
         failure_point error = "Date conversion".
Proof.
  intros Helts Hrange.
  destruct (index_from_end elements i Hrange) as [Hidx [e He]].
  exists e. split; [assumption|]. split.
  { intros ->. rewrite last_lookup, <- He. f_equal. lia. }
  unfold universal_element_extract, extract_one, bind, getattr, lift.
  unfold elements_of in Helts.
  destruct (self w !! "element_separator") as [sep|]; [|discriminate].
  rewrite Helts, Hidx, He. split; [reflexivity|].
  intros error. simpl.
  destruct (strptime_strftime e date_format_in date_format_out) as [converted | reason];
    [discriminate|].
  destruct (log_ok_dec w) as [Hlog | Hlog].
  - rewrite handle_extraction_error_ok by assumption. intros [= <-]. reflexivity.
  - rewrite handle_extraction_error_not_ok by assumption. discriminate.
Qed.

(** A single [int] request with the date option: text that does not parse
    comes back as a Date conversion failure with both formats. *)
Lemma single_int_date_failure (segment : string) (i : Z) (date_format_in : pyval)
    (date_format_out : string) (w : World) (elements : list string) (e reason : string) :
  elements_of w segment = Ok elements ->
  PyStr.index elements i = Some e ->
  strptime_strftime e date_format_in date_format_out = inr reason ->
  log_ok w ->
  let error := date_conversion_failure reason segment (Single (PosInt i)) e None
                 date_format_in date_format_out in
  universal_element_extract segment (Single (PosInt i)) true date_format_in date_format_out w
    = (Ok (VFail error), log_failure error w).
Proof.
  intros Helts Hidx Hconv Hlog error.
  unfold universal_element_extract, extract_one, bind, getattr, lift.
  unfold elements_of in Helts.
  destruct (self w !! "element_separator") as [sep|]; [|discriminate].
  rewrite Helts, Hidx. simpl. rewrite Hconv.
  apply handle_extraction_error_ok. assumption.
Qed.

(** A single [int] request without the date option returns the element. *)
Lemma extract_element_present (segment : string) (i : Z) (w : World)
    (elements : list string) (e : string) :
  elements_of w segment = Ok elements ->
  PyStr.index elements i = Some e ->
  extract_element segment i w = (Ok (VStr e), w).
Proof.
  intros Helts Hidx.
  unfold extract_element, universal_element_extract, extract_one, bind, getattr, lift.
  unfold elements_of in Helts.
  destruct (self w !! "element_separator") as [sep|]; [|discriminate].
  rewrite Helts, Hidx. reflexivity.
Qed.

(** *** Leaves of [int] requests *)

Lemma log_leaf_state (v : pyval) (w : World) : state (log_leaf v w) = state w.
Proof. destruct v; reflexivity. Qed.

Lemma log_leaf_heap (v : pyval) (w : World) : heap (log_leaf v w) = heap w.
Proof. destruct v; reflexivity. Qed.

Lemma log_leaf_self (v : pyval) (w : World) (name : string) :
  name <> "extraction_errors" -> self (log_leaf v w) !! name = self w !! name.
Proof.
  intros H. destruct v; try reflexivity. apply log_failure_self. assumption.
Qed.

Lemma log_leaf_ok (v : pyval) (w : World) : log_ok w -> log_ok (log_leaf v w).
Proof.
  intros H. destruct v; try assumption. apply log_failure_ok.
Qed.

Lemma log_leaf_elements (v : pyval) (w : World) (seg : string) :
  elements_of (log_leaf v w) seg = elements_of w seg.
Proof.
  unfold elements_of. rewrite log_leaf_self by discriminate. reflexivity.
Qed.

Lemma log_leaf_text (s : string) (w : World) : log_leaf (VStr s) w = w.
Proof. reflexivity. Qed.

Lemma extract_element_leaf (seg : string) (i : Z) (w : World) (elements : list string) :
  elements_of w seg = Ok elements ->
  log_ok w ->
  extract_element seg i w
    = (Ok (plain_leaf seg elements i), log_leaf (plain_leaf seg elements i) w).
Proof.
  intros Helts Hlog.
  unfold extract_element, universal_element_extract, extract_one, bind, getattr, lift, plain_leaf.
  unfold elements_of in Helts.
  destruct (self w !! "element_separator") as [sep|]; [|discriminate].
  rewrite Helts.
  destruct (PyStr.index elements i) as [e|]; [reflexivity|].
  apply handle_extraction_error_ok. assumption.
Qed.

Lemma extract_one_dated_leaf (seg : string) (position : position) (fin : pyval) (fout : string)
    (i : Z) (w : World) (elements : list string) :
  elements_of w seg = Ok elements ->
  log_ok w ->
  extract_one seg position true fin fout false (Some (PosInt i)) None w
    = (Ok (dated_leaf fin fout seg elements i), log_leaf (dated_leaf fin fout seg elements i) w).
Proof.
  intros Helts Hlog.
  unfold extract_one, bind, getattr, lift, dated_leaf, best_effort_date.
  unfold elements_of in Helts.
  destruct (self w !! "element_separator") as [sep|]; [|discriminate].
  rewrite Helts.
  destruct (PyStr.index elements i) as [e|].
  - simpl. destruct (strptime_strftime e fin fout); reflexivity.
  - apply handle_extraction_error_ok. assumption.
Qed.

Lemma extract_dated_list (seg : string) (fin : pyval) (fout : string) (indices : list Z)
    (w : World) (elements : list string) :
  elements_of w seg = Ok elements ->
  log_ok w ->
  universal_element_extract seg (PosList (map PosInt indices)) true fin fout w
    = (Ok (VList (map (dated_leaf fin fout seg elements) indices)),
       log_leaves (map (dated_leaf fin fout seg elements) indices) w).
Proof.
  intros Helts Hlog. unfold universal_element_extract.
  generalize (PosList (map PosInt indices)). intros position.
  assert (H : mapM (fun p => extract_one seg position true fin fout false (Some p) None)
                (map PosInt indices) w
              = (Ok (map (dated_leaf fin fout seg elements) indices),
                 log_leaves (map (dated_leaf fin fout seg elements) indices) w)).
  { revert w Helts Hlog. induction indices as [|i indices IH]; intros w Helts Hlog; [reflexivity|].
    simpl. unfold bind at 1.
    rewrite (extract_one_dated_leaf seg position fin fout i w elements Helts Hlog).
    unfold bind at 1. rewrite IH; [reflexivity| |apply log_leaf_ok; assumption].
    rewrite log_leaf_elements. assumption. }
  unfold bind. rewrite H. reflexivity.
Qed.

Lemma extract_strict_dated_leaf (seg : string) (fin : pyval) (fout : string) (i : Z)
    (w : World) (elements : list string) :
  elements_of w seg = Ok elements ->
  log_ok w ->
  universal_element_extract seg (Single (PosInt i)) true fin fout w
    = (Ok (strict_dated_leaf fin fout seg elements i),
       log_leaf (strict_dated_leaf fin fout seg elements i) w).
Proof.
  intros Helts Hlog.
  unfold universal_element_extract, extract_one, bind, getattr, lift, strict_dated_leaf.
  unfold elements_of in Helts.
  destruct (self w !! "element_separator") as [sep|]; [|discriminate].
  rewrite Helts.
  destruct (PyStr.index elements i) as [e|].
  - simpl. destruct (strptime_strftime e fin fout); [reflexivity|].
    apply handle_extraction_error_ok. assumption.
  - apply handle_extraction_error_ok. assumption.
Qed.

Lemma setattr_elements (name : string) (v : pyval) (w : World) (seg : string) :
  name <> "element_separator" ->
  elements_of (with_self (insert name v) w) seg = elements_of w seg.
Proof.
  intros H. unfold elements_of. simpl. rewrite lookup_insert_ne by assumption. reflexivity.
Qed.

Lemma setattr_log_ok (name : string) (v : pyval) (w : World) :
  name <> "extraction_errors" -> log_ok w -> log_ok (with_self (insert name v) w).
Proof.
  intros H. unfold log_ok. simpl. rewrite lookup_insert_ne by assumption. auto.
Qed.

(** *** The handlers *)

(** C8. After an inner-message segment whose element 8 exists, the date
    input format of the parser is the entry of [DATE_FORMATS] for the first
    four characters of that element: ["%y%m%d"] for ["0020"], and
    ["%Y%m%d"] for any version the table does not have. *)
Theorem handle_inner_sets_date_format (seg : string) (w : World) (elements : list string)
    (e8 : string) :
  elements_of w seg = Ok elements ->
  PyStr.index elements 8 = Some e8 ->
  log_ok w ->
  exists w',
    handle_inner seg w = (Ok tt, w')
    /\ self w' !! "date_format"
       = Some (VStr (default "%Y%m%d" (table_get DATE_FORMATS (PyStr.take 4 e8))))
    /\ (PyStr.take 4 e8 = "0020" -> self w' !! "date_format" = Some (VStr "%y%m%d"))
    /\ (table_get DATE_FORMATS (PyStr.take 4 e8) = None ->
        self w' !! "date_format" = Some (VStr "%Y%m%d")).
Proof.
  intros Helts Hidx Hlog.
  set (fmt := VStr (default "%Y%m%d" (table_get DATE_FORMATS (PyStr.take 4 e8)))).
  set (w2 := with_self (insert "date_format" fmt)
               (with_self (insert "edi_version" (VStr (PyStr.take 4 e8))) w)).
  assert (Helts2 : elements_of w2 seg = Ok elements).
  { unfold w2. rewrite !setattr_elements by discriminate. assumption. }
  assert (Hlog2 : log_ok w2).
  { unfold w2. apply setattr_log_ok; [discriminate|]. apply setattr_log_ok; [discriminate|].
    assumption. }
  set (issued := strict_dated_leaf fmt default_format_out seg elements 4).
  assert (Hrun : handle_inner seg w
                 = (Ok tt, with_state (insert "document_issue_date" issued) (log_leaf issued w2))).
  { unfold handle_inner. unfold bind at 1.
    rewrite (extract_element_present seg 8 w elements e8 Helts Hidx).
    unfold bind, lift, setattr, getattr, state_set, slice4, date_format_of.
    cbn [self with_self]. rewrite lookup_insert_eq.
    cbn [self with_self]. rewrite lookup_insert_eq.
    change (with_self (insert "date_format" _) _) with w2. fold fmt.
    rewrite (extract_strict_dated_leaf seg fmt default_format_out 4 w2 elements Helts2 Hlog2).
    reflexivity. }
  assert (Hfmt : self (with_state (insert "document_issue_date" issued) (log_leaf issued w2))
                   !! "date_format" = Some fmt).
  { cbn [self with_state]. rewrite log_leaf_self by discriminate.
    unfold w2. cbn [self with_self]. apply lookup_insert_eq. }
  eexists. split; [exact Hrun|]. split; [exact Hfmt|]. split.
  - intros H. rewrite Hfmt. unfold fmt. rewrite H. reflexivity.
  - intros H. rewrite Hfmt. unfold fmt. rewrite H. reflexivity.
Qed.


Lemma log_leaves_state (vs : list pyval) (w : World) : state (log_leaves vs w) = state w.
Proof.
  revert w. induction vs as [|v vs IH]; intros w; [reflexivity|].
  simpl. rewrite IH. apply log_leaf_state.
Qed.

Lemma log_leaves_heap (vs : list pyval) (w : World) : heap (log_leaves vs w) = heap w.
Proof.
  revert w. induction vs as [|v vs IH]; intros w; [reflexivity|].
  simpl. rewrite IH. apply log_leaf_heap.
Qed.

Lemma log_leaves_self (vs : list pyval) (w : World) (name : string) :
  name <> "extraction_errors" -> self (log_leaves vs w) !! name = self w !! name.
Proof.
  intros H. revert w. induction vs as [|v vs IH]; intros w; [reflexivity|].
  simpl. rewrite IH. apply log_leaf_self. assumption.
Qed.

Lemma obj_setattr_last (h : list instance) (o : instance) (name : string) (v : pyval) (w : World) :
  heap w = h ++ [o] ->
  obj_setattr (VRef (length h)) name v w
    = (Ok tt, with_heap (fun _ => h ++ [{| cls := cls o; attrs := <[name := v]> (attrs o) |}]) w).
Proof.
  intros H. unfold obj_setattr. rewrite H, list_lookup_middle by reflexivity.
  unfold with_heap. rewrite H. f_equal. f_equal.
  replace (length h) with (length h + 0)%nat by lia. rewrite insert_app_r. reflexivity.
Qed.

Lemma handle_start_run (seg : string) (w : World) (elements : list string)
    (rss fmt cur issued : pyval) (docs : list pyval) :
  elements_of w seg = Ok elements ->
  log_ok w ->
  self w !! "record_start_segment" = Some rss ->
  self w !! "date_format" = Some fmt ->
  state w !! "edi_class" = Some cur ->
  state w !! "document_issue_date" = Some issued ->
  (truthy cur = true -> state w !! "edi_class_list" = Some (VList docs)) ->
  exists w',
    handle_start seg w = (Ok tt, w')
    /\ state w'
       = <["edi_class" := VRef (length (heap w))]>
           (if truthy cur
            then <["edi_class" := VNone]> (<["edi_class_list" := VList (docs ++ [cur])]> (state w))
            else state w)
    /\ heap w'
       = heap w ++ [new_document (plain_leaf seg elements (record_no_index rss)) issued
                      (dated_leaf fmt default_format_out seg elements 6)
                      (dated_leaf fmt default_format_out seg elements 7)]
    /\ (forall name, name <> "extraction_errors" -> self w' !! name = self w !! name).
Proof.
  intros Helts Hlog Hrss Hfmt Hcur Hissued Hdocs.
  set (rn := plain_leaf seg elements (record_no_index rss)).
  set (w1 := log_leaf rn w).
  set (st1 := if truthy cur
              then <["edi_class" := VNone]> (<["edi_class_list" := VList (docs ++ [cur])]> (state w))
              else state w).
  set (h6 := dated_leaf fmt default_format_out seg elements 6).
  set (h7 := dated_leaf fmt default_format_out seg elements 7).
  assert (Harchive : exists w2,
            (if truthy cur
             then state_append "edi_class_list" (state_get "edi_class") ;;;
                  state_set "edi_class" VNone
             else ret tt) w1 = (Ok tt, w2)
            /\ state w2 = st1 /\ heap w2 = heap w /\ self w2 = self w1).
  { unfold st1. destruct (truthy cur) eqn:Htruthy.
    - eexists. split; [|split; [|split]].
      + unfold bind, state_append, bind, state_get, state_set. unfold w1.
        rewrite log_leaf_state, (Hdocs eq_refl). cbv beta iota.
        rewrite log_leaf_state, Hcur. reflexivity.
      + cbn [state with_state]. rewrite log_leaf_state. reflexivity.
      + cbn [heap with_state]. apply log_leaf_heap.
      + reflexivity.
    - exists w1. split; [reflexivity|]. unfold w1.
      split; [apply log_leaf_state|]. split; [apply log_leaf_heap | reflexivity]. }
  destruct Harchive as (w2 & Harchive & Hst2 & Hheap2 & Hself2).
  assert (Hissued1 : st1 !! "document_issue_date" = Some issued).
  { unfold st1. destruct (truthy cur); [|assumption].
    rewrite !lookup_insert_ne by discriminate. assumption. }
  set (doc0 := {| cls := "EdiDocument";
                  attrs := <["part_list" := VList []]> (<["ref_no" := rn]> ∅) |}).
  set (w3 := with_heap (fun h => h ++ [doc0]) w2).
  set (doc1 := {| cls := "EdiDocument";
                  attrs := <["document_issue_date" := issued]> (attrs doc0) |}).
  set (w4 := with_heap (fun _ => heap w ++ [doc1]) w3).
  assert (Helts4 : elements_of w4 seg = Ok elements).
  { unfold elements_of, w4, w3. cbn [self with_heap]. rewrite Hself2.
    fold (elements_of w1 seg). unfold w1. rewrite log_leaf_elements. assumption. }
  assert (Hlog4 : log_ok w4).
  { unfold log_ok, w4, w3. cbn [self with_heap]. rewrite Hself2.
    apply (log_leaf_ok rn w Hlog). }
  set (w5 := log_leaves [h6; h7] w4).
  assert (Hheap5 : heap w5 = heap w ++ [doc1]).
  { unfold w5. rewrite log_leaves_heap. reflexivity. }
  set (doc2 := {| cls := "EdiDocument";
                  attrs := <["horizon_start_date" := h6]> (attrs doc1) |}).
  set (w6 := with_heap (fun _ => heap w ++ [doc2]) w5).
  set (w7 := with_heap
               (fun _ => heap w ++ [{| cls := "EdiDocument";
                                        attrs := <["horizon_end_date" := h7]> (attrs doc2) |}]) w6).
  exists (with_state (insert "edi_class" (VRef (length (heap w)))) w7).
  split.
  { unfold handle_start. unfold bind at 1. unfold getattr at 1. rewrite Hrss.
    unfold bind at 1. rewrite (extract_element_leaf seg _ w elements Helts Hlog).
    fold rn. fold w1.
    unfold bind at 1. unfold state_get at 1. unfold w1 at 1. rewrite log_leaf_state, Hcur.
    unfold bind at 1. rewrite Harchive.
    unfold bind at 1. unfold EdiDocument, new_instance. fold doc0. fold w3. rewrite Hheap2.
    unfold bind at 1. unfold state_get at 1.
    replace (state w3) with st1 by (symmetry; exact Hst2). rewrite Hissued1.
    unfold bind at 1.
    rewrite (obj_setattr_last (heap w) doc0 "document_issue_date" issued w3)
      by (unfold w3; cbn [heap with_heap]; rewrite Hheap2; reflexivity).
    change (with_heap _ w3) with w4.
    unfold bind at 1. unfold getattr at 1.
    replace (self w4 !! "date_format") with (Some fmt).
    2:{ unfold w4, w3. cbn [self with_heap]. rewrite Hself2. unfold w1.
        rewrite log_leaf_self by discriminate. symmetry. assumption. }
    unfold bind at 1.
    change (PosList [PosInt 6; PosInt 7]) with (PosList (map PosInt [6; 7])).
    rewrite (extract_dated_list seg fmt default_format_out [6; 7] w4 elements Helts4 Hlog4).
    cbn [map]. fold h6. fold h7. fold w5.
    unfold bind at 1.
    rewrite (obj_setattr_last (heap w) doc1 "horizon_start_date" h6 w5 Hheap5).
    change (with_heap _ w5) with w6.
    unfold bind at 1.
    rewrite (obj_setattr_last (heap w) doc2 "horizon_end_date" h7 w6) by reflexivity.
    reflexivity. }
  split; [|split].
  - unfold w7, w6. cbn [state with_state with_heap]. unfold w5. rewrite log_leaves_state.
    unfold w4, w3. cbn [state with_state with_heap]. rewrite Hst2. reflexivity.
  - reflexivity.
  - intros name Hname. unfold w7, w6. cbn [self with_state with_heap]. unfold w5.
    rewrite log_leaves_self by assumption. unfold w4, w3. cbn [self with_state with_heap].
    rewrite Hself2. unfold w1. apply log_leaf_self. assumption.
Qed.

Lemma handle_loop_run (seg : string) (w : World) (elements : list string) (t code : string) :
  elements_of w seg = Ok elements ->
  PyStr.index elements 1 = Some t ->
  table_get START_SEGMENTS t = Some code ->
  handle_loop seg w
    = (Ok tt, with_self (insert "record_start_segment" (VStr code))
                (with_self (insert "document_type" (VStr t)) w)).
Proof.
  intros Helts Hidx Hcode. unfold handle_loop. unfold bind at 1.
  rewrite (extract_element_present seg 1 w elements t Helts Hidx).
  unfold bind, lift, setattr, getattr, start_segment_of.
  cbn [self with_self]. rewrite lookup_insert_eq, Hcode. reflexivity.
Qed.

(** C6. With a Document open, a document-start segment appends that
    Document to the completed list, whose length grows by one; the
    Document's instance, like every other instance of the heap, is left as
    it was, and the Document opened next is a new instance. *)
Theorem open_document_archived_unchanged (seg : string) (w : World) (elements : list string)
    (rss fmt issued : pyval) (docs : list pyval) (l : nat) (doc : instance) :
  elements_of w seg = Ok elements ->
  log_ok w ->
  self w !! "record_start_segment" = Some rss ->
  self w !! "date_format" = Some fmt ->
  state w !! "document_issue_date" = Some issued ->
  state w !! "edi_class_list" = Some (VList docs) ->
  state w !! "edi_class" = Some (VRef l) ->
  heap w !! l = Some doc ->
  exists w' opened,
    handle_start seg w = (Ok tt, w')
    /\ state w' !! "edi_class_list" = Some (VList (docs ++ [VRef l]))
    /\ length (docs ++ [VRef l]) = S (length docs)
    /\ heap w' !! l = Some doc
    /\ (forall l' o, heap w !! l' = Some o -> heap w' !! l' = Some o)
    /\ state w' !! "edi_class" = Some (VRef opened)
    /\ opened <> l.
Proof.
  intros Helts Hlog Hrss Hfmt Hissued Hdocs Hcur Hdoc.
  destruct (handle_start_run seg w elements rss fmt (VRef l) issued docs
              Helts Hlog Hrss Hfmt Hcur Hissued (fun _ => Hdocs))
    as (w' & Hrun & Hstate & Hheap & _).
  pose proof (lookup_lt_Some _ _ _ Hdoc) as Hlt.
  exists w', (length (heap w)). split; [exact Hrun|].
  cbn [truthy] in Hstate. rewrite Hstate, Hheap.
  split; [rewrite !lookup_insert_ne by discriminate; apply lookup_insert_eq|].
  split; [rewrite length_app; simpl; lia|].
  split; [rewrite lookup_app_l by assumption; assumption|].
  split.
  { intros l' o Ho. rewrite lookup_app_l; [assumption|]. eapply lookup_lt_Some. eassumption. }
  split; [apply lookup_insert_eq | lia].
Qed.

(** C9. For document type ["850"] the loop-marker handler sets the start
    segment code to ["BEG"]; with that code the document-start handler
    gives the new Document, as its record number, the leaf extracted at
    element index 3 of the start segment, which is the text of element 3
    when the segment has one. *)
Theorem type_850_starts_at_BEG_with_record_no_3 (st : string) (w : World)
    (elements : list string) :
  elements_of w st = Ok elements ->
  PyStr.index elements 1 = Some "850" ->
  exists w1,
    handle_loop st w = (Ok tt, w1)
    /\ self w1 !! "record_start_segment" = Some (VStr "BEG")
    /\ record_no_index (VStr "BEG") = 3
    /\ forall (beg : string) (w2 : World) (elements2 : list string) (fmt cur issued : pyval)
         (docs : list pyval),
         self w2 !! "record_start_segment" = Some (VStr "BEG") ->
         elements_of w2 beg = Ok elements2 ->
         log_ok w2 ->
         self w2 !! "date_format" = Some fmt ->
         state w2 !! "edi_class" = Some cur ->
         state w2 !! "document_issue_date" = Some issued ->
         (truthy cur = true -> state w2 !! "edi_class_list" = Some (VList docs)) ->
         exists w3 opened,
           handle_start beg w2 = (Ok tt, w3)
           /\ state w3 !! "edi_class" = Some opened
           /\ obj_getattr w3 opened "ref_no" = Some (plain_leaf beg elements2 3)
           /\ forall e3, PyStr.index elements2 3 = Some e3 ->
                obj_getattr w3 opened "ref_no" = Some (VStr e3).
Proof.
  intros Helts Hidx. eexists. split.
  { apply (handle_loop_run st w elements "850" "BEG" Helts Hidx). reflexivity. }
  split; [cbn [self with_self]; apply lookup_insert_eq|].
  split; [reflexivity|].
  intros beg w2 elements2 fmt cur issued docs Hrss Helts2 Hlog2 Hfmt Hcur Hissued Hdocs.
  destruct (handle_start_run beg w2 elements2 (VStr "BEG") fmt cur issued docs
              Helts2 Hlog2 Hrss Hfmt Hcur Hissued Hdocs)
    as (w3 & Hrun & Hstate & Hheap & _).
  exists w3, (VRef (length (heap w2))). split; [exact Hrun|].
  split; [rewrite Hstate; apply lookup_insert_eq|].
  assert (Href : obj_getattr w3 (VRef (length (heap w2))) "ref_no"
                 = Some (plain_leaf beg elements2 3)).
  { unfold obj_getattr. rewrite Hheap, list_lookup_middle by reflexivity.
    unfold new_document. cbn [attrs].
    rewrite !lookup_insert_ne by discriminate. apply lookup_insert_eq. }
  split; [exact Href|].
  intros e3 He3. rewrite Href. unfold plain_leaf. rewrite He3. reflexivity.
Qed.

Lemma obj_setattr_at (l : nat) (o : instance) (name : string) (v : pyval) (w : World) :
  heap w !! l = Some o ->
  obj_setattr (VRef l) name v w
    = (Ok tt, with_heap (insert l {| cls := cls o; attrs := <[name := v]> (attrs o) |}) w).
Proof.
  intros H. unfold obj_setattr. rewrite H. reflexivity.
Qed.

(** *** Construction *)

Lemma valid_language_cases (language : string) :
  existsb (String.eqb language) VALID_LANGUAGES = true ->
  language = "X12" \/ language = "EDIFACT".
Proof.
  unfold VALID_LANGUAGES. cbn [existsb].
  destruct (String.eqb language "X12") eqn:E1; [apply String.eqb_eq in E1; auto|].
  destruct (String.eqb language "EDIFACT") eqn:E2; [apply String.eqb_eq in E2; auto|].
  discriminate.
Qed.

Lemma not_given_cases (separator : option string) :
  not_given separator = true \/ exists s, separator = Some s /\ not_given separator = false.
Proof.
  destruct separator as [s|]; [|left; reflexivity]. simpl.
  destruct (String.eqb s ""); [left; reflexivity | right; eauto].
Qed.

Lemma bind_ok {A B} (m : M A) (k : A -> M B) (w w' : World) (a : A) :
  m w = (Ok a, w') -> bind m k w = k a w'.
Proof. intros H. unfold bind. rewrite H. reflexivity. Qed.

Lemma bind_raise {A B} (m : M A) (k : A -> M B) (w w' : World) (e : exn) :
  m w = (Raise e, w') -> bind m k w = (Raise e, w').
Proof. intros H. unfold bind. rewrite H. reflexivity. Qed.

Lemma decode_attribute_ok (name s d : string) (w : World) :
  self w !! name = Some (VStr s) ->
  escape_decode s = Ok d ->
  decode_attribute name w = (Ok tt, with_self (insert name (VStr d)) w).
Proof.
  intros Hname Hd. unfold decode_attribute, bind, getattr, lift, setattr.
  rewrite Hname, Hd. reflexivity.
Qed.

Lemma decode_attribute_missing (name : string) (w : World) :
  self w !! name = None -> decode_attribute name w = (Raise AttributeError, w).
Proof.
  intros Hname. unfold decode_attribute, bind, getattr. rewrite Hname. reflexivity.
Qed.

Ltac init_step :=
  first
    [ erewrite bind_raise by (apply decode_attribute_missing; reflexivity)
    | erewrite bind_ok by (eapply decode_attribute_ok; [reflexivity | eassumption])
    | erewrite bind_ok by reflexivity ].

(** C1, as the code has it. When decoding leaves the default separators as
    they are, constructing a parser with an element, subelement or segment
    separator of its own raises [AttributeError]: the separator given is
    never stored, and the decoding step reads an attribute that was not
    set. *)
Theorem separator_override_raises (language : string)
    (element_separator subelement_separator segment_separator : option string)
    (kwargs : list (string * pyval)) (w : World) :
  (forall lang role d, table_get2 DEFAULT_SEPARATORS lang role = Ok d -> escape_decode d = Ok d) ->
  existsb (String.eqb language) VALID_LANGUAGES = true ->
  not_given element_separator && not_given subelement_separator
    && not_given segment_separator = false ->
  fst (instantiate []
         (EdiBase_init language element_separator subelement_separator segment_separator kwargs) w)
    = Raise AttributeError.
Proof.
  intros Hdec Hlang Hgiven.
  pose proof (Hdec "X12" "ELEMENT" "*" eq_refl) as Hx1.
  pose proof (Hdec "X12" "SUBELEMENT" "<" eq_refl) as Hx2.
  pose proof (Hdec "EDIFACT" "ELEMENT" "+" eq_refl) as Hf1.
  pose proof (Hdec "EDIFACT" "SUBELEMENT" ":" eq_refl) as Hf2.
  unfold instantiate, EdiBase_init. rewrite Hlang. cbn [negb].
  destruct (not_given_cases element_separator) as [He | (e & -> & He)];
    destruct (not_given_cases subelement_separator) as [Hs | (s & -> & Hs)];
    destruct (not_given_cases segment_separator) as [Hg | (g & -> & Hg)];
    rewrite He, Hs, Hg in *; try discriminate;
    destruct (valid_language_cases language Hlang) as [-> | ->];
    do 4 init_step; repeat init_step; reflexivity.
Qed.

(** C2, as the code has it. [EdiX12] defines six of the nine handlers; the
    handlers for part details, releases and the file end stay abstract, and
    [EdiX12(...)] raises [TypeError] whatever its arguments. *)
Theorem EdiX12_cannot_be_instantiated :
  EdiX12_abstractmethods = ["handle_part"; "handle_release"; "handle_end"]
  /\ forall element_separator subelement_separator segment_separator kwargs w,
       EdiX12 element_separator subelement_separator segment_separator kwargs w
         = (Raise TypeError, w).
Proof.
  split; reflexivity.
Qed.

(** C4, as the code has it. A request for an element and a subelement with
    the date option does not report text that is no date: the text comes
    back as it is and nothing is logged. *)
Theorem tuple_date_failure_not_reported (seg : string) (i j : Z) (date_format_in : pyval)
    (date_format_out : string) (w : World) (elements parts : list string) (subsep : pyval)
    (e0 e1 reason : string) :
  elements_of w seg = Ok elements ->
  PyStr.index elements i = Some e0 ->
  self w !! "subelement_separator" = Some subsep ->
  split_by subsep e0 = Ok parts ->
  PyStr.index parts j = Some e1 ->
  strptime_strftime e1 date_format_in date_format_out = inr reason ->
  universal_element_extract seg (Single (PosTuple i j)) true date_format_in date_format_out w
    = (Ok (VStr e1), w).
Proof.
  intros Helts Hi Hsub Hparts Hj Hconv.
  unfold universal_element_extract, extract_one, bind, getattr, lift.
  unfold elements_of in Helts.
  destruct (self w !! "element_separator") as [sep|]; [|discriminate].
  rewrite Helts, Hi, Hsub, Hparts, Hj, Hconv. reflexivity.
Qed.

(** *** More on the extractor *)

Lemma leaf_outcome_keeps (w : World) (out : result pyval * World) :
  leaf_outcome w out ->
  log_ok w ->
  log_ok (snd out)
  /\ forall name, name <> "extraction_errors" -> self (snd out) !! name = self w !! name.
Proof.
  intros Hout Hlog. destruct (leaf_outcome_grows w out Hout) as [(_ & _ & Hself & _ & Hok) _].
  split; [apply Hok; assumption | exact Hself].
Qed.

Lemma extract_one_same_value segment position date fin fout single_date pos force_date
    (w1 w2 : World) :
  same_separators w1 w2 -> log_ok w1 -> log_ok w2 ->
  fst (extract_one segment position date fin fout single_date pos force_date w1)
  = fst (extract_one segment position date fin fout single_date pos force_date w2).
Proof.
  intros [Hel Hsub] Hlog1 Hlog2.
  unfold extract_one, bind, getattr, lift, raise. rewrite Hel.
  destruct (self w2 !! "element_separator") as [sep|]; [|reflexivity].
  destruct (split_by sep segment) as [elements|]; [|reflexivity].
  destruct pos as [lp|]; [|reflexivity].
  destruct (PyStr.index elements _) as [element0|];
    [|rewrite !handle_extraction_error_ok by assumption; reflexivity].
  destruct lp as [i | i j]; simpl.
  - destruct date; [|reflexivity].
    destruct (strptime_strftime element0 fin fout); [reflexivity|].
    destruct (single_date || default false force_date); [|reflexivity].
    rewrite !handle_extraction_error_ok by assumption. reflexivity.
  - rewrite Hsub.
    destruct (self w2 !! "subelement_separator") as [subsep|]; [|reflexivity].
    destruct (split_by subsep element0) as [parts|]; [|reflexivity].
    destruct (PyStr.index parts j) as [element1|];
      [|rewrite !handle_extraction_error_ok by assumption; reflexivity].
    destruct date; [|reflexivity].
    destruct (strptime_strftime element1 fin fout); [reflexivity|].
    destruct (single_date || default false force_date); [|reflexivity].
    rewrite !handle_extraction_error_ok by assumption. reflexivity.
Qed.

Lemma extract_one_same_after segment position date fin fout single_date pos force_date
    (w1 w2 : World) :
  same_separators w1 w2 -> log_ok w1 -> log_ok w2 ->
  same_separators (snd (extract_one segment position date fin fout single_date pos force_date w1))
                  (snd (extract_one segment position date fin fout single_date pos force_date w2))
  /\ log_ok (snd (extract_one segment position date fin fout single_date pos force_date w1))
  /\ log_ok (snd (extract_one segment position date fin fout single_date pos force_date w2)).
Proof.
  intros [Hel Hsub] Hlog1 Hlog2.
  destruct (leaf_outcome_keeps w1 _ (extract_one_outcome segment position date fin fout
              single_date pos force_date w1) Hlog1) as [Hok1 Hself1].
  destruct (leaf_outcome_keeps w2 _ (extract_one_outcome segment position date fin fout
              single_date pos force_date w2) Hlog2) as [Hok2 Hself2].
  split; [|split; assumption].
  split; rewrite Hself1, Hself2 by discriminate; assumption.
Qed.

Lemma mapM_same_value (one : leaf_position -> M pyval) (l : list leaf_position) :
  (forall p w1 w2, same_separators w1 w2 -> log_ok w1 -> log_ok w2 ->
     fst (one p w1) = fst (one p w2)
     /\ same_separators (snd (one p w1)) (snd (one p w2))
     /\ log_ok (snd (one p w1)) /\ log_ok (snd (one p w2))) ->
  forall w1 w2, same_separators w1 w2 -> log_ok w1 -> log_ok w2 ->
    fst (mapM one l w1) = fst (mapM one l w2).
Proof.
  intros Hone. induction l as [|p l IH]; intros w1 w2 Hsame Hlog1 Hlog2; [reflexivity|].
  simpl. unfold bind.
  destruct (Hone p w1 w2 Hsame Hlog1 Hlog2) as (Hv & Hsame' & Hlog1' & Hlog2').
  destruct (one p w1) as [r1 w1'], (one p w2) as [r2 w2']. simpl in *. subst r2.
  destruct r1 as [v|e]; [|reflexivity].
  specialize (IH w1' w2' Hsame' Hlog1' Hlog2').
  destruct (mapM one l w1') as [rs1 w1''], (mapM one l w2') as [rs2 w2'']. simpl in *.
  subst rs2. destruct rs1; reflexivity.
Qed.

Lemma extract_named_same_value (one : option leaf_position -> option bool -> M pyval)
    (items : list (string * named_position)) :
  (forall pos force w1 w2, same_separators w1 w2 -> log_ok w1 -> log_ok w2 ->
     fst (one pos force w1) = fst (one pos force w2)
     /\ same_separators (snd (one pos force w1)) (snd (one pos force w2))
     /\ log_ok (snd (one pos force w1)) /\ log_ok (snd (one pos force w2))) ->
  forall result w1 w2, same_separators w1 w2 -> log_ok w1 -> log_ok w2 ->
    fst (extract_named one items result w1) = fst (extract_named one items result w2).
Proof.
  intros Hone. induction items as [|[key spec] items IH];
    intros result w1 w2 Hsame Hlog1 Hlog2; [reflexivity|].
  simpl.
  set (pf := match spec with Spec pos force_date => (pos, force_date) | Plain p => (Some p, None) end).
  destruct pf as [pos force_date]. unfold bind.
  destruct (Hone pos force_date w1 w2 Hsame Hlog1 Hlog2) as (Hv & Hsame' & Hlog1' & Hlog2').
  destruct (one pos force_date w1) as [r1 w1'], (one pos force_date w2) as [r2 w2'].
  simpl in *. subst r2. destruct r1 as [v|e]; [|reflexivity].
  apply IH; assumption.
Qed.

(** X1. For parsers that call the class's [handle_extraction_error] (no
    instance attribute stands before the method), what an extraction call
    returns depends on the two separators only: two such parsers with the
    same separators, each with a usable failure log, return the same value
    for the same request, whatever their logs, their other attributes, the
    traversal state and the heap hold. *)
Theorem extraction_value_depends_on_separators_only (seg : string) (position : position)
    (date : bool) (date_format_in : pyval) (date_format_out : string) (w1 w2 : World) :
  calls_class_handler w1 ->
  calls_class_handler w2 ->
  same_separators w1 w2 ->
  log_ok w1 ->
  log_ok w2 ->
  fst (universal_element_extract seg position date date_format_in date_format_out w1)
  = fst (universal_element_extract seg position date date_format_in date_format_out w2).
Proof.
  intros _ _ Hsame Hlog1 Hlog2. unfold universal_element_extract.
  assert (Hone : forall position0 single_date pos force w1 w2,
            same_separators w1 w2 -> log_ok w1 -> log_ok w2 ->
            fst (extract_one seg position0 date date_format_in date_format_out single_date
                   pos force w1)
            = fst (extract_one seg position0 date date_format_in date_format_out single_date
                     pos force w2)
            /\ same_separators
                 (snd (extract_one seg position0 date date_format_in date_format_out single_date
                         pos force w1))
                 (snd (extract_one seg position0 date date_format_in date_format_out single_date
                         pos force w2))
            /\ log_ok (snd (extract_one seg position0 date date_format_in date_format_out
                              single_date pos force w1))
            /\ log_ok (snd (extract_one seg position0 date date_format_in date_format_out
                              single_date pos force w2))).
  { intros. split; [apply extract_one_same_value; assumption|].
    apply extract_one_same_after; assumption. }
  destruct position as [p | l | d].
  - apply Hone; assumption.
  - unfold bind.
    pose proof (mapM_same_value
                  (fun p => extract_one seg (PosList l) date date_format_in date_format_out false
                              (Some p) None) l
                  (fun p => Hone (PosList l) false (Some p) None) w1 w2 Hsame Hlog1 Hlog2) as H.
    destruct (mapM _ l w1) as [r1 w1'], (mapM _ l w2) as [r2 w2']. simpl in *. subst r2.
    destruct r1; reflexivity.
  - unfold bind.
    pose proof (extract_named_same_value
                  (extract_one seg (PosDict d) date date_format_in date_format_out false) d
                  (Hone (PosDict d) false) [] w1 w2 Hsame Hlog1 Hlog2) as H.
    destruct (extract_named _ d [] w1) as [r1 w1'], (extract_named _ d [] w2) as [r2 w2'].
    simpl in *. subst r2. destruct r1; reflexivity.
Qed.

Lemma split_go_first (sep : string) (s : string) :
  forall skip cur, exists e rest, PyStr.split_go sep skip cur s = e :: rest.
Proof.
  induction s as [|c s IH]; intros skip cur; cbn [PyStr.split_go]; [eauto|].
  destruct skip as [|k]; [|apply IH].
  destruct (String.prefix sep (String c s)); [eauto | apply IH].
Qed.

(** X2. With a non-empty separator, a request for element 0 without the
    date option never fails: it returns the first piece of the segment (the
    empty text for an empty segment) and changes nothing. *)
Theorem element_zero_never_fails (seg sep : string) (date_format_in : pyval)
    (date_format_out : string) (w : World) :
  self w !! "element_separator" = Some (VStr sep) ->
  sep <> "" ->
  exists e,
    head (PyStr.split_on sep seg) = Some e
    /\ universal_element_extract seg (Single (PosInt 0)) false date_format_in date_format_out w
       = (Ok (VStr e), w).
Proof.
  intros Hsep Hne.
  destruct (split_go_first sep seg 0 "") as (e & rest & Hsplit).
  exists e. unfold PyStr.split_on. rewrite Hsplit. split; [reflexivity|].
  apply (extract_element_present seg 0 w (e :: rest) e); [|reflexivity].
  unfold elements_of. rewrite Hsep. unfold split_by.
  destruct sep; [contradiction|]. unfold PyStr.split_on. rewrite Hsplit. reflexivity.
Qed.

Lemma mapM_Forall (P : pyval -> Prop) (one : leaf_position -> M pyval) (l : list leaf_position) :
  (forall p w v, In p l -> fst (one p w) = Ok v -> P v) ->
  forall w vs, fst (mapM one l w) = Ok vs -> Forall P vs /\ length vs = length l.
Proof.
  induction l as [|p l IH]; intros Hone w vs; simpl.
  - intros [= <-]. split; [constructor | reflexivity].
  - unfold bind. pose proof (Hone p w) as Hp.
    destruct (one p w) as [[v|e] w1]; [|discriminate].
    specialize (IH (fun p0 w0 v0 Hin => Hone p0 w0 v0 (or_intror Hin)) w1).
    destruct (mapM one l w1) as [[vs'|e] w2]; [|discriminate].
    intros [= <-]. destruct (IH vs' eq_refl) as [HF Hlen].
    split; [constructor; [apply Hp; [left|]; reflexivity | assumption] | simpl; congruence].
Qed.

Lemma dict_set_values (P : pyval -> Prop) (k v : pyval) (d : list (pyval * pyval)) :
  P v -> Forall (fun kv => P (snd kv)) d -> Forall (fun kv => P (snd kv)) (dict_set k v d).
Proof.
  intros Hv. induction 1 as [|[k' v'] d Hkv Hd IH]; simpl; [repeat constructor; assumption|].
  destruct (key_eqb k' k); constructor; assumption.
Qed.

Lemma extract_named_values (P : pyval -> Prop)
    (one : option leaf_position -> option bool -> M pyval)
    (items : list (string * named_position)) :
  (forall item w v, In item items ->
     fst (one (fst (item_request item)) (snd (item_request item)) w) = Ok v -> P v) ->
  forall result w d,
    Forall (fun kv => P (snd kv)) result ->
    fst (extract_named one items result w) = Ok d ->
    Forall (fun kv => P (snd kv)) d.
Proof.
  induction items as [|[key spec] items IH]; intros Hone result w d Hres; simpl.
  - intros [= <-]. assumption.
  - pose proof (fun v => Hone (key, spec) w v (or_introl eq_refl)) as Hitem.
    unfold item_request in Hitem. cbn [fst snd] in Hitem.
    set (pf := match spec with Spec pos force_date => (pos, force_date) | Plain p => (Some p, None) end)
      in *.
    destruct pf as [pos force_date]. cbn [fst snd] in Hitem. unfold bind.
    revert Hitem. destruct (one pos force_date w) as [[v|e] w1]; intros Hitem; [|discriminate].
    apply IH.
    + intros item w0 v0 Hin. apply Hone. right. assumption.
    + apply dict_set_values; [apply Hitem; reflexivity | assumption].
Qed.

Lemma extract_named_keys (one : option leaf_position -> option bool -> M pyval)
    (items : list (string * named_position)) :
  NoDup (map fst items) ->
  forall result w d,
    Forall (fun kv => exists s, fst kv = VStr s /\ s ∉ map fst items) result ->
    fst (extract_named one items result w) = Ok d ->
    map fst d = map fst result ++ map (fun item => VStr (fst item)) items.
Proof.
  induction items as [|[key spec] items IH]; intros Hnd result w d Hres; simpl.
  - intros [= <-]. rewrite app_nil_r. reflexivity.
  - set (pf := match spec with Spec pos force_date => (pos, force_date) | Plain p => (Some p, None) end).
    destruct pf as [pos force_date]. unfold bind.
    destruct (one pos force_date w) as [[v|e] w1]; [|discriminate].
    inversion Hnd as [|? ? Hnotin Hnd']; subst.
    rewrite dict_set_fresh.
    2:{ eapply Forall_impl; [exact Hres|]. intros kv (s & Hk & Hs). exists s. split; [assumption|].
        intros ->. apply Hs. simpl. apply list_elem_of_here. }
    intros Hd.
    assert (Hres' : Forall (fun kv => exists s, fst kv = VStr s /\ s ∉ map fst items)
                      (result ++ [(VStr key, v)])).
    { apply Forall_app. split.
      - eapply Forall_impl; [exact Hres|]. intros kv (s & Hk & Hs). exists s.
        split; [assumption|]. intros Hin. apply Hs. simpl. apply list_elem_of_further. assumption.
      - constructor; [|constructor]. exists key. split; [reflexivity | assumption]. }
    rewrite (IH Hnd' _ _ _ Hres' Hd), map_app, <- app_assoc. reflexivity.
Qed.

Lemma extract_one_leaf segment position date fin fout single_date pos force_date
    (w : World) (v : pyval) :
  fst (extract_one segment position date fin fout single_date pos force_date w) = Ok v ->
  is_leaf v.
Proof.
  intros H.
  destruct (leaf_outcome_grows w _ (extract_one_outcome segment position date fin fout
              single_date pos force_date w)) as [_ Hleaf].
  apply Hleaf. assumption.
Qed.

(** X3. A list request that returns gives a list with one leaf for each
    position asked, each a text or a failure; a mapping request that returns
    gives a mapping with the labels asked, in the order asked, each with a
    text or a failure. *)
Theorem list_and_mapping_results_are_aligned (seg : string) (date : bool)
    (date_format_in : pyval) (date_format_out : string) (w : World) :
  (forall l v,
     fst (universal_element_extract seg (PosList l) date date_format_in date_format_out w) = Ok v ->
     exists vs, v = VList vs /\ length vs = length l /\ Forall is_leaf vs)
  /\ (forall d v,
        NoDup (map fst d) ->
        fst (universal_element_extract seg (PosDict d) date date_format_in date_format_out w) = Ok v ->
        exists kvs, v = VDict kvs
                    /\ map fst kvs = map (fun item => VStr (fst item)) d
                    /\ Forall (fun kv => is_leaf (snd kv)) kvs).
Proof.
  split.
  - intros l v. unfold universal_element_extract, bind.
    pose proof (mapM_Forall is_leaf
                  (fun p => extract_one seg (PosList l) date date_format_in date_format_out false
                              (Some p) None) l
                  (fun p w0 v0 _ H => extract_one_leaf _ _ _ _ _ _ _ _ w0 v0 H) w) as HF.
    destruct (mapM _ l w) as [[vs|e] w1]; [|discriminate].
    intros [= <-]. destruct (HF vs eq_refl) as [Hall Hlen]. eauto.
  - intros d v Hnd. unfold universal_element_extract, bind.
    pose proof (extract_named_values is_leaf
                  (extract_one seg (PosDict d) date date_format_in date_format_out false) d
                  (fun item w0 v0 _ H => extract_one_leaf _ _ _ _ _ _ _ _ w0 v0 H) [] w) as HV.
    pose proof (extract_named_keys
                  (extract_one seg (PosDict d) date date_format_in date_format_out false) d
                  Hnd [] w) as HK.
    destruct (extract_named _ d [] w) as [[kvs|e] w1]; [|discriminate].
    intros [= <-]. exists kvs. split; [reflexivity|].
    split; [apply HK; [constructor | reflexivity] | apply HV; [constructor | reflexivity]].
Qed.

Lemma handle_extraction_error_value (error : ElementExtractionFailure) (w : World) (v : pyval) :
  fst (handle_extraction_error error w) = Ok v -> v = VFail error.
Proof.
  destruct (log_ok_dec w) as [H | H].
  - rewrite handle_extraction_error_ok by assumption. intros [= <-]. reflexivity.
  - rewrite handle_extraction_error_not_ok by assumption. discriminate.
Qed.

Lemma extract_one_failure seg position date fin fout single_date pos force_date
    (w : World) (error : ElementExtractionFailure) :
  fst (extract_one seg position date fin fout single_date pos force_date w) = Ok (VFail error) ->
  failure_of_call seg position fin fout error
  /\ (failure_point error = "Date conversion" ->
      date = true /\ single_date || default false force_date = true).
Proof.
  unfold extract_one, bind, getattr, lift, raise.
  destruct (self w !! "element_separator") as [sep|]; [|discriminate].
  destruct (split_by sep seg) as [elements|]; [|discriminate].
  destruct pos as [lp|]; [|discriminate].
  destruct (PyStr.index elements _) as [element0|].
  2:{ intros H. apply handle_extraction_error_value in H. injection H as ->.
      split; [|discriminate]. unfold failure_of_call. cbn. split; [reflexivity|].
      split; [reflexivity|]. left. repeat split; eauto. }
  assert (Hdate : forall e w0,
            fst ((if date
                  then match strptime_strftime e fin fout with
                       | inl converted => ret (VStr converted)
                       | inr reason =>
                           if single_date || default false force_date
                           then handle_extraction_error
                                  {| failure_point := "Date conversion"; failure_reason := reason;
                                     segment := seg; failed_position := position;
                                     element := Some e;
                                     subposition := match lp with PosTuple _ j => Some j | _ => None end;
                                     date := false; date_format_in := fin; date_format_out := fout |}
                           else ret (VStr e)
                       end
                  else ret (VStr e)) w0) = Ok (VFail error) ->
            failure_of_call seg position fin fout error
            /\ (failure_point error = "Date conversion" ->
                date = true /\ single_date || default false force_date = true)).
  { intros e w0. destruct date; [|discriminate].
    destruct (strptime_strftime e fin fout); [discriminate|].
    destruct (single_date || default false force_date); [|discriminate].
    intros H. apply handle_extraction_error_value in H. injection H as ->.
    split; [|auto]. unfold failure_of_call. cbn. split; [reflexivity|].
    split; [reflexivity|]. right. right. repeat split; eauto. }
  destruct lp as [i | i j]; simpl.
  - apply Hdate.
  - destruct (self w !! "subelement_separator") as [subsep|]; [|discriminate].
    destruct (split_by subsep element0) as [parts|]; [|discriminate].
    destruct (PyStr.index parts j) as [element1|]; [apply Hdate|].
    intros H. apply handle_extraction_error_value in H. injection H as ->.
    split; [|discriminate]. unfold failure_of_call. cbn. split; [reflexivity|].
    split; [reflexivity|]. right. left. repeat split; eauto.
Qed.

Lemma in_returned_failures (v : pyval) (error : ElementExtractionFailure) :
  In (VFail error) (returned_failures v) ->
  v = VFail error
  \/ (exists l, v = VList l /\ In (VFail error) l)
  \/ (exists d, v = VDict d /\ In (VFail error) (map snd d)).
Proof.
  destruct v; simpl; try contradiction.
  - intros [H | []]. left. assumption.
  - intros H. apply filter_In in H. right. left. eexists. split; [reflexivity | tauto].
  - intros H. apply filter_In in H. right. right. eexists. split; [reflexivity | tauto].
Qed.

Lemma returned_failures_have (P : ElementExtractionFailure -> Prop)
    (seg : string) (position : position) (date : bool) (fin : pyval) (fout : string) (w : World) :
  (forall single_date pos force_date w0 error,
     (match position with
      | Single p => pos = Some p /\ force_date = None
      | PosList l => exists p, In p l /\ pos = Some p /\ force_date = None
      | PosDict d => exists item, In item d /\ (pos, force_date) = item_request item
      end) ->
     single_date = match position with Single (PosInt _) => true | _ => false end ->
     fst (extract_one seg position date fin fout single_date pos force_date w0) = Ok (VFail error) ->
     P error) ->
  forall v error,
    fst (universal_element_extract seg position date fin fout w) = Ok v ->
    In (VFail error) (returned_failures v) ->
    P error.
Proof.
  intros Hone v error. unfold universal_element_extract.
  destruct position as [p | l | d].
  - intros Hv Hin. destruct (extract_one_leaf _ _ _ _ _ _ _ _ _ _ Hv) as [[s ->] | [f ->]];
      [destruct Hin|]. destruct Hin as [[= <-] | []].
    eapply Hone; [split; reflexivity | reflexivity | exact Hv].
  - unfold bind.
    pose proof (mapM_Forall (fun v0 => forall f, v0 = VFail f -> P f)
                  (fun p => extract_one seg (PosList l) date fin fout false (Some p) None) l) as HF.
    destruct (mapM _ l w) as [[vs|e] w1] eqn:E; [|discriminate].
    intros [= <-] Hin. apply filter_In in Hin. destruct Hin as [Hin _].
    assert (Hleaf : forall p w0 v0, In p l ->
              fst (extract_one seg (PosList l) date fin fout false (Some p) None w0) = Ok v0 ->
              forall f, v0 = VFail f -> P f).
    { intros p w0 v0 Hp H f ->. eapply Hone; [exists p; auto | reflexivity | exact H]. }
    destruct (HF Hleaf w vs) as [Hall _].
    { rewrite E. reflexivity. }
    rewrite List.Forall_forall in Hall. apply (Hall _ Hin error eq_refl).
  - unfold bind.
    pose proof (extract_named_values (fun v0 => forall f, v0 = VFail f -> P f)
                  (extract_one seg (PosDict d) date fin fout false) d) as HV.
    destruct (extract_named _ d [] w) as [[kvs|e] w1] eqn:E; [|discriminate].
    intros [= <-] Hin. apply filter_In in Hin. destruct Hin as [Hin _].
    apply in_map_iff in Hin. destruct Hin as ([k v0] & Hv0 & Hin). simpl in Hv0. subst v0.
    assert (Hall : Forall (fun kv => forall f, snd kv = VFail f -> P f) kvs).
    { apply (HV ltac:(intros item w0 v0 Hitem H f ->;
                       eapply Hone; [exists item; split; [exact Hitem | symmetry; apply surjective_pairing]
                                    | reflexivity | exact H]) [] w kvs); [constructor|].
      rewrite E. reflexivity. }
    rewrite List.Forall_forall in Hall. apply (Hall _ Hin error eq_refl).
Qed.

(** X4. Every failure in a returned value carries the segment of the call
    and leaves [date] unset, and is of one of three kinds: an Element Index
    failure, with the [int] index as position and no element; a Subelement
    Index failure, with the request as position, the element and the
    subposition; or a Date conversion failure, with the request as position,
    the element and the two formats of the call. *)
Theorem returned_failures_are_of_the_call (seg : string) (position : position) (date : bool)
    (date_format_in : pyval) (date_format_out : string) (w : World)
    (v : pyval) (error : ElementExtractionFailure) :
  fst (universal_element_extract seg position date date_format_in date_format_out w) = Ok v ->
  In (VFail error) (returned_failures v) ->
  failure_of_call seg position date_format_in date_format_out error.
Proof.
  apply (returned_failures_have (failure_of_call seg position date_format_in date_format_out)).
  intros single_date pos force_date w0 f _ _ H.
  apply (extract_one_failure _ _ _ _ _ _ _ _ _ _ H).
Qed.

(** X5. A Date conversion failure comes only from a call with the date
    option whose request is an [int] or a mapping with an entry marked
    [date: True]: a request for an element and a subelement, a list request
    and a mapping request without such a mark never return one. *)
Theorem date_failures_need_a_strict_request (seg : string) (position : position) (date : bool)
    (date_format_in : pyval) (date_format_out : string) (w : World)
    (v : pyval) (error : ElementExtractionFailure) :
  fst (universal_element_extract seg position date date_format_in date_format_out w) = Ok v ->
  In (VFail error) (returned_failures v) ->
  failure_point error = "Date conversion" ->
  date = true /\ reports_dates position = true.
Proof.
  intros Hv Hin Hpoint.
  apply (returned_failures_have
           (fun f => failure_point f = "Date conversion" ->
                     date = true /\ reports_dates position = true)
           seg position date date_format_in date_format_out w) with (v := v) (error := error);
    try assumption.
  intros single_date pos force_date w0 f Hpos Hsingle H Hf.
  destruct (extract_one_failure _ _ _ _ _ _ _ _ _ _ H) as [_ Hstrict].
  destruct (Hstrict Hf) as [Hdate Hor]. split; [assumption|].
  destruct position as [[i | i j] | l | d]; simpl in *.
  - reflexivity.
  - destruct Hpos as [_ ->]. subst single_date. discriminate.
  - destruct Hpos as (p & _ & _ & ->). subst single_date. discriminate.
  - destruct Hpos as (item & Hitem & Hreq). subst single_date. simpl in Hor.
    apply existsb_exists. exists item. split; [assumption|].
    unfold item_request in Hreq. destruct (snd item) as [p | pos' [[|]|]];
      injection Hreq as -> ->; try discriminate. reflexivity.
Qed.

Lemma extract_one_keeps_separators segment position date fin fout single_date pos force_date
    (w : World) :
  log_ok w ->
  same_separators w (snd (extract_one segment position date fin fout single_date pos force_date w))
  /\ log_ok (snd (extract_one segment position date fin fout single_date pos force_date w)).
Proof.
  intros Hlog.
  destruct (leaf_outcome_keeps w _ (extract_one_outcome segment position date fin fout
              single_date pos force_date w) Hlog) as [Hok Hself].
  split; [|assumption]. split; rewrite Hself by discriminate; reflexivity.
Qed.

Lemma same_separators_trans (w1 w2 w3 : World) :
  same_separators w1 w2 -> same_separators w2 w3 -> same_separators w1 w3.
Proof.
  intros [H1 H2] [H3 H4]. split; congruence.
Qed.

(** *** Failures are returned and logged *)

Lemma extract_one_built (seg : string) (position : position) (date : bool) (fin : pyval)
    (fout : string) (single_date : bool) (pos : option leaf_position) (force_date : option bool)
    (w w0 : World) :
  same_separators w w0 ->
  log_ok w0 ->
  fst (extract_one seg position date fin fout single_date pos force_date w0)
  = built_leaf w seg position date fin fout single_date pos force_date.
Proof.
  intros [Hel Hsub] Hlog.
  unfold extract_one, built_leaf, elements_of, bind, getattr, lift, raise. rewrite Hel, Hsub.
  destruct (self w0 !! "element_separator") as [sep|]; [|reflexivity].
  destruct (split_by sep seg) as [elements|]; [|reflexivity].
  destruct pos as [lp|]; [|reflexivity].
  replace (match lp with PosInt i => i | PosTuple i _ => i end) with (element_index lp)
    by (destruct lp; reflexivity).
  destruct (PyStr.index elements (element_index lp)) as [element0|];
    [|rewrite handle_extraction_error_ok by assumption; reflexivity].
  destruct lp as [i | i j]; cbv iota.
  - destruct date; [|reflexivity].
    destruct (strptime_strftime element0 fin fout); [reflexivity|].
    destruct (single_date || default false force_date); [|reflexivity].
    rewrite handle_extraction_error_ok by assumption. reflexivity.
  - destruct (self w0 !! "subelement_separator") as [subsep|]; [|reflexivity].
    destruct (split_by subsep element0) as [parts|]; [|reflexivity].
    destruct (PyStr.index parts j) as [element1|];
      [|rewrite handle_extraction_error_ok by assumption; reflexivity].
    destruct date; [|reflexivity].
    destruct (strptime_strftime element1 fin fout); [reflexivity|].
    destruct (single_date || default false force_date); [|reflexivity].
    rewrite handle_extraction_error_ok by assumption. reflexivity.
Qed.

Lemma extract_one_built_after (seg : string) (position : position) (date : bool) (fin : pyval)
    (fout : string) (single_date : bool) (pos : option leaf_position) (force_date : option bool)
    (w w0 : World) :
  same_separators w w0 ->
  log_ok w0 ->
  same_separators w (snd (extract_one seg position date fin fout single_date pos force_date w0))
  /\ log_ok (snd (extract_one seg position date fin fout single_date pos force_date w0)).
Proof.
  intros Hsame Hlog.
  destruct (extract_one_keeps_separators seg position date fin fout single_date pos force_date
              w0 Hlog) as [Hkeep Hlog'].
  split; [|assumption]. eapply same_separators_trans; eassumption.
Qed.

Lemma mapM_built (seg : string) (position : position) (date : bool) (fin : pyval) (fout : string)
    (w : World) (l : list leaf_position) :
  forall w0, same_separators w w0 -> log_ok w0 ->
    fst (mapM (fun p => extract_one seg position date fin fout false (Some p) None) l w0)
    = built_list (fun p => built_leaf w seg position date fin fout false (Some p) None) l.
Proof.
  induction l as [|p l IH]; intros w0 Hsame Hlog; [reflexivity|].
  cbn [mapM built_list]. unfold bind at 1.
  pose proof (extract_one_built seg position date fin fout false (Some p) None w w0 Hsame Hlog)
    as Hv.
  destruct (extract_one_built_after seg position date fin fout false (Some p) None w w0 Hsame
              Hlog) as [Hsame' Hlog'].
  destruct (extract_one seg position date fin fout false (Some p) None w0) as [r w1].
  cbn [fst snd] in *. rewrite <- Hv. destruct r as [v|e]; [|reflexivity].
  unfold bind at 1. specialize (IH w1 Hsame' Hlog').
  destruct (mapM _ l w1) as [rs w2]. cbn [fst] in IH. rewrite <- IH.
  destruct rs; reflexivity.
Qed.

Lemma extract_named_built (seg : string) (position : position) (date : bool) (fin : pyval)
    (fout : string) (w : World) (items : list (string * named_position)) :
  forall result w0, same_separators w w0 -> log_ok w0 ->
    fst (extract_named (extract_one seg position date fin fout false) items result w0)
    = built_named (built_leaf w seg position date fin fout false) items result.
Proof.
  induction items as [|[key spec] items IH]; intros result w0 Hsame Hlog; [reflexivity|].
  cbn [extract_named built_named]. unfold item_request. cbn [fst snd].
  set (pf := match spec with Spec pos force_date => (pos, force_date) | Plain p => (Some p, None) end).
  destruct pf as [pos force_date]. cbn [fst snd]. unfold bind at 1.
  pose proof (extract_one_built seg position date fin fout false pos force_date w w0 Hsame Hlog)
    as Hv.
  destruct (extract_one_built_after seg position date fin fout false pos force_date w w0 Hsame
              Hlog) as [Hsame' Hlog'].
  destruct (extract_one seg position date fin fout false pos force_date w0) as [r w1].
  cbn [fst snd] in *. rewrite <- Hv. destruct r as [v|e]; [|reflexivity].
  apply IH; assumption.
Qed.

(** C7. Every failure of an extraction call is returned at its leaf and
    appended to the failure log.  With a failure log that is absent or a
    list, the call returns the value built at the leaves, with each failure
    record that [extract_one] builds at the leaf where it was built (or
    raises where building raises).  The log after the call is the log
    before it followed by exactly the failures among the leaves of the
    returned value, in the order of the leaves, and nothing else of the
    parser, of the traversal state or of the heap changes. *)
Theorem failures_returned_and_logged (segment : string) (position : position) (date : bool)
    (date_format_in : pyval) (date_format_out : string) (w : World) :
  well_formed position ->
  (log_ok w ->
   fst (universal_element_extract segment position date date_format_in date_format_out w)
   = built_request w segment position date date_format_in date_format_out)
  /\ exists produced,
       grows w
         (snd (universal_element_extract segment position date date_format_in date_format_out w))
         produced
       /\ forall v,
            fst (universal_element_extract segment position date date_format_in date_format_out w)
            = Ok v ->
            returned_failures v = produced.
Proof.
  intros Hwf. split.
  { intros Hlog.
    assert (Hsame : same_separators w w) by (split; reflexivity).
    unfold universal_element_extract, built_request.
    destruct position as [p | l | d].
    - apply extract_one_built; assumption.
    - unfold bind.
      pose proof (mapM_built segment (PosList l) date date_format_in date_format_out w l w
                    Hsame Hlog) as H.
      destruct (mapM _ l w) as [r w1]. cbn [fst] in H. rewrite <- H.
      destruct r; reflexivity.
    - unfold bind.
      pose proof (extract_named_built segment (PosDict d) date date_format_in date_format_out w
                    d [] w Hsame Hlog) as H.
      destruct (extract_named _ d [] w) as [r w1]. cbn [fst] in H. rewrite <- H.
      destruct r; reflexivity. }
  unfold universal_element_extract.
  destruct position as [p | l | d].
  - pose proof (leaf_outcome_grows w _
      (extract_one_outcome segment (Single p) date date_format_in date_format_out
         (match p with PosInt _ => true | _ => false end) (Some p) None w)) as [Hg _].
    eexists. split; [exact Hg|]. intros v Hv. rewrite Hv. reflexivity.
  - unfold bind.
    destruct (mapM_grows
                (fun p => extract_one segment (PosList l) date date_format_in date_format_out false
                            (Some p) None) l
                (fun p w0 => extract_one_outcome _ _ _ _ _ _ _ _ w0) w) as (produced & Hg & Hret).
    destruct (mapM _ l w) as [[vs|e] w1]; simpl in *.
    + exists produced. split; [assumption|]. intros v [= <-]. apply (Hret vs eq_refl).
    + exists produced. split; [assumption|]. intros v [=].
  - unfold bind.
    destruct (extract_named_grows
                (extract_one segment (PosDict d) date date_format_in date_format_out false) d
                (fun pos force w0 => extract_one_outcome _ _ _ _ _ _ _ _ w0) Hwf [] w)
      as (produced & Hg & Hret); [constructor|].
    destruct (extract_named _ d [] w) as [[res|e] w1]; simpl in *.
    + exists produced. split; [assumption|]. intros v [= <-].
      destruct (Hret res eq_refl) as (added & -> & Hf). exact Hf.
    + exists produced. split; [assumption|]. intros v [=].
Qed.

Lemma mapM_independent seg position date fin fout (l : list leaf_position) (w : World) :
  log_ok w ->
  forall w0 vs,
    same_separators w w0 -> log_ok w0 ->
    fst (mapM (fun p => extract_one seg position date fin fout false (Some p) None) l w0) = Ok vs ->
    Forall2 (fun p v => fst (extract_one seg position date fin fout false (Some p) None w) = Ok v)
      l vs.
Proof.
  intros Hlog. induction l as [|p l IH]; intros w0 vs Hsame Hlog0; simpl.
  - intros [= <-]. constructor.
  - unfold bind.
    pose proof (extract_one_same_value seg position date fin fout false (Some p) None w w0
                  Hsame Hlog Hlog0) as Hv.
    destruct (extract_one_keeps_separators seg position date fin fout false (Some p) None w0 Hlog0)
      as [Hsame0 Hlog0'].
    destruct (extract_one seg position date fin fout false (Some p) None w0) as [[v|e] w1];
      [|discriminate]. simpl in *.
    specialize (IH w1).
    destruct (mapM _ l w1) as [[vs'|e] w2]; [|discriminate].
    intros [= <-]. constructor; [assumption|].
    apply IH; [eapply same_separators_trans; eassumption | assumption | reflexivity].
Qed.

Lemma extract_named_independent seg position date fin fout
    (items : list (string * named_position)) (w : World) :
  log_ok w ->
  NoDup (map fst items) ->
  forall result w0 d,
    same_separators w w0 -> log_ok w0 ->
    Forall (fun kv => exists s, fst kv = VStr s /\ s ∉ map fst items) result ->
    fst (extract_named (extract_one seg position date fin fout false) items result w0) = Ok d ->
    exists added,
      d = result ++ added
      /\ Forall2 (fun item kv =>
                    fst kv = VStr (fst item)
                    /\ fst (extract_one seg position date fin fout false
                              (fst (item_request item)) (snd (item_request item)) w)
                       = Ok (snd kv))
           items added.
Proof.
  intros Hlog. induction items as [|[key spec] items IH];
    intros Hnd result w0 d Hsame Hlog0 Hres; simpl.
  - intros [= <-]. exists []. rewrite app_nil_r. split; [reflexivity | constructor].
  - change (match spec with Spec pos force_date => (pos, force_date) | Plain p => (Some p, None) end)
      with (item_request (key, spec)).
    destruct (item_request (key, spec)) as [pos force_date] eqn:Hreq. unfold bind.
    pose proof (extract_one_same_value seg position date fin fout false pos force_date w w0
                  Hsame Hlog Hlog0) as Hv.
    destruct (extract_one_keeps_separators seg position date fin fout false pos force_date w0 Hlog0)
      as [Hsame0 Hlog0'].
    destruct (extract_one seg position date fin fout false pos force_date w0) as [[v|e] w1];
      [|discriminate]. simpl in *.
    inversion Hnd as [|? ? Hnotin Hnd']; subst.
    rewrite dict_set_fresh.
    2:{ eapply Forall_impl; [exact Hres|]. intros kv (s & Hk & Hs). exists s. split; [assumption|].
        intros ->. apply Hs. simpl. apply list_elem_of_here. }
    intros Hd.
    destruct (IH Hnd' (result ++ [(VStr key, v)]) w1 d) as (added & -> & Hall);
      [eapply same_separators_trans; eassumption | assumption | | assumption |].
    { apply Forall_app. split.
      - eapply Forall_impl; [exact Hres|]. intros kv (s & Hk & Hs). exists s.
        split; [assumption|]. intros Hin. apply Hs. simpl. apply list_elem_of_further. assumption.
      - constructor; [|constructor]. exists key. split; [reflexivity | assumption]. }
    exists ((VStr key, v) :: added). rewrite <- app_assoc. split; [reflexivity|].
    constructor; [|assumption]. rewrite Hreq. split; [reflexivity | assumption].
Qed.

(** X6. The leaves of a list or mapping request are extracted
    independently: with a usable failure log, each leaf of the returned list
    (or the value under each label of the returned mapping) is what the
    extraction of that one position returns in the world before the call,
    whatever the other positions gave. *)
Theorem leaves_are_extracted_independently (seg : string) (date : bool)
    (date_format_in : pyval) (date_format_out : string) (w : World) :
  log_ok w ->
  (forall l vs,
     fst (universal_element_extract seg (PosList l) date date_format_in date_format_out w)
     = Ok (VList vs) ->
     Forall2 (fun p v =>
                fst (extract_one seg (PosList l) date date_format_in date_format_out false
                       (Some p) None w) = Ok v)
       l vs)
  /\ (forall d kvs,
        NoDup (map fst d) ->
        fst (universal_element_extract seg (PosDict d) date date_format_in date_format_out w)
        = Ok (VDict kvs) ->
        Forall2 (fun item kv =>
                   fst kv = VStr (fst item)
                   /\ fst (extract_one seg (PosDict d) date date_format_in date_format_out false
                             (fst (item_request item)) (snd (item_request item)) w)
                      = Ok (snd kv))
          d kvs).
Proof.
  intros Hlog. split.
  - intros l vs. unfold universal_element_extract, bind.
    pose proof (mapM_independent seg (PosList l) date date_format_in date_format_out l w Hlog w)
      as H.
    destruct (mapM _ l w) as [[vs'|e] w1]; [|discriminate].
    intros [= <-]. apply H; [split; reflexivity | assumption | reflexivity].
  - intros d kvs Hnd. unfold universal_element_extract, bind.
    pose proof (extract_named_independent seg (PosDict d) date date_format_in date_format_out d w
                  Hlog Hnd [] w) as H.
    destruct (extract_named _ d [] w) as [[kvs'|e] w1]; [|discriminate].
    intros [= <-].
    destruct (H kvs') as (added & Heq & Hall);
      [split; reflexivity | assumption | constructor | reflexivity |].
    simpl in Heq. subst. assumption.
Qed.

Lemma split_by_splits (sep : pyval) (text : string) :
  splits (Some sep) -> exists pieces, split_by sep text = Ok pieces.
Proof.
  destruct sep as [| |s| | | | | |]; simpl; try contradiction; [eauto|].
  destruct s; [intros H; contradiction H; reflexivity | eauto].
Qed.

Lemma extract_one_returns seg position date fin fout single_date p force_date (w : World) :
  parser_ready w ->
  exists v, fst (extract_one seg position date fin fout single_date (Some p) force_date w) = Ok v.
Proof.
  intros (Hlog & Hel & Hsub).
  unfold extract_one, bind, getattr, lift.
  destruct (self w !! "element_separator") as [sep|]; [|contradiction].
  destruct (split_by_splits sep seg Hel) as [elements ->].
  destruct (PyStr.index elements _) as [element0|];
    [|rewrite handle_extraction_error_ok by assumption; eauto].
  assert (Hdate : forall e,
            exists v,
              fst ((if date
                    then match strptime_strftime e fin fout with
                         | inl converted => ret (VStr converted)
                         | inr reason =>
                             if single_date || default false force_date
                             then handle_extraction_error
                                    {| failure_point := "Date conversion"; failure_reason := reason;
                                       segment := seg; failed_position := position;
                                       element := Some e;
                                       subposition := match p with PosTuple _ j => Some j | _ => None end;
                                       date := false; date_format_in := fin;
                                       date_format_out := fout |}
                             else ret (VStr e)
                         end
                    else ret (VStr e)) w) = Ok v).
  { intros e. destruct date; [|simpl; eauto].
    destruct (strptime_strftime e fin fout); [simpl; eauto|].
    destruct (single_date || default false force_date); [|simpl; eauto].
    rewrite handle_extraction_error_ok by assumption. eauto. }
  destruct p as [i | i j]; simpl.
  - apply Hdate.
  - destruct (self w !! "subelement_separator") as [subsep|]; [|contradiction].
    destruct (split_by_splits subsep element0 Hsub) as [parts ->].
    destruct (PyStr.index parts j) as [element1|]; [apply Hdate|].
    rewrite handle_extraction_error_ok by assumption. eauto.
Qed.

Lemma extract_one_keeps_ready seg position date fin fout single_date pos force_date (w : World) :
  parser_ready w ->
  parser_ready (snd (extract_one seg position date fin fout single_date pos force_date w)).
Proof.
  intros (Hlog & Hel & Hsub).
  destruct (extract_one_keeps_separators seg position date fin fout single_date pos force_date w
              Hlog) as [[He Hs] Hlog'].
  split; [assumption|]. rewrite <- He, <- Hs. split; assumption.
Qed.

(** X7. Extraction returns and does not raise when the parser calls the
    class's [handle_extraction_error] (no instance attribute stands before
    the method), is ready (each separator is [None] or a non-empty text and
    the failure log is absent or a list) and every entry of a mapping
    request names a position. *)
Theorem extraction_never_raises (seg : string) (position : position) (date : bool)
    (date_format_in : pyval) (date_format_out : string) (w : World) :
  calls_class_handler w ->
  parser_ready w ->
  names_positions position ->
  exists v,
    fst (universal_element_extract seg position date date_format_in date_format_out w) = Ok v.
Proof.
  intros _ Hready Hnames. unfold universal_element_extract.
  destruct position as [p | l | d].
  - apply extract_one_returns. assumption.
  - unfold bind.
    assert (H : exists vs,
              fst (mapM (fun p => extract_one seg (PosList l) date date_format_in date_format_out
                                    false (Some p) None) l w) = Ok vs).
    { clear Hnames. generalize (PosList l). intros position. revert w Hready.
      induction l as [|p l IH]; intros w Hready; simpl; [eauto|].
      unfold bind.
      destruct (extract_one_returns seg position date date_format_in date_format_out false p None
                  w Hready) as [v Hv].
      pose proof (extract_one_keeps_ready seg position date date_format_in date_format_out false
                    (Some p) None w Hready) as Hready'.
      destruct (extract_one _ _ _ _ _ _ _ _ w) as [r w1]. simpl in *. subst r.
      destruct (IH w1 Hready') as [vs Hvs].
      destruct (mapM _ l w1) as [r w2]. simpl in *. subst r. eauto. }
    destruct H as [vs Hvs]. destruct (mapM _ l w) as [r w1]. simpl in *. subst r. eauto.
  - unfold bind.
    assert (H : forall result, exists kvs,
              fst (extract_named (extract_one seg (PosDict d) date date_format_in date_format_out
                                    false) d result w) = Ok kvs).
    { simpl in Hnames. generalize (PosDict d). intros position. revert w Hready.
      induction Hnames as [|[key spec] d Hpos _ IH]; intros w Hready result; simpl; [eauto|].
      unfold item_request in Hpos. simpl in Hpos.
      set (pf := match spec with Spec pos force_date => (pos, force_date) | Plain p => (Some p, None) end)
        in *.
      destruct pf as [[p|] force_date]; [|contradiction Hpos; reflexivity]. unfold bind.
      destruct (extract_one_returns seg position date date_format_in date_format_out false p
                  force_date w Hready) as [v Hv].
      pose proof (extract_one_keeps_ready seg position date date_format_in date_format_out false
                    (Some p) force_date w Hready) as Hready'.
      destruct (extract_one _ _ _ _ _ _ _ _ w) as [r w1]. simpl in *. subst r.
      apply IH. assumption. }
    destruct (H []) as [kvs Hkvs].
    destruct (extract_named _ d [] w) as [r w1]. simpl in *. subst r. eauto.
Qed.

(** *** More on the handlers *)

Lemma log_leaf_same_self (v : pyval) (wa wb : World) :
  self wa = self wb -> self (log_leaf v wa) = self (log_leaf v wb).
Proof.
  intros H. destruct v; try assumption.
  unfold log_leaf, log_failure, extraction_errors. cbn [self with_self]. rewrite H. reflexivity.
Qed.

Lemma log_leaves_same_self (vs : list pyval) (wa wb : World) :
  self wa = self wb -> self (log_leaves vs wa) = self (log_leaves vs wb).
Proof.
  revert wa wb. induction vs as [|v vs IH]; intros wa wb H; [assumption|].
  simpl. apply IH. apply log_leaf_same_self. assumption.
Qed.

Lemma log_leaf_errors (v : pyval) (w : World) :
  extraction_errors (log_leaf v w) = extraction_errors w ++ List.filter is_failure [v].
Proof.
  destruct v; simpl; rewrite ?app_nil_r; try reflexivity. apply log_failure_errors.
Qed.

Lemma log_leaves_errors (vs : list pyval) (w : World) :
  extraction_errors (log_leaves vs w) = extraction_errors w ++ List.filter is_failure vs.
Proof.
  revert w. induction vs as [|v vs IH]; intros w; simpl; [rewrite app_nil_r; reflexivity|].
  change (fold_left (fun w0 v0 => log_leaf v0 w0) vs (log_leaf v w))
    with (log_leaves vs (log_leaf v w)).
  rewrite IH, log_leaf_errors. simpl.
  destruct (is_failure v); simpl; rewrite <- ?app_assoc, ?app_nil_r; reflexivity.
Qed.

Lemma log_leaves_ok (vs : list pyval) (w : World) : log_ok w -> log_ok (log_leaves vs w).
Proof.
  revert w. induction vs as [|v vs IH]; intros w H; [assumption|].
  simpl. apply IH. apply log_leaf_ok. assumption.
Qed.

(** X8. An inner-message segment without an element 8 makes [handle_inner]
    raise [TypeError]: the Element Index failure is logged, and neither the
    date format nor the issue date is set. *)
Theorem handle_inner_short_segment_raises (seg : string) (w : World) (elements : list string) :
  elements_of w seg = Ok elements ->
  Z.of_nat (length elements) <= 8 ->
  log_ok w ->
  handle_inner seg w = (Raise TypeError, log_failure (element_index_failure seg 8) w)
  /\ self (log_failure (element_index_failure seg 8) w) !! "date_format" = self w !! "date_format"
  /\ self (log_failure (element_index_failure seg 8) w) !! "edi_version" = self w !! "edi_version"
  /\ state (log_failure (element_index_failure seg 8) w) = state w.
Proof.
  intros Helts Hlen Hlog. split.
  - unfold handle_inner. unfold bind at 1.
    rewrite (extract_element_leaf seg 8 w elements Helts Hlog).
    unfold plain_leaf. rewrite index_out_of_range by assumption. reflexivity.
  - split; [apply log_failure_self; discriminate|].
    split; [apply log_failure_self; discriminate | reflexivity].
Qed.

(** X9. A loop-marker segment whose document type is missing or is not in
    [START_SEGMENTS] makes [handle_loop] raise [KeyError]; what was extracted
    is kept as [document_type], the start segment code stays as it was, and
    the traversal state and the heap are untouched. *)
Theorem handle_loop_unknown_type_raises (seg : string) (w : World) (elements : list string) :
  elements_of w seg = Ok elements ->
  log_ok w ->
  (forall t, PyStr.index elements 1 = Some t -> table_get START_SEGMENTS t = None) ->
  exists w',
    handle_loop seg w = (Raise KeyError, w')
    /\ self w' !! "document_type" = Some (plain_leaf seg elements 1)
    /\ self w' !! "record_start_segment" = self w !! "record_start_segment"
    /\ extraction_errors w'
       = extraction_errors w ++ List.filter is_failure [plain_leaf seg elements 1]
    /\ state w' = state w
    /\ heap w' = heap w.
Proof.
  intros Helts Hlog Hnone.
  set (v := plain_leaf seg elements 1).
  exists (with_self (insert "document_type" v) (log_leaf v w)).
  split.
  - unfold handle_loop. unfold bind at 1.
    rewrite (extract_element_leaf seg 1 w elements Helts Hlog). fold v.
    unfold bind, lift, setattr, getattr. cbn [self with_self]. rewrite lookup_insert_eq.
    unfold v, plain_leaf in *. destruct (PyStr.index elements 1) as [t|] eqn:E.
    + unfold start_segment_of. rewrite (Hnone t eq_refl). reflexivity.
    + reflexivity.
  - cbn [self state heap with_self].
    split; [apply lookup_insert_eq|].
    split; [rewrite lookup_insert_ne by discriminate; apply log_leaf_self; discriminate|].
    split.
    { unfold extraction_errors at 1. cbn [self with_self].
      rewrite lookup_insert_ne by discriminate.
      change (match self (log_leaf v w) !! "extraction_errors" with
              | Some (VList log) => log
              | _ => []
              end) with (extraction_errors (log_leaf v w)).
      apply log_leaf_errors. }
    split; [apply log_leaf_state | apply log_leaf_heap].
Qed.

Lemma handle_start_log (seg : string) (w : World) (elements : list string)
    (rss fmt cur issued : pyval) (docs : list pyval) :
  elements_of w seg = Ok elements ->
  log_ok w ->
  self w !! "record_start_segment" = Some rss ->
  self w !! "date_format" = Some fmt ->
  state w !! "edi_class" = Some cur ->
  state w !! "document_issue_date" = Some issued ->
  (truthy cur = true -> state w !! "edi_class_list" = Some (VList docs)) ->
  exists w',
    handle_start seg w = (Ok tt, w')
    /\ state w'
       = <["edi_class" := VRef (length (heap w))]>
           (if truthy cur
            then <["edi_class" := VNone]> (<["edi_class_list" := VList (docs ++ [cur])]> (state w))
            else state w)
    /\ heap w'
       = heap w ++ [new_document (plain_leaf seg elements (record_no_index rss)) issued
                      (dated_leaf fmt default_format_out seg elements 6)
                      (dated_leaf fmt default_format_out seg elements 7)]
    /\ extraction_errors w'
       = extraction_errors w
         ++ List.filter is_failure
              [plain_leaf seg elements (record_no_index rss);
               dated_leaf fmt default_format_out seg elements 6;
               dated_leaf fmt default_format_out seg elements 7].
Proof.
  intros Helts Hlog Hrss Hfmt Hcur Hissued Hdocs.
  set (rn := plain_leaf seg elements (record_no_index rss)).
  set (w1 := log_leaf rn w).
  set (st1 := if truthy cur
              then <["edi_class" := VNone]> (<["edi_class_list" := VList (docs ++ [cur])]> (state w))
              else state w).
  set (h6 := dated_leaf fmt default_format_out seg elements 6).
  set (h7 := dated_leaf fmt default_format_out seg elements 7).
  assert (Harchive : exists w2,
            (if truthy cur
             then state_append "edi_class_list" (state_get "edi_class") ;;;
                  state_set "edi_class" VNone
             else ret tt) w1 = (Ok tt, w2)
            /\ state w2 = st1 /\ heap w2 = heap w /\ self w2 = self w1).
  { unfold st1. destruct (truthy cur) eqn:Htruthy.
    - eexists. split; [|split; [|split]].
      + unfold bind, state_append, bind, state_get, state_set. unfold w1.
        rewrite log_leaf_state, (Hdocs eq_refl). cbv beta iota.
        rewrite log_leaf_state, Hcur. reflexivity.
      + cbn [state with_state]. rewrite log_leaf_state. reflexivity.
      + cbn [heap with_state]. apply log_leaf_heap.
      + reflexivity.
    - exists w1. split; [reflexivity|]. unfold w1.
      split; [apply log_leaf_state|]. split; [apply log_leaf_heap | reflexivity]. }
  destruct Harchive as (w2 & Harchive & Hst2 & Hheap2 & Hself2).
  assert (Hissued1 : st1 !! "document_issue_date" = Some issued).
  { unfold st1. destruct (truthy cur); [|assumption].
    rewrite !lookup_insert_ne by discriminate. assumption. }
  set (doc0 := {| cls := "EdiDocument";
                  attrs := <["part_list" := VList []]> (<["ref_no" := rn]> ∅) |}).
  set (w3 := with_heap (fun h => h ++ [doc0]) w2).
  set (doc1 := {| cls := "EdiDocument";
                  attrs := <["document_issue_date" := issued]> (attrs doc0) |}).
  set (w4 := with_heap (fun _ => heap w ++ [doc1]) w3).
  assert (Helts4 : elements_of w4 seg = Ok elements).
  { unfold elements_of, w4, w3. cbn [self with_heap]. rewrite Hself2.
    fold (elements_of w1 seg). unfold w1. rewrite log_leaf_elements. assumption. }
  assert (Hlog4 : log_ok w4).
  { unfold log_ok, w4, w3. cbn [self with_heap]. rewrite Hself2.
    apply (log_leaf_ok rn w Hlog). }
  set (w5 := log_leaves [h6; h7] w4).
  assert (Hheap5 : heap w5 = heap w ++ [doc1]).
  { unfold w5. rewrite log_leaves_heap. reflexivity. }
  set (doc2 := {| cls := "EdiDocument";
                  attrs := <["horizon_start_date" := h6]> (attrs doc1) |}).
  set (w6 := with_heap (fun _ => heap w ++ [doc2]) w5).
  set (w7 := with_heap
               (fun _ => heap w ++ [{| cls := "EdiDocument";
                                        attrs := <["horizon_end_date" := h7]> (attrs doc2) |}]) w6).
  exists (with_state (insert "edi_class" (VRef (length (heap w)))) w7).
  split.
  { unfold handle_start. unfold bind at 1. unfold getattr at 1. rewrite Hrss.
    unfold bind at 1. rewrite (extract_element_leaf seg _ w elements Helts Hlog).
    fold rn. fold w1.
    unfold bind at 1. unfold state_get at 1. unfold w1 at 1. rewrite log_leaf_state, Hcur.
    unfold bind at 1. rewrite Harchive.
    unfold bind at 1. unfold EdiDocument, new_instance. fold doc0. fold w3. rewrite Hheap2.
    unfold bind at 1. unfold state_get at 1.
    replace (state w3) with st1 by (symmetry; exact Hst2). rewrite Hissued1.
    unfold bind at 1.
    rewrite (obj_setattr_last (heap w) doc0 "document_issue_date" issued w3)
      by (unfold w3; cbn [heap with_heap]; rewrite Hheap2; reflexivity).
    change (with_heap _ w3) with w4.
    unfold bind at 1. unfold getattr at 1.
    replace (self w4 !! "date_format") with (Some fmt).
    2:{ unfold w4, w3. cbn [self with_heap]. rewrite Hself2. unfold w1.
        rewrite log_leaf_self by discriminate. symmetry. assumption. }
    unfold bind at 1.
    change (PosList [PosInt 6; PosInt 7]) with (PosList (map PosInt [6; 7])).
    rewrite (extract_dated_list seg fmt default_format_out [6; 7] w4 elements Helts4 Hlog4).
    cbn [map]. fold h6. fold h7. fold w5.
    unfold bind at 1.
    rewrite (obj_setattr_last (heap w) doc1 "horizon_start_date" h6 w5 Hheap5).
    change (with_heap _ w5) with w6.
    unfold bind at 1.
    rewrite (obj_setattr_last (heap w) doc2 "horizon_end_date" h7 w6) by reflexivity.
    reflexivity. }
  split; [|split].
  - unfold w7, w6. cbn [state with_state with_heap]. unfold w5. rewrite log_leaves_state.
    unfold w4, w3. cbn [state with_state with_heap]. rewrite Hst2. reflexivity.
  - reflexivity.
  - assert (Hself : self (with_state (insert "edi_class" (VRef (length (heap w)))) w7)
                    = self (log_leaves [h6; h7] w1)).
    { unfold w7, w6. cbn [self with_state with_heap]. unfold w5.
      apply log_leaves_same_self. unfold w4, w3. cbn [self with_heap]. exact Hself2. }
    unfold extraction_errors at 1. rewrite Hself.
    change (match self (log_leaves [h6; h7] w1) !! "extraction_errors" with
            | Some (VList log) => log
            | _ => []
            end) with (extraction_errors (log_leaves [h6; h7] w1)).
    rewrite log_leaves_errors. unfold w1. rewrite log_leaf_errors, <- app_assoc.
    f_equal. fold rn. simpl. destruct (is_failure rn); reflexivity.
Qed.


Lemma handle_start_without_format (seg : string) (w : World) (elements : list string)
    (rss cur issued : pyval) (docs : list pyval) :
  elements_of w seg = Ok elements ->
  log_ok w ->
  self w !! "record_start_segment" = Some rss ->
  self w !! "date_format" = None ->
  state w !! "edi_class" = Some cur ->
  state w !! "document_issue_date" = Some issued ->
  (truthy cur = true -> state w !! "edi_class_list" = Some (VList docs)) ->
  exists w',
    handle_start seg w = (Raise AttributeError, w')
    /\ state w'
       = (if truthy cur
          then <["edi_class" := VNone]> (<["edi_class_list" := VList (docs ++ [cur])]> (state w))
          else state w)
    /\ heap w'
       = heap w ++ [{| cls := "EdiDocument";
                       attrs := <["document_issue_date" := issued]>
                                  (<["part_list" := VList []]>
                                     (<["ref_no" := plain_leaf seg elements (record_no_index rss)]>
                                        ∅)) |}].
Proof.
  intros Helts Hlog Hrss Hfmt Hcur Hissued Hdocs.
  set (rn := plain_leaf seg elements (record_no_index rss)).
  set (w1 := log_leaf rn w).
  set (st1 := if truthy cur
              then <["edi_class" := VNone]> (<["edi_class_list" := VList (docs ++ [cur])]> (state w))
              else state w).
  assert (Harchive : exists w2,
            (if truthy cur
             then state_append "edi_class_list" (state_get "edi_class") ;;;
                  state_set "edi_class" VNone
             else ret tt) w1 = (Ok tt, w2)
            /\ state w2 = st1 /\ heap w2 = heap w /\ self w2 = self w1).
  { unfold st1. destruct (truthy cur) eqn:Htruthy.
    - eexists. split; [|split; [|split]].
      + unfold bind, state_append, bind, state_get, state_set. unfold w1.
        rewrite log_leaf_state, (Hdocs eq_refl). cbv beta iota.
        rewrite log_leaf_state, Hcur. reflexivity.
      + cbn [state with_state]. rewrite log_leaf_state. reflexivity.
      + cbn [heap with_state]. apply log_leaf_heap.
      + reflexivity.
    - exists w1. split; [reflexivity|]. unfold w1.
      split; [apply log_leaf_state|]. split; [apply log_leaf_heap | reflexivity]. }
  destruct Harchive as (w2 & Harchive & Hst2 & Hheap2 & Hself2).
  assert (Hissued1 : st1 !! "document_issue_date" = Some issued).
  { unfold st1. destruct (truthy cur); [|assumption].
    rewrite !lookup_insert_ne by discriminate. assumption. }
  set (doc0 := {| cls := "EdiDocument";
                  attrs := <["part_list" := VList []]> (<["ref_no" := rn]> ∅) |}).
  set (w3 := with_heap (fun h => h ++ [doc0]) w2).
  set (doc1 := {| cls := "EdiDocument";
                  attrs := <["document_issue_date" := issued]> (attrs doc0) |}).
  set (w4 := with_heap (fun _ => heap w ++ [doc1]) w3).
  exists w4.
  split.
  { unfold handle_start. unfold bind at 1. unfold getattr at 1. rewrite Hrss.
    unfold bind at 1. rewrite (extract_element_leaf seg _ w elements Helts Hlog).
    fold rn. fold w1.
    unfold bind at 1. unfold state_get at 1. unfold w1 at 1. rewrite log_leaf_state, Hcur.
    unfold bind at 1. rewrite Harchive.
    unfold bind at 1. unfold EdiDocument, new_instance. fold doc0. fold w3. rewrite Hheap2.
    unfold bind at 1. unfold state_get at 1.
    replace (state w3) with st1 by (symmetry; exact Hst2). rewrite Hissued1.
    unfold bind at 1.
    rewrite (obj_setattr_last (heap w) doc0 "document_issue_date" issued w3)
      by (unfold w3; cbn [heap with_heap]; rewrite Hheap2; reflexivity).
    change (with_heap _ w3) with w4.
    unfold bind at 1. unfold getattr at 1.
    replace (self w4 !! "date_format") with (@None pyval).
    2:{ unfold w4, w3. cbn [self with_heap]. rewrite Hself2. unfold w1.
        rewrite log_leaf_self by discriminate. symmetry. assumption. }
    reflexivity. }
  split.
  - unfold w4, w3. cbn [state with_heap]. exact Hst2.
  - reflexivity.
Qed.


(** X10. For every document type of [START_SEGMENTS], [handle_loop] stores
    the type and its start segment code, and [handle_start], run next,
    gives the new Document as record number the leaf extracted at the index
    of that code's group: 3, 2, 1, or 0 for a code in no group. *)
Theorem document_type_decides_record_number (st beg t code : string) (w : World)
    (elements elements2 : list string) (fmt cur issued : pyval) (docs : list pyval) :
  elements_of w st = Ok elements ->
  PyStr.index elements 1 = Some t ->
  table_get START_SEGMENTS t = Some code ->
  elements_of w beg = Ok elements2 ->
  log_ok w ->
  self w !! "date_format" = Some fmt ->
  state w !! "edi_class" = Some cur ->
  state w !! "document_issue_date" = Some issued ->
  (truthy cur = true -> state w !! "edi_class_list" = Some (VList docs)) ->
  exists w1 w2 opened,
    handle_loop st w = (Ok tt, w1)
    /\ self w1 !! "document_type" = Some (VStr t)
    /\ self w1 !! "record_start_segment" = Some (VStr code)
    /\ handle_start beg w1 = (Ok tt, w2)
    /\ state w2 !! "edi_class" = Some opened
    /\ obj_getattr w2 opened "ref_no"
       = Some (plain_leaf beg elements2
                 (if in_strs (VStr code) GROUP_3 then 3
                  else if in_strs (VStr code) GROUP_2 then 2
                  else if in_strs (VStr code) GROUP_1 then 1 else 0)).
Proof.
  intros Helts Hidx Hcode Helts2 Hlog Hfmt Hcur Hissued Hdocs.
  set (w1 := with_self (insert "record_start_segment" (VStr code))
               (with_self (insert "document_type" (VStr t)) w)).
  destruct (handle_start_run beg w1 elements2 (VStr code) fmt cur issued docs)
    as (w2 & Hrun & Hstate & Hheap & _).
  - unfold w1. rewrite !setattr_elements by discriminate. assumption.
  - unfold w1. apply setattr_log_ok; [discriminate|]. apply setattr_log_ok; [discriminate|].
    assumption.
  - unfold w1. cbn [self with_self]. apply lookup_insert_eq.
  - unfold w1. cbn [self with_self]. rewrite !lookup_insert_ne by discriminate. assumption.
  - assumption.
  - assumption.
  - assumption.
  - exists w1, w2, (VRef (length (heap w))).
    split; [apply (handle_loop_run st w elements t code Helts Hidx Hcode)|].
    split; [unfold w1; cbn [self with_self];
            rewrite lookup_insert_ne by discriminate; apply lookup_insert_eq|].
    split; [unfold w1; cbn [self with_self]; apply lookup_insert_eq|].
    split; [exact Hrun|].
    split; [rewrite Hstate; apply lookup_insert_eq|].
    unfold obj_getattr. rewrite Hheap. unfold w1. cbn [heap with_self].
    rewrite list_lookup_middle by reflexivity.
    unfold new_document. cbn [attrs].
    rewrite !lookup_insert_ne by discriminate. apply lookup_insert_eq.
Qed.

(** X11. As long as the start segment code is the tuple that
    [default_segments] leaves (no loop marker was handled), [handle_start]
    takes the record number from element 0: the new Document's reference
    number is the first piece of the segment, its code. *)
Theorem default_start_segment_uses_element_zero (seg sep : string) (w : World)
    (codes : list pyval) (fmt cur issued : pyval) (docs : list pyval) :
  self w !! "element_separator" = Some (VStr sep) ->
  sep <> "" ->
  log_ok w ->
  self w !! "record_start_segment" = Some (VTuple codes) ->
  self w !! "date_format" = Some fmt ->
  state w !! "edi_class" = Some cur ->
  state w !! "document_issue_date" = Some issued ->
  (truthy cur = true -> state w !! "edi_class_list" = Some (VList docs)) ->
  exists w' opened e0,
    handle_start seg w = (Ok tt, w')
    /\ state w' !! "edi_class" = Some opened
    /\ head (PyStr.split_on sep seg) = Some e0
    /\ obj_getattr w' opened "ref_no" = Some (VStr e0).
Proof.
  intros Hsep Hne Hlog Hrss Hfmt Hcur Hissued Hdocs.
  destruct (split_go_first sep seg 0 "") as (e0 & rest & Hsplit).
  assert (Helts : elements_of w seg = Ok (e0 :: rest)).
  { unfold elements_of. rewrite Hsep. unfold split_by.
    destruct sep; [contradiction|]. unfold PyStr.split_on. rewrite Hsplit. reflexivity. }
  destruct (handle_start_run seg w (e0 :: rest) (VTuple codes) fmt cur issued docs
              Helts Hlog Hrss Hfmt Hcur Hissued Hdocs)
    as (w' & Hrun & Hstate & Hheap & _).
  exists w', (VRef (length (heap w))), e0.
  split; [exact Hrun|]. split; [rewrite Hstate; apply lookup_insert_eq|].
  split; [unfold PyStr.split_on; rewrite Hsplit; reflexivity|].
  unfold obj_getattr. rewrite Hheap, list_lookup_middle by reflexivity.
  unfold new_document. cbn [attrs].
  rewrite !lookup_insert_ne by discriminate. apply lookup_insert_eq.
Qed.

(** X12. When no Document is open ([state["edi_class"]] is [None]),
    [handle_start] archives nothing: the entry for the completed list is left
    as it is, present or not, and the heap only gains the new Document. *)
Theorem first_document_archives_nothing (seg : string) (w : World) (elements : list string)
    (rss fmt issued : pyval) :
  elements_of w seg = Ok elements ->
  log_ok w ->
  self w !! "record_start_segment" = Some rss ->
  self w !! "date_format" = Some fmt ->
  state w !! "edi_class" = Some VNone ->
  state w !! "document_issue_date" = Some issued ->
  exists w' doc,
    handle_start seg w = (Ok tt, w')
    /\ state w' = <["edi_class" := VRef (length (heap w))]> (state w)
    /\ state w' !! "edi_class_list" = state w !! "edi_class_list"
    /\ heap w' = heap w ++ [doc].
Proof.
  intros Helts Hlog Hrss Hfmt Hcur Hissued.
  destruct (handle_start_run seg w elements rss fmt VNone issued [] Helts Hlog Hrss Hfmt Hcur
              Hissued) as (w' & Hrun & Hstate & Hheap & _); [discriminate|].
  cbn [truthy] in Hstate.
  exists w'. eexists. split; [exact Hrun|]. split; [exact Hstate|].
  split; [rewrite Hstate; apply lookup_insert_ne; discriminate | exact Hheap].
Qed.

(** X13. A start segment with fewer than seven elements still opens a
    Document: its two horizon dates are the Element Index failures for
    positions 6 and 7 (not left unset), and these are appended to the failure
    log in that order, after the failure for the record number if there is
    one. *)
Theorem short_start_segment_still_opens_document (seg : string) (w : World)
    (elements : list string) (rss fmt cur issued : pyval) (docs : list pyval) :
  elements_of w seg = Ok elements ->
  Z.of_nat (length elements) <= 6 ->
  log_ok w ->
  self w !! "record_start_segment" = Some rss ->
  self w !! "date_format" = Some fmt ->
  state w !! "edi_class" = Some cur ->
  state w !! "document_issue_date" = Some issued ->
  (truthy cur = true -> state w !! "edi_class_list" = Some (VList docs)) ->
  exists w' opened,
    handle_start seg w = (Ok tt, w')
    /\ state w' !! "edi_class" = Some opened
    /\ obj_getattr w' opened "horizon_start_date" = Some (VFail (element_index_failure seg 6))
    /\ obj_getattr w' opened "horizon_end_date" = Some (VFail (element_index_failure seg 7))
    /\ extraction_errors w'
       = extraction_errors w
         ++ List.filter is_failure [plain_leaf seg elements (record_no_index rss)]
         ++ [VFail (element_index_failure seg 6); VFail (element_index_failure seg 7)].
Proof.
  intros Helts Hlen Hlog Hrss Hfmt Hcur Hissued Hdocs.
  destruct (handle_start_log seg w elements rss fmt cur issued docs
              Helts Hlog Hrss Hfmt Hcur Hissued Hdocs)
    as (w' & Hrun & Hstate & Hheap & Herrors).
  assert (H6 : dated_leaf fmt default_format_out seg elements 6
               = VFail (element_index_failure seg 6)).
  { unfold dated_leaf. rewrite index_out_of_range by lia. reflexivity. }
  assert (H7 : dated_leaf fmt default_format_out seg elements 7
               = VFail (element_index_failure seg 7)).
  { unfold dated_leaf. rewrite index_out_of_range by lia. reflexivity. }
  rewrite H6, H7 in Hheap, Herrors.
  exists w', (VRef (length (heap w))).
  split; [exact Hrun|]. split; [rewrite Hstate; apply lookup_insert_eq|].
  split; [|split].
  - unfold obj_getattr. rewrite Hheap, list_lookup_middle by reflexivity.
    unfold new_document. cbn [attrs].
    rewrite lookup_insert_ne by discriminate. apply lookup_insert_eq.
  - unfold obj_getattr. rewrite Hheap, list_lookup_middle by reflexivity.
    unfold new_document. cbn [attrs]. apply lookup_insert_eq.
  - rewrite Herrors. f_equal. simpl.
    destruct (is_failure (plain_leaf seg elements (record_no_index rss))); reflexivity.
Qed.

(** X14. When the parser has no [date_format] yet (no inner-message segment
    was handled) and a Document is open, [handle_start] raises
    [AttributeError] half way: the open Document has already been appended
    to the completed list and [state["edi_class"]] is [None], so no Document
    is open afterwards. *)
Theorem handle_start_without_date_format_raises (seg : string) (w : World)
    (elements : list string) (rss issued : pyval) (docs : list pyval) (l : nat) :
  elements_of w seg = Ok elements ->
  log_ok w ->
  self w !! "record_start_segment" = Some rss ->
  self w !! "date_format" = None ->
  state w !! "edi_class" = Some (VRef l) ->
  state w !! "document_issue_date" = Some issued ->
  state w !! "edi_class_list" = Some (VList docs) ->
  exists w',
    handle_start seg w = (Raise AttributeError, w')
    /\ state w' !! "edi_class" = Some VNone
    /\ state w' !! "edi_class_list" = Some (VList (docs ++ [VRef l]))
    /\ forall l' o, heap w !! l' = Some o -> heap w' !! l' = Some o.
Proof.
  intros Helts Hlog Hrss Hfmt Hcur Hissued Hdocs.
  destruct (handle_start_without_format seg w elements rss (VRef l) issued docs
              Helts Hlog Hrss Hfmt Hcur Hissued (fun _ => Hdocs))
    as (w' & Hrun & Hstate & Hheap).
  cbn [truthy] in Hstate.
  exists w'. split; [exact Hrun|]. rewrite Hstate, Hheap.
  split; [apply lookup_insert_eq|].
  split; [rewrite lookup_insert_ne by discriminate; apply lookup_insert_eq|].
  intros l' o Ho. rewrite lookup_app_l; [assumption|]. eapply lookup_lt_Some. eassumption.
Qed.

Lemma assign_to_part_run (names : list string) :
  forall (values : list pyval) (l : nat) (part : instance) (w : World),
    state w !! "part_record" = Some (VRef l) ->
    heap w !! l = Some part ->
    length values = length names ->
    exists w',
      assign_to_part names values w = (Ok tt, w')
      /\ self w' = self w /\ state w' = state w
      /\ heap w' = <[l := set_attrs part names values]> (heap w).
Proof.
  induction names as [|name names IH]; intros values l part w Hpart Hheap Hlen.
  - exists w. destruct values; split; try reflexivity;
      (split; [reflexivity|]; split; [reflexivity|]; simpl; symmetry;
       apply list_insert_id; assumption).
  - destruct values as [|v values]; [discriminate|]. simpl.
    unfold bind at 1. unfold state_get at 1. rewrite Hpart.
    unfold bind at 1. rewrite (obj_setattr_at l part name v w Hheap).
    set (part1 := {| cls := cls part; attrs := <[name := v]> (attrs part) |}).
    destruct (IH values l part1 (with_heap (insert l part1) w)) as (w' & Hrun & Hs & Hst & Hh).
    + assumption.
    + cbn [heap with_heap]. apply list_lookup_insert_eq. eapply lookup_lt_Some. eassumption.
    + simpl in Hlen. lia.
    + exists w'. split; [exact Hrun|]. split; [exact Hs|]. split; [exact Hst|].
      rewrite Hh. cbn [heap with_heap]. apply list_insert_insert_eq.
Qed.

Lemma accum_fields_run (seg : string) (positions : list Z) (names : list string)
    (w : World) (elements : list string) (l : nat) (part : instance) :
  elements_of w seg = Ok elements ->
  log_ok w ->
  state w !! "part_record" = Some (VRef l) ->
  heap w !! l = Some part ->
  length positions = length names ->
  exists w',
    accum_fields seg positions names w = (Ok tt, w')
    /\ self w'
       = self (log_leaves (map (dated_leaf default_format_in default_format_out seg elements)
                             positions) w)
    /\ state w' = state w
    /\ heap w'
       = <[l := set_attrs part names
                  (map (dated_leaf default_format_in default_format_out seg elements) positions)]>
           (heap w).
Proof.
  intros Helts Hlog Hpart Hheap Hlen.
  set (leaves := map (dated_leaf default_format_in default_format_out seg elements) positions).
  destruct (assign_to_part_run names leaves l part (log_leaves leaves w))
    as (w' & Hrun & Hs & Hst & Hh).
  - rewrite log_leaves_state. assumption.
  - rewrite log_leaves_heap. assumption.
  - unfold leaves. rewrite length_map. assumption.
  - exists w'. split.
    + unfold accum_fields. unfold bind at 1.
      rewrite (extract_dated_list seg default_format_in default_format_out positions w elements
                 Helts Hlog).
      fold leaves. replace (Nat.eqb (length leaves) (length names)) with true.
      * exact Hrun.
      * symmetry. apply Nat.eqb_eq. unfold leaves. rewrite length_map. assumption.
    + split; [exact Hs|]. split; [rewrite Hst; apply log_leaves_state|].
      rewrite Hh, log_leaves_heap. reflexivity.
Qed.

(** X15. With a Part open, an accumulation segment with qualifier ["02"]
    puts elements 2, 4 and 6, and one with qualifier ["PQ"] elements 3, 5
    and 2, into the Part's [total_accum], [total_accum_start_date] and
    [total_accum_end_date]; each is reformatted when it parses as a date
    under ["%Y%m%d"], kept as text otherwise, and is an Element Index
    failure, also logged, when the segment is too short.  The Part's other
    attributes and the other instances are not touched. *)
Theorem handle_accum_totals (seg qualifier : string) (a s e : Z) (w : World)
    (elements : list string) (l : nat) (part : instance) :
  (qualifier = "02" /\ (a, s, e) = (2, 4, 6)) \/ (qualifier = "PQ" /\ (a, s, e) = (3, 5, 2)) ->
  elements_of w seg = Ok elements ->
  PyStr.index elements 1 = Some qualifier ->
  log_ok w ->
  state w !! "part_record" = Some (VRef l) ->
  heap w !! l = Some part ->
  let leaf := dated_leaf default_format_in default_format_out seg elements in
  exists w',
    handle_accum seg w = (Ok tt, w')
    /\ obj_getattr w' (VRef l) "total_accum" = Some (leaf a)
    /\ obj_getattr w' (VRef l) "total_accum_start_date" = Some (leaf s)
    /\ obj_getattr w' (VRef l) "total_accum_end_date" = Some (leaf e)
    /\ (forall name,
          name <> "total_accum" -> name <> "total_accum_start_date" ->
          name <> "total_accum_end_date" ->
          obj_getattr w' (VRef l) name = attrs part !! name)
    /\ (forall l', l' <> l -> heap w' !! l' = heap w !! l')
    /\ extraction_errors w'
       = extraction_errors w ++ List.filter is_failure [leaf a; leaf s; leaf e]
    /\ state w' = state w.
Proof.
  intros Hlayout Helts Hq Hlog Hpart Hheap leaf.
  pose proof (lookup_lt_Some _ _ _ Hheap) as Hlt.
  destruct (accum_fields_run seg [a; s; e]
              ["total_accum"; "total_accum_start_date"; "total_accum_end_date"]
              w elements l part Helts Hlog Hpart Hheap eq_refl)
    as (w' & Hrun & Hself & Hstate & Hh).
  exists w'. split.
  { unfold handle_accum. unfold bind at 1.
    rewrite (extract_element_present seg 1 w elements qualifier Helts Hq).
    unfold bind at 1. unfold state_get at 1. rewrite Hpart. cbn [truthy].
    destruct Hlayout as [[-> [= -> -> ->]] | [-> [= -> -> ->]]]; exact Hrun. }
  cbn [map set_attrs] in Hh. fold leaf in Hh. fold leaf in Hself. cbn [map] in Hself.
  assert (Hat : heap w' !! l
                = Some {| cls := cls part;
                          attrs := <["total_accum_end_date" := leaf e]>
                                     (<["total_accum_start_date" := leaf s]>
                                        (<["total_accum" := leaf a]> (attrs part))) |}).
  { rewrite Hh. apply list_lookup_insert_eq. assumption. }
  unfold obj_getattr. rewrite Hat. cbn [attrs].
  split; [rewrite !lookup_insert_ne by discriminate; apply lookup_insert_eq|].
  split; [rewrite lookup_insert_ne by discriminate; apply lookup_insert_eq|].
  split; [apply lookup_insert_eq|].
  split; [intros name H1 H2 H3; rewrite !lookup_insert_ne by congruence; reflexivity|].
  split; [intros l' Hl'; rewrite Hh; apply list_lookup_insert_ne; congruence|].
  split; [|exact Hstate].
  unfold extraction_errors at 1. rewrite Hself.
  change (match self (log_leaves [leaf a; leaf s; leaf e] w) !! "extraction_errors" with
          | Some (VList log) => log
          | _ => []
          end) with (extraction_errors (log_leaves [leaf a; leaf s; leaf e] w)).
  apply log_leaves_errors.
Qed.

(** C3, as amended. With a Part open, for a parser whose active date
    format is ["%Y%m%d"], an accumulation segment with qualifier ["01"]
    sets the Part's [last_received_ship_quantity] and
    [last_received_ship_date] from elements 2 and 4 with date parsing: a
    field holds its element reformatted when the text matches the active
    date format, the text as it is when it does not, and the Element Index
    failure when the segment has no such element.  When the text at
    element 4 does not match the active date format, the date field holds
    that text and no Date conversion failure is appended: the failure log
    gains the Element Index failures of missing elements and nothing else.
    The quantity field is set from element 2 all the same.  The Part's
    other attributes, the other instances and the traversal state are not
    touched. *)
Theorem accum_01_bad_date_kept_as_text (seg : string) (w : World) (elements : list string)
    (fmt : pyval) (l : nat) (part : instance) :
  elements_of w seg = Ok elements ->
  PyStr.index elements 1 = Some "01" ->
  log_ok w ->
  self w !! "date_format" = Some fmt ->
  fmt = default_format_in ->
  state w !! "part_record" = Some (VRef l) ->
  heap w !! l = Some part ->
  let leaf := dated_leaf fmt default_format_out seg elements in
  exists w',
    handle_accum seg w = (Ok tt, w')
    /\ obj_getattr w' (VRef l) "last_received_ship_quantity" = Some (leaf 2)
    /\ obj_getattr w' (VRef l) "last_received_ship_date" = Some (leaf 4)
    /\ (forall e4 reason,
          PyStr.index elements 4 = Some e4 ->
          strptime_strftime e4 fmt default_format_out = inr reason ->
          obj_getattr w' (VRef l) "last_received_ship_date" = Some (VStr e4))
    /\ (forall e2 reason,
          PyStr.index elements 2 = Some e2 ->
          strptime_strftime e2 fmt default_format_out = inr reason ->
          obj_getattr w' (VRef l) "last_received_ship_quantity" = Some (VStr e2))
    /\ extraction_errors w'
       = extraction_errors w
         ++ List.filter is_failure [plain_leaf seg elements 2; plain_leaf seg elements 4]
    /\ (forall error,
          In (VFail error) (extraction_errors w') ->
          failure_point error = "Date conversion" ->
          In (VFail error) (extraction_errors w))
    /\ (forall name,
          name <> "last_received_ship_quantity" -> name <> "last_received_ship_date" ->
          obj_getattr w' (VRef l) name = attrs part !! name)
    /\ (forall l', l' <> l -> heap w' !! l' = heap w !! l')
    /\ state w' = state w.
Proof.
  intros Helts Hq Hlog _ -> Hpart Hheap leaf.
  pose proof (lookup_lt_Some _ _ _ Hheap) as Hlt.
  destruct (accum_fields_run seg [2; 4]
              ["last_received_ship_quantity"; "last_received_ship_date"]
              w elements l part Helts Hlog Hpart Hheap eq_refl)
    as (w' & Hrun & Hself & Hstate & Hh).
  cbn [map set_attrs] in Hh. fold leaf in Hh. fold leaf in Hself. cbn [map] in Hself.
  assert (Hat : heap w' !! l
                = Some {| cls := cls part;
                          attrs := <["last_received_ship_date" := leaf 4]>
                                     (<["last_received_ship_quantity" := leaf 2]> (attrs part)) |}).
  { rewrite Hh. apply list_lookup_insert_eq. assumption. }
  assert (Hquantity : obj_getattr w' (VRef l) "last_received_ship_quantity" = Some (leaf 2)).
  { unfold obj_getattr. rewrite Hat. cbn [attrs].
    rewrite lookup_insert_ne by discriminate. apply lookup_insert_eq. }
  assert (Hdate : obj_getattr w' (VRef l) "last_received_ship_date" = Some (leaf 4)).
  { unfold obj_getattr. rewrite Hat. cbn [attrs]. apply lookup_insert_eq. }
  assert (Herrors : extraction_errors w'
                    = extraction_errors w
                      ++ List.filter is_failure
                           [plain_leaf seg elements 2; plain_leaf seg elements 4]).
  { unfold extraction_errors at 1. rewrite Hself.
    change (match self (log_leaves [leaf 2; leaf 4] w) !! "extraction_errors" with
            | Some (VList log) => log
            | _ => []
            end) with (extraction_errors (log_leaves [leaf 2; leaf 4] w)).
    rewrite log_leaves_errors. f_equal.
    unfold leaf, dated_leaf, plain_leaf. cbn [List.filter].
    destruct (PyStr.index elements 2), (PyStr.index elements 4); reflexivity. }
  exists w'. split.
  { unfold handle_accum. unfold bind at 1.
    rewrite (extract_element_present seg 1 w elements "01" Helts Hq).
    unfold bind at 1. unfold state_get at 1. rewrite Hpart. cbn [truthy eq_str].
    change (String.eqb "01" "01") with true. cbv iota. exact Hrun. }
  split; [exact Hquantity|]. split; [exact Hdate|].
  split.
  { intros e4 reason He4 Hconv. rewrite Hdate. unfold leaf, dated_leaf, best_effort_date.
    rewrite He4, Hconv. reflexivity. }
  split.
  { intros e2 reason He2 Hconv. rewrite Hquantity. unfold leaf, dated_leaf, best_effort_date.
    rewrite He2, Hconv. reflexivity. }
  split; [exact Herrors|].
  split.
  { intros error Hin Hpoint. rewrite Herrors in Hin. apply in_app_or in Hin.
    destruct Hin as [Hin | Hin]; [exact Hin|]. exfalso.
    unfold plain_leaf in Hin. cbn [List.filter] in Hin.
    destruct (PyStr.index elements 2), (PyStr.index elements 4); cbn [is_failure] in Hin;
      repeat (destruct Hin as [Hin | Hin]; [injection Hin as <-; discriminate Hpoint|]);
      destruct Hin. }
  split.
  { intros name H1 H2. unfold obj_getattr. rewrite Hat. cbn [attrs].
    rewrite !lookup_insert_ne by congruence. reflexivity. }
  split; [intros l' Hl'; rewrite Hh; apply list_lookup_insert_ne; congruence|].
  exact Hstate.
Qed.

(** X16. [handle_accum] changes no Part when none is open or when the
    qualifier is none of ["01"], ["02"] and ["PQ"]: it returns with the
    traversal state and the heap as they were, having logged at most the
    failure for a missing qualifier; without a ["part_record"] entry in the
    traversal state it raises [KeyError]. *)
Theorem handle_accum_does_nothing_otherwise (seg : string) (w : World) (elements : list string) :
  elements_of w seg = Ok elements ->
  log_ok w ->
  let qualifier := plain_leaf seg elements 1 in
  (forall part_record,
     state w !! "part_record" = Some part_record ->
     truthy part_record = false
     \/ (eq_str qualifier "01" = false /\ eq_str qualifier "02" = false
         /\ eq_str qualifier "PQ" = false) ->
     handle_accum seg w = (Ok tt, log_leaf qualifier w)
     /\ state (log_leaf qualifier w) = state w
     /\ heap (log_leaf qualifier w) = heap w)
  /\ (state w !! "part_record" = None ->
      handle_accum seg w = (Raise KeyError, log_leaf qualifier w)).
Proof.
  intros Helts Hlog qualifier. split.
  - intros part_record Hpart Hcase.
    split; [|split; [apply log_leaf_state | apply log_leaf_heap]].
    unfold handle_accum. unfold bind at 1.
    rewrite (extract_element_leaf seg 1 w elements Helts Hlog). fold qualifier.
    unfold bind at 1. unfold state_get at 1. rewrite log_leaf_state, Hpart.
    destruct Hcase as [-> | (-> & -> & ->)]; [reflexivity|].
    destruct (truthy part_record); reflexivity.
  - intros Hpart. unfold handle_accum. unfold bind at 1.
    rewrite (extract_element_leaf seg 1 w elements Helts Hlog). fold qualifier.
    unfold bind at 1. unfold state_get at 1. rewrite log_leaf_state, Hpart. reflexivity.
Qed.

(** X17. On an address segment with qualifier ["ST"], [handle_address]
    stores the leaf of element 4 as the current address; when that leaf is
    truthy (a non-empty text, or the failure for a missing element 4) and a
    Part is open, it becomes the Part's [plant]; an empty element 4 leaves
    every instance as it was. *)
Theorem handle_address_ship_to (seg : string) (w : World) (elements : list string)
    (l : nat) (part : instance) :
  elements_of w seg = Ok elements ->
  PyStr.index elements 1 = Some "ST" ->
  log_ok w ->
  state w !! "part_record" = Some (VRef l) ->
  heap w !! l = Some part ->
  let address := plain_leaf seg elements 4 in
  exists w',
    handle_address seg w = (Ok tt, w')
    /\ state w' = <["address" := address]> (state w)
    /\ (truthy address = true -> obj_getattr w' (VRef l) "plant" = Some address)
    /\ (truthy address = false -> heap w' = heap w).
Proof.
  intros Helts Hq Hlog Hpart Hheap address.
  pose proof (lookup_lt_Some _ _ _ Hheap) as Hlt.
  set (w2 := with_state (insert "address" address) (log_leaf address w)).
  assert (Hprefix : handle_address seg w
                    = (if truthy address
                       then obj_setattr (VRef l) "plant" address
                       else ret tt) w2).
  { unfold handle_address. unfold bind at 1.
    rewrite (extract_element_present seg 1 w elements "ST" Helts Hq).
    cbn [eq_str]. change (String.eqb "ST" "ST") with true. cbv iota.
    unfold bind at 1. unfold bind at 1.
    rewrite (extract_element_leaf seg 4 w elements Helts Hlog). fold address.
    unfold state_set at 1. fold w2.
    unfold bind at 1. unfold state_get at 1. unfold w2 at 1. cbn [state with_state].
    rewrite lookup_insert_eq.
    unfold bind at 1. destruct (truthy address) eqn:Htruthy.
    - unfold bind at 1. unfold state_get at 1. unfold w2 at 1. cbn [state with_state].
      rewrite lookup_insert_ne by discriminate. rewrite log_leaf_state, Hpart.
      unfold ret at 1. cbn [truthy].
      unfold bind at 1. unfold state_get at 1. unfold w2 at 1. cbn [state with_state].
      rewrite lookup_insert_eq.
      unfold bind at 1. unfold state_get at 1. unfold w2 at 1. cbn [state with_state].
      rewrite lookup_insert_ne by discriminate. rewrite log_leaf_state, Hpart. reflexivity.
    - reflexivity. }
  rewrite Hprefix.
  destruct (truthy address) eqn:Htruthy.
  - rewrite (obj_setattr_at l part "plant" address w2)
      by (unfold w2; cbn [heap with_state]; rewrite log_leaf_heap; assumption).
    eexists. split; [reflexivity|]. cbn [state heap with_heap]. unfold w2. cbn [state with_state].
    rewrite log_leaf_state. split; [reflexivity|]. split; [|discriminate].
    intros _. unfold obj_getattr. cbn [heap with_heap with_state].
    rewrite log_leaf_heap, list_lookup_insert_eq by assumption. cbn [attrs].
    apply lookup_insert_eq.
  - exists w2. split; [reflexivity|]. unfold w2. cbn [state heap with_state].
    rewrite log_leaf_state, log_leaf_heap. split; [reflexivity|]. split; [discriminate | reflexivity].
Qed.

(** X18. On an address segment whose qualifier is not ["ST"],
    [handle_address] reads no address from the segment: a current address
    that is truthy is copied again to the open Part's [plant], the traversal
    state stays as it was, and without an ["address"] entry in the traversal
    state the handler raises [KeyError]. *)
Theorem handle_address_other_qualifier (seg : string) (w : World) (elements : list string) :
  elements_of w seg = Ok elements ->
  log_ok w ->
  let qualifier := plain_leaf seg elements 1 in
  eq_str qualifier "ST" = false ->
  (forall address l part,
     state w !! "address" = Some address ->
     truthy address = true ->
     state w !! "part_record" = Some (VRef l) ->
     heap w !! l = Some part ->
     exists w',
       handle_address seg w = (Ok tt, w')
       /\ state w' = state w
       /\ obj_getattr w' (VRef l) "plant" = Some address)
  /\ (state w !! "address" = None ->
      handle_address seg w = (Raise KeyError, log_leaf qualifier w)).
Proof.
  intros Helts Hlog qualifier Hq. split.
  - intros address l part Haddr Htruthy Hpart Hheap.
    pose proof (lookup_lt_Some _ _ _ Hheap) as Hlt.
    set (w1 := log_leaf qualifier w).
    exists (with_heap (insert l {| cls := cls part;
                                   attrs := <["plant" := address]> (attrs part) |}) w1).
    split.
    + unfold handle_address. unfold bind at 1.
      rewrite (extract_element_leaf seg 1 w elements Helts Hlog). fold qualifier. fold w1.
      rewrite Hq. unfold bind at 1. unfold ret at 1.
      unfold bind at 1. unfold state_get at 1. unfold w1 at 1. rewrite log_leaf_state, Haddr.
      unfold bind at 1. rewrite Htruthy.
      unfold bind at 1. unfold state_get at 1. unfold w1 at 1. rewrite log_leaf_state, Hpart.
      unfold ret at 1. cbn [truthy].
      unfold bind at 1. unfold state_get at 1. unfold w1 at 1. rewrite log_leaf_state, Haddr.
      unfold bind at 1. unfold state_get at 1. unfold w1 at 1. rewrite log_leaf_state, Hpart.
      apply obj_setattr_at. unfold w1. rewrite log_leaf_heap. assumption.
    + cbn [state with_heap]. unfold w1. split; [apply log_leaf_state|].
      unfold obj_getattr. cbn [heap with_heap].
      rewrite log_leaf_heap, list_lookup_insert_eq by assumption. cbn [attrs].
      apply lookup_insert_eq.
  - intros Haddr. unfold handle_address. unfold bind at 1.
    rewrite (extract_element_leaf seg 1 w elements Helts Hlog). fold qualifier.
    rewrite Hq. unfold bind at 1. unfold ret at 1.
    unfold bind at 1. unfold state_get at 1. rewrite log_leaf_state, Haddr. reflexivity.
Qed.

Lemma store_leaves_run (seg : string) (elements : list string) (items : list (string * Z)) :
  Forall (fun item => fst item <> "element_separator" /\ fst item <> "extraction_errors") items ->
  forall w,
    elements_of w seg = Ok elements ->
    log_ok w ->
    for_each (fun '(attr, i) => v <- extract_element seg i ;; setattr attr v) items w
    = (Ok tt, store_leaves seg elements items w).
Proof.
  induction 1 as [|[attr i] items [Ha1 Ha2] _ IH]; intros w Helts Hlog; [reflexivity|].
  cbn [fst] in Ha1, Ha2. cbn [for_each]. unfold bind at 1. unfold bind at 1.
  rewrite (extract_element_leaf seg i w elements Helts Hlog).
  unfold setattr at 1. unfold store_leaves. cbn [fold_left fst snd].
  apply IH.
  - rewrite setattr_elements by assumption. rewrite log_leaf_elements. assumption.
  - apply setattr_log_ok; [assumption|]. apply log_leaf_ok. assumption.
Qed.

Lemma store_leaves_frame (seg : string) (elements : list string) (items : list (string * Z))
    (w : World) :
  state (store_leaves seg elements items w) = state w
  /\ heap (store_leaves seg elements items w) = heap w.
Proof.
  revert w. unfold store_leaves.
  induction items as [|[attr i] items IH]; intros w; [split; reflexivity|].
  cbn [fold_left fst snd]. destruct (IH (with_self (insert attr (plain_leaf seg elements i))
                                           (log_leaf (plain_leaf seg elements i) w))) as [-> ->].
  cbn [state heap with_self]. split; [apply log_leaf_state | apply log_leaf_heap].
Qed.

(** X19. On an envelope segment [handle_envelope] returns, with the parser's
    [sender_id], [sender_qualifier], [receiver_id], [receiver_qualifier] and
    [transaction_no] set to the leaves of elements 6, 5, 8, 7 and 13 (a
    failure where the segment is too short); it opens no Document: the
    traversal state and the heap are as before. *)
Theorem handle_envelope_sets_parser_only (seg : string) (w : World) (elements : list string) :
  elements_of w seg = Ok elements ->
  log_ok w ->
  exists w',
    handle_envelope seg w = (Ok tt, w')
    /\ self w' !! "sender_id" = Some (plain_leaf seg elements 6)
    /\ self w' !! "sender_qualifier" = Some (plain_leaf seg elements 5)
    /\ self w' !! "receiver_id" = Some (plain_leaf seg elements 8)
    /\ self w' !! "receiver_qualifier" = Some (plain_leaf seg elements 7)
    /\ self w' !! "transaction_no" = Some (plain_leaf seg elements 13)
    /\ state w' = state w
    /\ heap w' = heap w.
Proof.
  intros Helts Hlog. eexists. split.
  { unfold handle_envelope.
    apply (store_leaves_run seg elements); [repeat constructor; discriminate | assumption..]. }
  destruct (store_leaves_frame seg elements
              [("sender_id", 6); ("sender_qualifier", 5); ("receiver_id", 8);
               ("receiver_qualifier", 7); ("transaction_no", 13)] w) as [Hst Hh].
  split; [|split; [|split; [|split; [|split; [|split; [exact Hst | exact Hh]]]]]];
    unfold store_leaves; cbn [fold_left fst snd self with_self];
    repeat (first [ rewrite lookup_insert_eq; reflexivity
                  | rewrite lookup_insert_ne by discriminate
                  | rewrite log_leaf_self by discriminate
                  | progress cbn [self with_self] ]).
Qed.

(** *** The other classes *)

Lemma table_get_absent {A} (t : list (string * A)) (k : string) :
  k ∉ map fst t -> table_get t k = None.
Proof.
  induction t as [|[k' a] t IH]; intros H; [reflexivity|]. simpl in *.
  apply not_elem_of_cons in H. destruct H as [Hne Hin].
  destruct (String.eqb k' k) eqn:E; [apply String.eqb_eq in E; congruence | auto].
Qed.

Lemma with_kwargs_lookup (kwargs : list (string * pyval)) :
  NoDup (map fst kwargs) ->
  forall (a : gmap string pyval) (name : string),
    with_kwargs kwargs a !! name = kwargs_or kwargs a name.
Proof.
  unfold with_kwargs, kwargs_or.
  induction kwargs as [|[k v] kwargs IH]; intros Hnd a name; [reflexivity|].
  inversion Hnd as [|? ? Hnotin Hnd']; subst. cbn [fold_left fst snd table_get].
  rewrite (IH Hnd'). destruct (String.eqb k name) eqn:E.
  - apply String.eqb_eq in E. subst name.
    rewrite (table_get_absent kwargs k Hnotin). apply lookup_insert_eq.
  - apply String.eqb_neq in E. destruct (table_get kwargs name); [reflexivity|].
    apply lookup_insert_ne. assumption.
Qed.

Lemma keyword_not_parameter (parameters : list string) (kwargs : list (string * pyval))
    (name : string) :
  keyword_arguments parameters kwargs ->
  In name parameters ->
  table_get kwargs name = None.
Proof.
  intros [_ [Hex _]] Hin. induction kwargs as [|[k v] kwargs IH]; [reflexivity|].
  cbn [existsb fst] in Hex. apply orb_false_iff in Hex. destruct Hex as [Hk Hrest].
  simpl. destruct (String.eqb k name) eqn:E; [|apply IH; assumption].
  apply String.eqb_eq in E. subst k. exfalso.
  assert (H : existsb (String.eqb name) parameters = true).
  { apply existsb_exists. exists name. split; [assumption | apply String.eqb_refl]. }
  congruence.
Qed.

Lemma check_kwargs_ok (parameters : list string) (kwargs : list (string * pyval)) (w : World) :
  keyword_arguments parameters kwargs -> check_kwargs parameters kwargs w = (Ok tt, w).
Proof.
  intros [_ [Hex _]]. unfold check_kwargs. rewrite Hex. reflexivity.
Qed.

(** X20. [EdiPart(part_no, revision, ...)] returns a new instance that
    holds part number and revision as given.  Its [po] is the keyword
    argument [po] when there is one, whatever its value, and else the
    keyword argument [customer_po] when there is one, and else [None]: the
    test for a truthy [po] never decides.  [EdiDocument.__init__] is not
    run, so the Part has a [ref_no] or a [part_list] only if a keyword
    argument gives it one. *)
Theorem EdiPart_attributes (part_no revision : printable) (kwargs : list (string * pyval))
    (w : World) :
  keyword_arguments ["self"; "part_no"; "revision"] kwargs ->
  exists o,
    EdiPart_init part_no revision kwargs w
    = (Ok (VRef (length (heap w))), with_heap (fun h => h ++ [o]) w)
    /\ cls o = "EdiPart"
    /\ attrs o !! "part_no" = Some (printable_value part_no)
    /\ attrs o !! "revision" = Some (printable_value revision)
    /\ attrs o !! "po"
       = Some (match table_get kwargs "po" with
               | Some v => v
               | None => kwargs_get kwargs "customer_po"
               end)
    /\ attrs o !! "part_rev"
       = Some (default (VStr (str_of part_no +:+ "-" +:+ str_of revision))
                 (table_get kwargs "part_rev"))
    /\ attrs o !! "ref_no" = table_get kwargs "ref_no"
    /\ attrs o !! "part_list" = table_get kwargs "part_list".
Proof.
  intros Hkw. pose proof Hkw as [Hnd _].
  eexists. split.
  { unfold EdiPart_init. unfold bind. rewrite check_kwargs_ok by assumption. reflexivity. }
  cbn [cls attrs]. split; [reflexivity|].
  rewrite !(with_kwargs_lookup kwargs Hnd). unfold kwargs_or.
  rewrite (keyword_not_parameter _ kwargs "part_no" Hkw) by (simpl; auto).
  rewrite (keyword_not_parameter _ kwargs "revision" Hkw) by (simpl; auto).
  split; [rewrite !lookup_insert_ne by discriminate; apply lookup_insert_eq|].
  split; [rewrite !lookup_insert_ne by discriminate; apply lookup_insert_eq|].
  split.
  { unfold kwargs_get. destruct (table_get kwargs "po") as [v|] eqn:Hpo; [reflexivity|].
    rewrite !lookup_insert_ne by discriminate. rewrite lookup_insert_eq.
    reflexivity. }
  split.
  { destruct (table_get kwargs "part_rev"); [reflexivity|].
    rewrite !lookup_insert_ne by discriminate. rewrite lookup_insert_eq. reflexivity. }
  split; destruct (table_get kwargs _); try reflexivity;
    rewrite !lookup_insert_ne by discriminate; apply lookup_empty.
Qed.

(** *** More on construction *)

Lemma default_segments_run (lang : string) (segments : list (string * list string))
    (items : list (string * string)) :
  table_get EDI_SEGMENTS lang = Some segments ->
  Forall (fun item => fst item <> "language" /\ is_Some (table_get segments (snd item))) items ->
  forall w,
    self w !! "language" = Some (VStr lang) ->
    for_each (fun '(attr, role) =>
                codes <- by_language EDI_SEGMENTS role ;;
                setattr attr (VTuple (map VStr codes)))
             items w
    = (Ok tt,
       with_self
         (fun a =>
            fold_left
              (fun a0 item =>
                 <[fst item := VTuple (map VStr (default [] (table_get segments (snd item))))]> a0)
              items a)
         w).
Proof.
  intros Hsegments. induction 1 as [|[attr role] items [Hattr [codes Hcodes]] _ IH];
    intros w Hlang.
  - destruct w; reflexivity.
  - cbn [fst snd] in Hattr, Hcodes. cbn [for_each].
    unfold bind at 1. unfold bind at 1. unfold by_language at 1. unfold bind at 1.
    unfold getattr at 1. rewrite Hlang. unfold lift at 1, table_get2.
    rewrite Hsegments, Hcodes. unfold setattr at 1.
    rewrite IH by (cbn [self with_self]; rewrite lookup_insert_ne by assumption; exact Hlang).
    cbn [fold_left fst snd]. rewrite Hcodes. reflexivity.
Qed.

Lemma init_reaches_kwargs (language : string) (kwargs : list (string * pyval)) (w : World) :
  (forall lang role d, table_get2 DEFAULT_SEPARATORS lang role = Ok d -> escape_decode d = Ok d) ->
  existsb (String.eqb language) VALID_LANGUAGES = true ->
  instantiate [] (EdiBase_init language None None None kwargs) w
  = finish_init kwargs (with_self (fun _ => default_attributes language) w).
Proof.
  intros Hdec Hlang.
  pose proof (Hdec "X12" "ELEMENT" "*" eq_refl) as Hx1.
  pose proof (Hdec "X12" "SUBELEMENT" "<" eq_refl) as Hx2.
  pose proof (Hdec "X12" "SEGMENT" "~" eq_refl) as Hx3.
  pose proof (Hdec "EDIFACT" "ELEMENT" "+" eq_refl) as Hf1.
  pose proof (Hdec "EDIFACT" "SUBELEMENT" ":" eq_refl) as Hf2.
  pose proof (Hdec "EDIFACT" "SEGMENT" "'" eq_refl) as Hf3.
  unfold instantiate, EdiBase_init. rewrite Hlang. cbn [negb not_given].
  destruct (valid_language_cases language Hlang) as [-> | ->].
  - do 7 init_step. unfold bind at 1. unfold default_segments.
    rewrite (default_segments_run "X12" (default [] (table_get EDI_SEGMENTS "X12"))
               segment_attributes eq_refl)
      by (first [ reflexivity
                | repeat constructor; first [discriminate | vm_compute; eexists; reflexivity] ]).
    unfold finish_init.
    match goal with
    | |- _ ?W = _ => replace W with (with_self (fun _ => default_attributes "X12") w)
    end; [reflexivity|].
    unfold with_self; cbn [self state heap]; f_equal; try (vm_compute; reflexivity).
  - do 7 init_step. unfold bind at 1. unfold default_segments.
    rewrite (default_segments_run "EDIFACT" (default [] (table_get EDI_SEGMENTS "EDIFACT"))
               segment_attributes eq_refl)
      by (first [ reflexivity
                | repeat constructor; first [discriminate | vm_compute; eexists; reflexivity] ]).
    unfold finish_init.
    match goal with
    | |- _ ?W = _ => replace W with (with_self (fun _ => default_attributes "EDIFACT") w)
    end; [reflexivity|].
    unfold with_self; cbn [self state heap]; f_equal; try (vm_compute; reflexivity).
Qed.

Lemma for_each_setattr_run (kwargs : list (string * pyval)) (w : World) :
  for_each (fun '(key, value) => setattr key value) kwargs w
  = (Ok tt, with_self (with_kwargs kwargs) w).
Proof.
  revert w. induction kwargs as [|[k v] kwargs IH]; intros w; [destruct w; reflexivity|].
  cbn [for_each]. unfold bind at 1. unfold setattr at 1. rewrite IH. reflexivity.
Qed.

Lemma build_dispatch_world (entries : list (string * string)) :
  forall d w, snd (build_dispatch entries d w) = w.
Proof.
  induction entries as [|[attr handler] entries IH]; intros d w; [reflexivity|].
  cbn [build_dispatch]. unfold bind, getattr.
  destruct (self w !! attr) as [key|]; [|reflexivity].
  destruct (hashable key); [apply IH | reflexivity].
Qed.

Lemma finish_init_run (kwargs : list (string * pyval)) (w : World) :
  finish_init kwargs w
  = match fst (build_dispatch dispatch_entries [] (with_self (with_kwargs kwargs) w)) with
    | Ok d => (Ok tt, with_self (insert "DISPATCH_MAP" (VDict d)) (with_self (with_kwargs kwargs) w))
    | Raise e => (Raise e, with_self (with_kwargs kwargs) w)
    end.
Proof.
  unfold finish_init. unfold bind at 1. rewrite for_each_setattr_run.
  unfold bind at 1.
  pose proof (build_dispatch_world dispatch_entries [] (with_self (with_kwargs kwargs) w)) as Hw.
  destruct (build_dispatch dispatch_entries [] (with_self (with_kwargs kwargs) w)) as [[d|e] w'];
    simpl in Hw; subst w'; reflexivity.
Qed.

(** X21. Constructing a parser with a language that is not one of the valid
    ones raises [ValueError] before any attribute is set. *)
Theorem invalid_language_raises (language : string)
    (element_separator subelement_separator segment_separator : option string)
    (kwargs : list (string * pyval)) (w : World) :
  existsb (String.eqb language) VALID_LANGUAGES = false ->
  instantiate []
    (EdiBase_init language element_separator subelement_separator segment_separator kwargs) w
  = (Raise ValueError, with_self (fun _ => ∅) w).
Proof.
  intros H. unfold instantiate, EdiBase_init. rewrite H. reflexivity.
Qed.

(** X22. When decoding leaves the default separators as they are,
    constructing a parser for a valid language with no separator of its own
    stores every keyword argument as an attribute, over the language, the
    default separators and the segment attributes of the language; this
    holds also when the construction then raises over the dispatch map.  On
    return [DISPATCH_MAP] is a dictionary, whatever the keyword arguments
    gave for it, and the traversal state and heap are not touched. *)
Theorem keyword_arguments_become_attributes (language : string)
    (kwargs : list (string * pyval)) (w : World) :
  (forall lang role d, table_get2 DEFAULT_SEPARATORS lang role = Ok d -> escape_decode d = Ok d) ->
  existsb (String.eqb language) VALID_LANGUAGES = true ->
  keyword_arguments EdiBase_parameters kwargs ->
  let out := instantiate [] (EdiBase_init language None None None kwargs) w in
  (forall name,
     name <> "DISPATCH_MAP" ->
     self (snd out) !! name = kwargs_or kwargs (default_attributes language) name)
  /\ (fst out = Ok tt -> exists d, self (snd out) !! "DISPATCH_MAP" = Some (VDict d))
  /\ state (snd out) = state w
  /\ heap (snd out) = heap w.
Proof.
  intros Hdec Hlang [Hnd _] out. unfold out.
  rewrite (init_reaches_kwargs language kwargs w Hdec Hlang), finish_init_run.
  destruct (fst (build_dispatch dispatch_entries [] _)) as [d|e]; cbn [fst snd].
  - split.
    { intros name Hname. cbn [self with_self]. rewrite lookup_insert_ne by congruence.
      apply with_kwargs_lookup. assumption. }
    split; [intros _; exists d; cbn [self with_self]; apply lookup_insert_eq|].
    split; reflexivity.
  - split.
    { intros name Hname. cbn [self with_self]. apply with_kwargs_lookup. assumption. }
    split; [discriminate|]. split; reflexivity.
Qed.

(** X23. When decoding leaves the default separators as they are, a parser
    constructed for a valid language with no argument but the language is
    ready to extract: construction returns, each separator is the
    language's default, a non-empty text, and there is no failure log
    yet. *)
Theorem constructed_parser_is_ready (language : string) (w : World) :
  (forall lang role d, table_get2 DEFAULT_SEPARATORS lang role = Ok d -> escape_decode d = Ok d) ->
  existsb (String.eqb language) VALID_LANGUAGES = true ->
  exists w' element subelement,
    instantiate [] (EdiBase_init language None None None []) w = (Ok tt, w')
    /\ table_get2 DEFAULT_SEPARATORS language "ELEMENT" = Ok element
    /\ table_get2 DEFAULT_SEPARATORS language "SUBELEMENT" = Ok subelement
    /\ self w' !! "element_separator" = Some (VStr element)
    /\ self w' !! "subelement_separator" = Some (VStr subelement)
    /\ self w' !! "extraction_errors" = None
    /\ parser_ready w'.
Proof.
  intros Hdec Hlang.
  rewrite (init_reaches_kwargs language [] w Hdec Hlang), finish_init_run.
  set (W := with_self (with_kwargs []) (with_self (fun _ => default_attributes language) w)).
  assert (Hattrs : exists d element subelement,
            fst (build_dispatch dispatch_entries [] W) = Ok d
            /\ table_get2 DEFAULT_SEPARATORS language "ELEMENT" = Ok element
            /\ table_get2 DEFAULT_SEPARATORS language "SUBELEMENT" = Ok subelement
            /\ element <> "" /\ subelement <> ""
            /\ self W !! "element_separator" = Some (VStr element)
            /\ self W !! "subelement_separator" = Some (VStr subelement)
            /\ self W !! "extraction_errors" = None).
  { unfold W. destruct (valid_language_cases language Hlang) as [-> | ->].
    - eexists. exists "*", "<". split; [vm_compute; reflexivity|].
      repeat split; try discriminate; vm_compute; reflexivity.
    - eexists. exists "+", ":". split; [vm_compute; reflexivity|].
      repeat split; try discriminate; vm_compute; reflexivity. }
  destruct Hattrs as (d & element & subelement & Hd & He & Hs & Hne & Hns & Hel & Hsub & Hlog).
  rewrite Hd.
  exists (with_self (insert "DISPATCH_MAP" (VDict d)) W), element, subelement.
  split; [reflexivity|]. split; [exact He|]. split; [exact Hs|].
  cbn [self with_self]. rewrite !lookup_insert_ne by discriminate.
  split; [exact Hel|]. split; [exact Hsub|]. split; [exact Hlog|].
  unfold parser_ready, log_ok. cbn [self with_self].
  rewrite !lookup_insert_ne by discriminate. rewrite Hel, Hsub, Hlog.
  split; [exact I|]. split; assumption.
Qed.

(** X24. When decoding leaves the default separators as they are, the
    dispatch map of a parser constructed with no argument but the language
    has the nine handlers for [X12], one per segment attribute; for
    [EDIFACT] it has eight: the accumulation and the release attribute are
    the same tuple, so one key stands for both, bound to [handle_accum], and
    [handle_release] is bound to no key. *)
Theorem dispatch_map_of_the_languages (language : string) (w : World) :
  (forall lang role d, table_get2 DEFAULT_SEPARATORS lang role = Ok d -> escape_decode d = Ok d) ->
  existsb (String.eqb language) VALID_LANGUAGES = true ->
  exists d,
    self (snd (instantiate [] (EdiBase_init language None None None []) w)) !! "DISPATCH_MAP"
    = Some (VDict d)
    /\ (language = "X12" ->
        map snd d = map (fun entry => VMethod (snd entry)) dispatch_entries)
    /\ (language = "EDIFACT" ->
        map snd d
        = map VMethod ["handle_envelope"; "handle_inner"; "handle_start"; "handle_address";
                       "handle_part"; "handle_accum"; "handle_end"; "handle_loop"]
        /\ In (VTuple [VStr ""], VMethod "handle_accum") d).
Proof.
  intros Hdec Hlang.
  rewrite (init_reaches_kwargs language [] w Hdec Hlang), finish_init_run.
  set (W := with_self (with_kwargs []) (with_self (fun _ => default_attributes language) w)).
  assert (Hd : exists d,
            fst (build_dispatch dispatch_entries [] W) = Ok d
            /\ (language = "X12" ->
                map snd d = map (fun entry => VMethod (snd entry)) dispatch_entries)
            /\ (language = "EDIFACT" ->
                map snd d
                = map VMethod ["handle_envelope"; "handle_inner"; "handle_start";
                               "handle_address"; "handle_part"; "handle_accum"; "handle_end";
                               "handle_loop"]
                /\ In (VTuple [VStr ""], VMethod "handle_accum") d)).
  { unfold W. destruct (valid_language_cases language Hlang) as [-> | ->].
    - eexists. split; [vm_compute; reflexivity|]. split; [intros _; reflexivity | discriminate].
    - eexists. split; [vm_compute; reflexivity|]. split; [discriminate|].
      intros _. split; [reflexivity|]. simpl. tauto. }
  destruct Hd as (d & Hd & Hx & Hf). rewrite Hd. exists d.
  split; [cbn [snd self with_self]; apply lookup_insert_eq|]. split; assumption.
Qed.

Lemma build_dispatch_unhashable (entries : list (string * string)) :
  forall d w,
    Forall (fun entry => is_Some (self w !! fst entry)) entries ->
    Exists (fun entry => exists v, self w !! fst entry = Some v /\ hashable v = false) entries ->
    fst (build_dispatch entries d w) = Raise TypeError.
Proof.
  induction entries as [|[attr handler] entries IH]; intros d w Hall Hex.
  - inversion Hex.
  - cbn [build_dispatch]. unfold bind, getattr.
    inversion Hall as [|? ? [key Hkey] Hall']; subst. cbn [fst] in Hkey. rewrite Hkey.
    destruct (hashable key) eqn:Hhash; [|reflexivity].
    apply IH; [assumption|].
    inversion Hex as [? ? (v & Hv & Hbad) | ? ? Hex']; subst; [|assumption].
    cbn [fst] in Hv. congruence.
Qed.

(** X25. When decoding leaves the default separators as they are and a
    keyword argument gives one of the nine dispatched segment attributes a
    value that cannot be hashed (a list or a dictionary), the construction
    raises [TypeError]. *)
Theorem unhashable_segment_attribute_raises (language attr handler : string)
    (kwargs : list (string * pyval)) (v : pyval) (w : World) :
  (forall lang role d, table_get2 DEFAULT_SEPARATORS lang role = Ok d -> escape_decode d = Ok d) ->
  existsb (String.eqb language) VALID_LANGUAGES = true ->
  keyword_arguments EdiBase_parameters kwargs ->
  In (attr, handler) dispatch_entries ->
  table_get kwargs attr = Some v ->
  hashable v = false ->
  fst (instantiate [] (EdiBase_init language None None None kwargs) w) = Raise TypeError.
Proof.
  intros Hdec Hlang [Hnd _] Hin Hattr Hhash.
  rewrite (init_reaches_kwargs language kwargs w Hdec Hlang), finish_init_run.
  set (W := with_self (with_kwargs kwargs) (with_self (fun _ => default_attributes language) w)).
  assert (Hself : forall name,
            self W !! name = kwargs_or kwargs (default_attributes language) name).
  { intros name. unfold W. cbn [self with_self]. apply with_kwargs_lookup. assumption. }
  assert (Hraise : fst (build_dispatch dispatch_entries [] W) = Raise TypeError).
  { apply build_dispatch_unhashable.
    - assert (Hdefaults : Forall (fun entry => is_Some (default_attributes language !! fst entry))
                            dispatch_entries).
      { destruct (valid_language_cases language Hlang) as [-> | ->];
          repeat constructor; vm_compute; eexists; reflexivity. }
      eapply Forall_impl; [exact Hdefaults|]. intros entry [key Hkey].
      rewrite Hself. unfold kwargs_or. destruct (table_get kwargs (fst entry)); eauto.
    - apply Exists_exists. exists (attr, handler).
      split; [apply list_elem_of_In; assumption|].
      exists v. split; [|assumption]. rewrite Hself. unfold kwargs_or. cbn [fst].
      rewrite Hattr. reflexivity. }
  rewrite Hraise. reflexivity.
Qed.

Lemma for_each_obj_setattr_run (kwargs : list (string * pyval)) :
  forall (l : nat) (o : instance) (w : World),
    heap w !! l = Some o ->
    exists w',
      for_each (fun item => obj_setattr (VRef l) (fst item) (snd item)) kwargs w = (Ok tt, w')
      /\ self w' = self w /\ state w' = state w
      /\ heap w' = <[l := {| cls := cls o; attrs := with_kwargs kwargs (attrs o) |}]> (heap w).
Proof.
  induction kwargs as [|[k v] kwargs IH]; intros l o w Hheap.
  - exists w. split; [reflexivity|]. split; [reflexivity|]. split; [reflexivity|].
    symmetry. apply list_insert_id. destruct o. assumption.
  - cbn [for_each fst snd]. unfold bind at 1.
    rewrite (obj_setattr_at l o k v w Hheap).
    set (o1 := {| cls := cls o; attrs := <[k := v]> (attrs o) |}).
    destruct (IH l o1 (with_heap (insert l o1) w)) as (w' & Hrun & Hs & Hst & Hh).
    { cbn [heap with_heap]. apply list_lookup_insert_eq. eapply lookup_lt_Some. eassumption. }
    exists w'. split; [exact Hrun|]. split; [exact Hs|]. split; [exact Hst|].
    rewrite Hh. cbn [heap with_heap]. apply list_insert_insert_eq.
Qed.

(** X26. [add_attr] on a Document or a Part stores each keyword argument as
    an attribute of that instance and leaves its other attributes, its
    class, the other instances, the parser and the traversal state as they
    were. *)
Theorem add_attr_stores_keyword_arguments (l : nat) (o : instance)
    (kwargs : list (string * pyval)) (w : World) :
  heap w !! l = Some o ->
  cls o = "EdiDocument" \/ cls o = "EdiPart" ->
  keyword_arguments ["self"] kwargs ->
  exists w' o',
    add_attr (VRef l) kwargs w = (Ok tt, w')
    /\ heap w' !! l = Some o'
    /\ cls o' = cls o
    /\ (forall name, attrs o' !! name = kwargs_or kwargs (attrs o) name)
    /\ (forall l', l' <> l -> heap w' !! l' = heap w !! l')
    /\ self w' = self w
    /\ state w' = state w.
Proof.
  intros Hheap Hcls Hkw. pose proof Hkw as [Hnd _].
  pose proof (lookup_lt_Some _ _ _ Hheap) as Hlt.
  destruct (for_each_obj_setattr_run kwargs l o w Hheap) as (w' & Hrun & Hs & Hst & Hh).
  exists w', {| cls := cls o; attrs := with_kwargs kwargs (attrs o) |}.
  split.
  { unfold add_attr. rewrite Hheap.
    replace (String.eqb (cls o) "EdiDocument" || String.eqb (cls o) "EdiPart") with true
      by (destruct Hcls as [-> | ->]; reflexivity).
    unfold bind. rewrite check_kwargs_ok by assumption. exact Hrun. }
  split; [rewrite Hh; apply list_lookup_insert_eq; assumption|].
  split; [reflexivity|].
  split; [intros name; cbn [attrs]; apply with_kwargs_lookup; assumption|].
  split; [intros l' Hl'; rewrite Hh; apply list_lookup_insert_ne; congruence|].
  split; assumption.
Qed.

Lemma set_if_none_run (l : nat) (o : instance) (name : string) (value : pyval) (w : World) :
  heap w !! l = Some o ->
  cls o = "EdiPart" ->
  attribute_name name ->
  exists w',
    set_if_none (VRef l) name value w = (Ok tt, w')
    /\ heap w' = <[l := {| cls := cls o;
                           attrs := <[name := or_if_none (attrs o !! name) value]> (attrs o) |}]>
                   (heap w)
    /\ self w' = self w
    /\ state w' = state w.
Proof.
  intros Hheap Hcls [Hname _].
  unfold set_if_none. rewrite Hheap.
  replace (String.eqb (cls o) "EdiPart") with true by (rewrite Hcls; reflexivity).
  cbv iota. rewrite Hname.
  assert (Hkeep : forall v, attrs o !! name = Some v ->
            w.(heap) = <[l := {| cls := cls o; attrs := <[name := v]> (attrs o) |}]> (heap w)).
  { intros v Hv. symmetry. apply list_insert_id. rewrite Hheap. f_equal.
    destruct o as [c a]. cbn [cls attrs] in *. f_equal. symmetry. apply insert_id. assumption. }
  destruct (attrs o !! name) as [v|] eqn:Hattr.
  - destruct v; cbn [or_if_none];
      try (exists w; split; [reflexivity|]; split; [apply Hkeep; reflexivity|];
           split; reflexivity).
    rewrite (obj_setattr_at l o name value w Hheap). eexists. split; [reflexivity|].
    split; [reflexivity|]. split; reflexivity.
  - cbn [or_if_none]. rewrite (obj_setattr_at l o name value w Hheap).
    eexists. split; [reflexivity|]. split; [reflexivity|]. split; reflexivity.
Qed.

(** X27. [set_if_none] on a Part sets the attribute to the new value when
    the Part has no such attribute or holds [None] there, and never replaces
    a value that is not [None]; the other attributes, the other instances,
    the parser and the traversal state stay as they were. *)
Theorem set_if_none_sets_only_none (l : nat) (o : instance) (name : string) (value : pyval)
    (w : World) :
  heap w !! l = Some o ->
  cls o = "EdiPart" ->
  attribute_name name ->
  exists w',
    set_if_none (VRef l) name value w = (Ok tt, w')
    /\ obj_getattr w' (VRef l) name = Some (or_if_none (attrs o !! name) value)
    /\ (forall v, attrs o !! name = Some v -> v <> VNone ->
        obj_getattr w' (VRef l) name = Some v)
    /\ (forall other, other <> name -> obj_getattr w' (VRef l) other = attrs o !! other)
    /\ (forall l', l' <> l -> heap w' !! l' = heap w !! l')
    /\ self w' = self w
    /\ state w' = state w.
Proof.
  intros Hheap Hcls Hname.
  pose proof (lookup_lt_Some _ _ _ Hheap) as Hlt.
  destruct (set_if_none_run l o name value w Hheap Hcls Hname) as (w' & Hrun & Hh & Hs & Hst).
  exists w'. split; [exact Hrun|].
  assert (Hat : obj_getattr w' (VRef l) name = Some (or_if_none (attrs o !! name) value)).
  { unfold obj_getattr. rewrite Hh, list_lookup_insert_eq by assumption. cbn [attrs].
    apply lookup_insert_eq. }
  split; [exact Hat|]. split.
  { intros v Hv Hnone. rewrite Hat, Hv. destruct v; try reflexivity. contradiction. }
  split.
  { intros other Hother. unfold obj_getattr. rewrite Hh, list_lookup_insert_eq by assumption.
    cbn [attrs]. apply lookup_insert_ne. congruence. }
  split; [intros l' Hl'; rewrite Hh; apply list_lookup_insert_ne; congruence|].
  split; assumption.
Qed.

(** X28. Of two calls of [set_if_none] for the same attribute of a Part,
    the second changes nothing when the first value is not [None]: the
    attribute holds what it held after the first call. *)
Theorem set_if_none_first_value_stays (l : nat) (o : instance) (name : string)
    (first second : pyval) (w : World) :
  heap w !! l = Some o ->
  cls o = "EdiPart" ->
  attribute_name name ->
  first <> VNone ->
  exists w1,
    set_if_none (VRef l) name first w = (Ok tt, w1)
    /\ (set_if_none (VRef l) name first ;;; set_if_none (VRef l) name second) w = (Ok tt, w1)
    /\ obj_getattr w1 (VRef l) name = Some (or_if_none (attrs o !! name) first)
    /\ or_if_none (attrs o !! name) first <> VNone.
Proof.
  intros Hheap Hcls Hname Hfirst.
  pose proof (lookup_lt_Some _ _ _ Hheap) as Hlt.
  destruct (set_if_none_run l o name first w Hheap Hcls Hname) as (w1 & Hrun & Hh & Hs & Hst).
  set (v1 := or_if_none (attrs o !! name) first) in *.
  set (o1 := {| cls := cls o; attrs := <[name := v1]> (attrs o) |}) in *.
  assert (Hv1 : v1 <> VNone).
  { unfold v1, or_if_none. destruct (attrs o !! name) as [[]|]; congruence. }
  assert (Hheap1 : heap w1 !! l = Some o1).
  { rewrite Hh. apply list_lookup_insert_eq. assumption. }
  exists w1. split; [exact Hrun|]. split.
  - unfold bind. rewrite Hrun.
    unfold set_if_none. rewrite Hheap1. unfold o1. cbn [cls attrs].
    replace (String.eqb (cls o) "EdiPart") with true by (rewrite Hcls; reflexivity).
    cbv iota.
    rewrite lookup_insert_eq. destruct v1; try reflexivity. contradiction.
  - split; [|exact Hv1]. unfold obj_getattr. rewrite Hheap1. unfold o1. cbn [attrs].
    apply lookup_insert_eq.
Qed.

(** X29. [X12ReleaseDetails] with codes that can be hashed returns a new
    instance that holds date and quantity as given and, for release type and
    timing, the label of the code in the forecast and the timing table, or
    [None] for a code that is no text or is not in the table; a keyword
    argument changes none of the four.  A release type that cannot be hashed
    raises [TypeError]. *)
Theorem X12ReleaseDetails_decodes_codes (date quantity rel_type rel_timing : pyval)
    (kwargs : list (string * pyval)) (w : World) :
  keyword_arguments ["self"; "date"; "quantity"; "rel_type"; "rel_timing"] kwargs ->
  (hashable rel_type = true ->
   hashable rel_timing = true ->
   exists o,
     X12ReleaseDetails date quantity rel_type rel_timing kwargs w
     = (Ok (VRef (length (heap w))), with_heap (fun h => h ++ [o]) w)
     /\ attrs o !! "date" = Some date
     /\ attrs o !! "quantity" = Some quantity
     /\ attrs o !! "rel_type" = Some (x12_label FORECAST_CROSSREF rel_type)
     /\ attrs o !! "rel_timing" = Some (x12_label TIMING_CROSSREF rel_timing))
  /\ (hashable rel_type = false ->
      X12ReleaseDetails date quantity rel_type rel_timing kwargs w = (Raise TypeError, w)).
Proof.
  intros Hkw. pose proof Hkw as [Hnd _].
  assert (Hlabel : forall table code,
            (table = FORECAST_CROSSREF \/ table = TIMING_CROSSREF) ->
            hashable code = true ->
            crossref table (VStr "X12") code = Ok (x12_label table code)).
  { intros table code [-> | ->] Hhash; unfold crossref, x12_label; cbn [table_get default];
      change (String.eqb "X12" "X12") with true; cbv iota;
      destruct code; try reflexivity; try (rewrite Hhash; reflexivity);
      cbn [hashable] in Hhash; discriminate. }
  split.
  - intros Ht Hm. eexists. split.
    { unfold X12ReleaseDetails. unfold bind at 1. rewrite check_kwargs_ok by assumption.
      unfold bind at 1. unfold lift at 1. rewrite (Hlabel FORECAST_CROSSREF) by auto.
      unfold bind at 1. unfold lift at 1. rewrite (Hlabel TIMING_CROSSREF) by auto.
      reflexivity. }
    cbn [attrs]. rewrite !(with_kwargs_lookup kwargs Hnd). unfold kwargs_or.
    rewrite (keyword_not_parameter _ kwargs "date" Hkw) by (simpl; tauto).
    rewrite (keyword_not_parameter _ kwargs "quantity" Hkw) by (simpl; tauto).
    rewrite (keyword_not_parameter _ kwargs "rel_type" Hkw) by (simpl; tauto).
    rewrite (keyword_not_parameter _ kwargs "rel_timing" Hkw) by (simpl; tauto).
    split; [rewrite !lookup_insert_ne by discriminate; apply lookup_insert_eq|].
    split; [rewrite !lookup_insert_ne by discriminate; apply lookup_insert_eq|].
    split; [rewrite !lookup_insert_ne by discriminate; apply lookup_insert_eq|].
    apply lookup_insert_eq.
  - intros Ht. unfold X12ReleaseDetails. unfold bind at 1.
    rewrite check_kwargs_ok by assumption.
    unfold bind at 1. unfold lift at 1.
    replace (crossref FORECAST_CROSSREF (VStr "X12") rel_type) with (@Raise pyval TypeError);
      [reflexivity|].
    unfold crossref. cbn [table_get FORECAST_CROSSREF].
    change (String.eqb "X12" "X12") with true. cbv iota.
    destruct rel_type; try (rewrite Ht; reflexivity); cbn [hashable] in Ht; discriminate.
Qed.

End Edi.

(** ** Runs on concrete input *)

Example split_star : PyStr.split_on "*" "SHP*01*25*011*20250115" = ["SHP"; "01"; "25"; "011"; "20250115"].
Proof. reflexivity. Qed.

Example split_trailing : PyStr.split_on "*" "a**b*" = ["a"; ""; "b"; ""].
Proof. reflexivity. Qed.

Example split_long_sep : PyStr.split_on "ab" "xabyababz" = ["x"; "y"; ""; "z"].
Proof. reflexivity. Qed.

Example split_overlap : PyStr.split_on "aa" "aaa" = [""; "a"].
Proof. reflexivity. Qed.

Example split_white_space : PyStr.split_ws "  N1 ST  PLANT " = ["N1"; "ST"; "PLANT"].
Proof. reflexivity. Qed.

Example str_of_int_zero : PyStr.str_of_int 0 = "0" /\ PyStr.str_of_int 13 = "13".
Proof. split; reflexivity. Qed.

Example split_empty_text : PyStr.split_on "*" "" = [""].
Proof. reflexivity. Qed.

Example repr_plain : PyStr.repr "N1*ST" = "'N1*ST'".
Proof. reflexivity. Qed.

Example repr_quote :
  PyStr.repr "UNB+a'" = String PyStr.dquote ("UNB+a'" ++ String PyStr.dquote "").
Proof. reflexivity. Qed.

Example str_of_int_neg : PyStr.str_of_int (-12) = "-12".
Proof. reflexivity. Qed.

Example take_short : PyStr.take 4 "004010" = "0040" /\ PyStr.take 4 "00" = "00".
Proof. split; reflexivity. Qed.

Example strptime_full_year :
  Reference.strptime_strftime "20250115" (VStr "%Y%m%d") "%m-%d-%Y" = inl "01-15-2025".
Proof. reflexivity. Qed.

Example strptime_short_year :
  Reference.strptime_strftime "250115" (VStr "%y%m%d") "%m-%d-%Y" = inl "01-15-2025".
Proof. reflexivity. Qed.

Example strptime_backtracks :
  Reference.strptime_strftime "2025115" (VStr "%Y%m%d") "%m-%d-%Y" = inl "11-05-2025".
Proof. reflexivity. Qed.

Example strptime_no_match :
  Reference.strptime_strftime "notadate" (VStr "%Y%m%d") "%m-%d-%Y"
  = inr "time data 'notadate' does not match format '%Y%m%d'".
Proof. reflexivity. Qed.

Example strptime_bad_day :
  Reference.strptime_strftime "20250230" (VStr "%Y%m%d") "%m-%d-%Y"
  = inr "day is out of range for month".
Proof. reflexivity. Qed.

Example strptime_rest :
  Reference.strptime_strftime "202501151" (VStr "%Y%m%d") "%m-%d-%Y"
  = inr "unconverted data remains: 1".
Proof. reflexivity. Qed.

Example escape_decode_tab : Reference.escape_decode "\t" = Ok (String (ascii_of_nat 9) "").
Proof. reflexivity. Qed.

Example escape_decode_hex : Reference.escape_decode "\x7c" = Ok "|".
Proof. reflexivity. Qed.

Example escape_decode_cut : Reference.escape_decode "\" = Raise UnicodeDecodeError.
Proof. reflexivity. Qed.

Lemma reference_decode_defaults (lang role d : string) :
  table_get2 DEFAULT_SEPARATORS lang role = Ok d -> Reference.escape_decode d = Ok d.
Proof.
  unfold table_get2, DEFAULT_SEPARATORS. cbn [table_get].
  destruct (String.eqb "X12" lang).
  - cbn [table_get].
    destruct (String.eqb "ELEMENT" role); [intros [= <-]; reflexivity|].
    destruct (String.eqb "SEGMENT" role); [intros [= <-]; reflexivity|].
    destruct (String.eqb "SUBELEMENT" role); [intros [= <-]; reflexivity|]. discriminate.
  - destruct (String.eqb "EDIFACT" lang); [|discriminate]. cbn [table_get].
    destruct (String.eqb "ELEMENT" role); [intros [= <-]; reflexivity|].
    destruct (String.eqb "SEGMENT" role); [intros [= <-]; reflexivity|].
    destruct (String.eqb "SUBELEMENT" role); [intros [= <-]; reflexivity|]. discriminate.
Qed.

(** Without separators of its own, [__init__] succeeds and leaves the
    attributes of [x12_attributes]. *)
Lemma default_construction (w : World) :
  instantiate [] (EdiBase_init Reference.escape_decode "X12" None None None []) w
  = (Ok tt, with_self (fun _ => x12_attributes) w).
Proof.
  vm_compute. reflexivity.
Qed.

(** *** The claims on concrete input *)

Example element_index_failure_record :
  fst (universal_element_extract Reference.strptime_strftime "SHP*01" (Single (PosInt 5)) false
         default_format_in default_format_out sample_world)
  = Ok (VFail {| failure_point := "Element Index";
                 failure_reason := "Position 5 out of range for 'SHP*01'";
                 segment := "SHP*01";
                 failed_position := Single (PosInt 5);
                 element := None;
                 subposition := None;
                 date := false;
                 date_format_in := VStr "%Y%m%d";
                 date_format_out := "%m-%d-%Y" |}).
Proof. vm_compute. reflexivity. Qed.

Example subelement_index_failure_record :
  fst (universal_element_extract Reference.strptime_strftime "DTM*011*a<b" (Single (PosTuple 2 2))
         false default_format_in default_format_out sample_world)
  = Ok (VFail {| failure_point := "Subelement Index";
                 failure_reason := "Subposition 2 out of range for 'a<b'";
                 segment := "DTM*011*a<b";
                 failed_position := Single (PosTuple 2 2);
                 element := Some "a<b";
                 subposition := Some 2;
                 date := false;
                 date_format_in := VStr "%Y%m%d";
                 date_format_out := "%m-%d-%Y" |}).
Proof. vm_compute. reflexivity. Qed.

Example dated_list_keeps_text :
  fst (universal_element_extract Reference.strptime_strftime "SHP*01*25*011*20250115"
         (PosList [PosInt 2; PosInt 4]) true default_format_in default_format_out sample_world)
  = Ok (VList [VStr "25"; VStr "01-15-2025"]).
Proof. vm_compute. reflexivity. Qed.

Lemma separator_override_raises_witness :
  fst (instantiate []
         (EdiBase_init Reference.escape_decode "X12" (Some "|") None None []) empty_world)
  = Raise AttributeError
  /\ fst (instantiate []
            (EdiBase_init Reference.escape_decode "EDIFACT" None None (Some "\n") []) empty_world)
     = Raise AttributeError.
Proof.
  split.
  - apply (separator_override_raises Reference.escape_decode "X12" (Some "|") None None []
             empty_world); [exact reference_decode_defaults | reflexivity | reflexivity].
  - apply (separator_override_raises Reference.escape_decode "EDIFACT" None None (Some "\n") []
             empty_world); [exact reference_decode_defaults | reflexivity | reflexivity].
Defined.

Lemma tuple_date_failure_not_reported_witness :
  Reference.strptime_strftime "garbage" default_format_in default_format_out
  = inr "time data 'garbage' does not match format '%Y%m%d'"
  /\ universal_element_extract Reference.strptime_strftime "DTM*011*garbage<x"
       (Single (PosTuple 2 0)) true default_format_in default_format_out sample_world
     = (Ok (VStr "garbage"), sample_world).
Proof.
  split; [reflexivity|].
  apply (tuple_date_failure_not_reported Reference.strptime_strftime "DTM*011*garbage<x" 2 0
           default_format_in default_format_out sample_world
           ["DTM"; "011"; "garbage<x"] ["garbage"; "x"] (VStr "<") "garbage<x" "garbage"
           "time data 'garbage' does not match format '%Y%m%d'");
    vm_compute; reflexivity.
Defined.

(** The same text under a plain element index is reported. *)
Example int_date_failure_reported :
  exists error,
    fst (universal_element_extract Reference.strptime_strftime "DTM*011*garbage"
           (Single (PosInt 2)) true default_format_in default_format_out sample_world)
    = Ok (VFail error)
    /\ failure_point error = "Date conversion"
    /\ date_format_in error = VStr "%Y%m%d"
    /\ date_format_out error = "%m-%d-%Y".
Proof.
  eexists. split; [vm_compute; reflexivity|]. repeat split.
Qed.

(** C3, as stated, fails: the date ["notadate"] at element 4 matches
    neither the parser's date format nor the default one, and the handler
    returns with the failure log still empty. *)
Lemma accum_01_bad_date_not_logged :
  self sample_world !! "date_format" = Some (VStr "%Y%m%d")
  /\ Reference.strptime_strftime "notadate" (VStr "%Y%m%d") default_format_out
     = inr "time data 'notadate' does not match format '%Y%m%d'"
  /\ fst (handle_accum Reference.strptime_strftime "SHP*01*25*011*notadate" sample_world) = Ok tt
  /\ obj_getattr (snd (handle_accum Reference.strptime_strftime "SHP*01*25*011*notadate"
                         sample_world))
       (VRef 1%nat) "last_received_ship_quantity" = Some (VStr "25")
  /\ ~ (exists error,
          In (VFail error)
             (extraction_errors
                (snd (handle_accum Reference.strptime_strftime "SHP*01*25*011*notadate"
                        sample_world)))
          /\ failure_point error = "Date conversion").
Proof.
  split; [vm_compute; reflexivity|]. split; [reflexivity|].
  split; [vm_compute; reflexivity|]. split; [vm_compute; reflexivity|].
  intros (error & Hin & _).
  assert (H : extraction_errors
                (snd (handle_accum Reference.strptime_strftime "SHP*01*25*011*notadate"
                        sample_world)) = []) by (vm_compute; reflexivity).
  rewrite H in Hin. destruct Hin.
Qed.

Lemma accum_01_bad_date_kept_as_text_witness :
  (exists w',
     handle_accum Reference.strptime_strftime "SHP*01*25*011*notadate" sample_world = (Ok tt, w')
     /\ extraction_errors w' = extraction_errors sample_world
     /\ obj_getattr w' (VRef 1%nat) "last_received_ship_date" = Some (VStr "notadate")
     /\ obj_getattr w' (VRef 1%nat) "last_received_ship_quantity" = Some (VStr "25"))
  /\ (exists w',
        handle_accum Reference.strptime_strftime "SHP*01*25*011*20250115" sample_world
        = (Ok tt, w')
        /\ obj_getattr w' (VRef 1%nat) "last_received_ship_date" = Some (VStr "01-15-2025")
        /\ obj_getattr w' (VRef 1%nat) "last_received_ship_quantity" = Some (VStr "25"))
  /\ (exists w',
        handle_accum Reference.strptime_strftime "SHP*01*25" sample_world = (Ok tt, w')
        /\ obj_getattr w' (VRef 1%nat) "last_received_ship_date"
           = Some (VFail (element_index_failure "SHP*01*25" 4))
        /\ obj_getattr w' (VRef 1%nat) "last_received_ship_quantity" = Some (VStr "25")
        /\ extraction_errors w' = [VFail (element_index_failure "SHP*01*25" 4)]).
Proof.
  split; [|split].
  - destruct (accum_01_bad_date_kept_as_text Reference.strptime_strftime
                "SHP*01*25*011*notadate" sample_world ["SHP"; "01"; "25"; "011"; "notadate"]
                (VStr "%Y%m%d") 1%nat sample_part)
      as (w' & Hrun & _ & _ & Hdate & Hqty & Hlog & _);
      [vm_compute; reflexivity | vm_compute; reflexivity | vm_compute; exact I
      | vm_compute; reflexivity | reflexivity | vm_compute; reflexivity
      | vm_compute; reflexivity |].
    exists w'. split; [exact Hrun|].
    split; [rewrite Hlog; vm_compute; reflexivity|].
    split; [apply (Hdate "notadate" "time data 'notadate' does not match format '%Y%m%d'");
            reflexivity|].
    apply (Hqty "25" "time data '25' does not match format '%Y%m%d'"); reflexivity.
  - destruct (accum_01_bad_date_kept_as_text Reference.strptime_strftime
                "SHP*01*25*011*20250115" sample_world ["SHP"; "01"; "25"; "011"; "20250115"]
                (VStr "%Y%m%d") 1%nat sample_part)
      as (w' & Hrun & Hqty & Hdate & _);
      [vm_compute; reflexivity | vm_compute; reflexivity | vm_compute; exact I
      | vm_compute; reflexivity | reflexivity | vm_compute; reflexivity
      | vm_compute; reflexivity |].
    exists w'. split; [exact Hrun|]. split; [exact Hdate | exact Hqty].
  - destruct (accum_01_bad_date_kept_as_text Reference.strptime_strftime
                "SHP*01*25" sample_world ["SHP"; "01"; "25"] (VStr "%Y%m%d") 1%nat sample_part)
      as (w' & Hrun & Hqty & Hdate & _ & _ & Hlog & _);
      [vm_compute; reflexivity | vm_compute; reflexivity | vm_compute; exact I
      | vm_compute; reflexivity | reflexivity | vm_compute; reflexivity
      | vm_compute; reflexivity |].
    exists w'. split; [exact Hrun|]. split; [exact Hdate|]. split; [exact Hqty|].
    rewrite Hlog. vm_compute. reflexivity.
Defined.

Lemma short_segment_element_index_failure_witness :
  exists error,
    universal_element_extract Reference.strptime_strftime "SHP*01" (Single (PosInt 5)) false
      default_format_in default_format_out sample_world
    = (Ok (VFail error), log_failure error sample_world)
    /\ failure_point error = "Element Index"
    /\ segment error = "SHP*01"
    /\ failed_position error = Single (PosInt 5).
Proof.
  apply (short_segment_element_index_failure Reference.strptime_strftime "SHP*01" (PosInt 5)
           false default_format_in default_format_out sample_world ["SHP"; "01"]);
    [vm_compute; reflexivity | simpl; lia | vm_compute; exact I].
Defined.

Lemma open_document_archived_unchanged_witness :
  exists w' opened,
    handle_start Reference.strptime_strftime "BFR*00*R1*REL7*DL*A*20250101*20251231*20250115"
      sample_world = (Ok tt, w')
    /\ state w' !! "edi_class_list" = Some (VList [VRef 0%nat])
    /\ heap w' !! 0%nat = Some sample_document
    /\ state w' !! "edi_class" = Some (VRef opened)
    /\ opened <> 0%nat.
Proof.
  destruct (open_document_archived_unchanged Reference.strptime_strftime
              "BFR*00*R1*REL7*DL*A*20250101*20251231*20250115" sample_world
              ["BFR"; "00"; "R1"; "REL7"; "DL"; "A"; "20250101"; "20251231"; "20250115"]
              (VTuple [VStr "BFR"]) (VStr "%Y%m%d") (VStr "01-15-2025") [] 0%nat sample_document)
    as (w' & opened & Hrun & Hlist & _ & Hdoc & _ & Hopen & Hne);
    try (vm_compute; reflexivity).
  exists w', opened. auto.
Defined.

Lemma failures_returned_and_logged_witness :
  fst (universal_element_extract Reference.strptime_strftime "DTM*011*notadate"
         (PosDict [("code", Plain (PosInt 1)); ("when", Spec (Some (PosInt 2)) (Some true));
                   ("missing", Plain (PosInt 9))])
         true default_format_in default_format_out sample_world)
  = Ok (VDict
          [(VStr "code", VStr "011");
           (VStr "when",
            VFail (date_conversion_failure
                     "time data 'notadate' does not match format '%Y%m%d'" "DTM*011*notadate"
                     (PosDict [("code", Plain (PosInt 1));
                               ("when", Spec (Some (PosInt 2)) (Some true));
                               ("missing", Plain (PosInt 9))])
                     "notadate" None default_format_in default_format_out));
           (VStr "missing", VFail (element_index_failure "DTM*011*notadate" 9))])
  /\ extraction_errors
       (snd (universal_element_extract Reference.strptime_strftime "DTM*011*notadate"
               (PosDict [("code", Plain (PosInt 1)); ("when", Spec (Some (PosInt 2)) (Some true));
                         ("missing", Plain (PosInt 9))])
               true default_format_in default_format_out sample_world))
     = [VFail (date_conversion_failure
                 "time data 'notadate' does not match format '%Y%m%d'" "DTM*011*notadate"
                 (PosDict [("code", Plain (PosInt 1));
                           ("when", Spec (Some (PosInt 2)) (Some true));
                           ("missing", Plain (PosInt 9))])
                 "notadate" None default_format_in default_format_out);
        VFail (element_index_failure "DTM*011*notadate" 9)].
Proof.
  destruct (failures_returned_and_logged Reference.strptime_strftime "DTM*011*notadate"
              (PosDict [("code", Plain (PosInt 1)); ("when", Spec (Some (PosInt 2)) (Some true));
                        ("missing", Plain (PosInt 9))])
              true default_format_in default_format_out sample_world)
    as [Hbuilt (produced & Hgrows & Hreturned)].
  { simpl. apply (bool_decide_unpack _). vm_compute. reflexivity. }
  assert (Hlog : log_ok sample_world) by (vm_compute; exact I).
  specialize (Hbuilt Hlog).
  assert (Hvalue : built_request Reference.strptime_strftime sample_world "DTM*011*notadate"
                     (PosDict [("code", Plain (PosInt 1));
                               ("when", Spec (Some (PosInt 2)) (Some true));
                               ("missing", Plain (PosInt 9))])
                     true default_format_in default_format_out
                   = Ok (VDict
                           [(VStr "code", VStr "011");
                            (VStr "when",
                             VFail (date_conversion_failure
                                      "time data 'notadate' does not match format '%Y%m%d'"
                                      "DTM*011*notadate"
                                      (PosDict [("code", Plain (PosInt 1));
                                                ("when", Spec (Some (PosInt 2)) (Some true));
                                                ("missing", Plain (PosInt 9))])
                                      "notadate" None default_format_in default_format_out));
                            (VStr "missing", VFail (element_index_failure "DTM*011*notadate" 9))]))
    by (vm_compute; reflexivity).
  rewrite Hvalue in Hbuilt. split; [exact Hbuilt|].
  destruct Hgrows as (_ & _ & _ & Herrors & _).
  rewrite Herrors, <- (Hreturned _ Hbuilt). vm_compute. reflexivity.
Defined.

(** The two failures of that request, in the log in the order of the
    leaves. *)
Example named_request_failures :
  map (fun v => match v with VFail error => failure_point error | _ => "" end)
    (extraction_errors
       (snd (universal_element_extract Reference.strptime_strftime "DTM*011*notadate"
               (PosDict [("code", Plain (PosInt 1)); ("when", Spec (Some (PosInt 2)) (Some true));
                         ("missing", Plain (PosInt 9))])
               true default_format_in default_format_out sample_world)))
  = ["Date conversion"; "Element Index"].
Proof. vm_compute. reflexivity. Qed.

Lemma handle_inner_sets_date_format_witness :
  (exists w',
     handle_inner Reference.strptime_strftime "GS*SS*SENDER*RECEIVER*250115*1200*1*X*002003"
       sample_world = (Ok tt, w')
     /\ self w' !! "date_format" = Some (VStr "%y%m%d"))
  /\ (exists w',
        handle_inner Reference.strptime_strftime "GS*SS*SENDER*RECEIVER*20250115*1200*1*X*999910"
          sample_world = (Ok tt, w')
        /\ self w' !! "date_format" = Some (VStr "%Y%m%d")).
Proof.
  split.
  - destruct (handle_inner_sets_date_format Reference.strptime_strftime
                "GS*SS*SENDER*RECEIVER*250115*1200*1*X*002003" sample_world
                ["GS"; "SS"; "SENDER"; "RECEIVER"; "250115"; "1200"; "1"; "X"; "002003"] "002003")
      as (w' & Hrun & _ & H20 & _);
      [vm_compute; reflexivity | vm_compute; reflexivity | vm_compute; exact I |].
    exists w'. split; [exact Hrun | apply H20; reflexivity].
  - destruct (handle_inner_sets_date_format Reference.strptime_strftime
                "GS*SS*SENDER*RECEIVER*20250115*1200*1*X*999910" sample_world
                ["GS"; "SS"; "SENDER"; "RECEIVER"; "20250115"; "1200"; "1"; "X"; "999910"] "999910")
      as (w' & Hrun & _ & _ & Hnone);
      [vm_compute; reflexivity | vm_compute; reflexivity | vm_compute; exact I |].
    exists w'. split; [exact Hrun | apply Hnone; reflexivity].
Defined.

Lemma type_850_starts_at_BEG_with_record_no_3_witness :
  exists w1 w3 opened,
    handle_loop Reference.strptime_strftime "ST*850*0001" sample_world = (Ok tt, w1)
    /\ self w1 !! "record_start_segment" = Some (VStr "BEG")
    /\ handle_start Reference.strptime_strftime "BEG*00*SA*PO4500012345**20250115" w1
       = (Ok tt, w3)
    /\ state w3 !! "edi_class" = Some opened
    /\ obj_getattr w3 opened "ref_no" = Some (VStr "PO4500012345").
Proof.
  destruct (type_850_starts_at_BEG_with_record_no_3 Reference.strptime_strftime
              "ST*850*0001" sample_world ["ST"; "850"; "0001"])
    as (w1 & Hloop & Hcode & _ & Hstart);
    [vm_compute; reflexivity | vm_compute; reflexivity |].
  assert (Hw1 : w1 = with_self (insert "record_start_segment" (VStr "BEG"))
                       (with_self (insert "document_type" (VStr "850")) sample_world)).
  { assert (H : handle_loop Reference.strptime_strftime "ST*850*0001" sample_world
                = (Ok tt, with_self (insert "record_start_segment" (VStr "BEG"))
                            (with_self (insert "document_type" (VStr "850")) sample_world)))
      by (vm_compute; reflexivity).
    rewrite H in Hloop. injection Hloop as <-. reflexivity. }
  destruct (Hstart "BEG*00*SA*PO4500012345**20250115" w1
              ["BEG"; "00"; "SA"; "PO4500012345"; ""; "20250115"]
              (VStr "%Y%m%d") (VRef 0%nat) (VStr "01-15-2025") [])
    as (w3 & opened & Hrun & Hopen & _ & Hrec);
    [exact Hcode | subst w1; vm_compute; reflexivity | subst w1; vm_compute; exact I
    | subst w1; vm_compute; reflexivity | subst w1; vm_compute; reflexivity
    | subst w1; vm_compute; reflexivity | intros _; subst w1; vm_compute; reflexivity |].
  exists w1, w3, opened. split; [exact Hloop|]. split; [exact Hcode|]. split; [exact Hrun|].
  split; [exact Hopen|]. apply Hrec. reflexivity.
Defined.

Lemma negative_index_counts_from_end_witness :
  universal_element_extract Reference.strptime_strftime "SHP*01*25*011*20250115"
    (Single (PosInt (-1))) false default_format_in default_format_out sample_world
  = (Ok (VStr "20250115"), sample_world)
  /\ universal_element_extract Reference.strptime_strftime "SHP*01*25*011*20250115"
       (Single (PosInt (-5))) false default_format_in default_format_out sample_world
     = (Ok (VStr "SHP"), sample_world).
Proof.
  split.
  - destruct (negative_index_counts_from_end Reference.strptime_strftime
                "SHP*01*25*011*20250115" (-1) default_format_in default_format_out sample_world
                ["SHP"; "01"; "25"; "011"; "20250115"])
      as (e & He & _ & Hrun & _); [vm_compute; reflexivity | simpl; lia |].
    injection He as <-. exact Hrun.
  - destruct (negative_index_counts_from_end Reference.strptime_strftime
                "SHP*01*25*011*20250115" (-5) default_format_in default_format_out sample_world
                ["SHP"; "01"; "25"; "011"; "20250115"])
      as (e & He & _ & Hrun & _); [vm_compute; reflexivity | simpl; lia |].
    injection He as <-. exact Hrun.
Defined.

(** *** Further properties on concrete input *)

Lemma extraction_value_depends_on_separators_only_witness :
  fst (universal_element_extract Reference.strptime_strftime "DTM*011*20250115"
         (PosList [PosInt 2; PosInt 9]) true default_format_in default_format_out sample_world)
  = fst (universal_element_extract Reference.strptime_strftime "DTM*011*20250115"
           (PosList [PosInt 2; PosInt 9]) true default_format_in default_format_out
           (log_failure (element_index_failure "N1*ST" 4)
              (with_heap (fun _ => []) (with_state (fun _ => ∅) sample_world)))).
Proof.
  apply (extraction_value_depends_on_separators_only Reference.strptime_strftime
           "DTM*011*20250115" (PosList [PosInt 2; PosInt 9]) true default_format_in
           default_format_out sample_world
           (log_failure (element_index_failure "N1*ST" 4)
              (with_heap (fun _ => []) (with_state (fun _ => ∅) sample_world))));
    [vm_compute; reflexivity | vm_compute; reflexivity | split; vm_compute; reflexivity
    | vm_compute; exact I | vm_compute; exact I].
Defined.

Lemma element_zero_never_fails_witness :
  exists e,
    head (PyStr.split_on "*" "SHP*01") = Some e
    /\ universal_element_extract Reference.strptime_strftime "SHP*01" (Single (PosInt 0)) false
         default_format_in default_format_out sample_world
       = (Ok (VStr e), sample_world).
Proof.
  apply (element_zero_never_fails Reference.strptime_strftime "SHP*01" "*" default_format_in
           default_format_out sample_world); [vm_compute; reflexivity | discriminate].
Defined.

Lemma list_and_mapping_results_are_aligned_witness :
  exists vs,
    VList [VStr "011"; VFail (element_index_failure "DTM*011*20250115" 9)] = VList vs
    /\ length vs = length [PosInt 1; PosInt 9]
    /\ Forall is_leaf vs.
Proof.
  apply (proj1 (list_and_mapping_results_are_aligned Reference.strptime_strftime
                  "DTM*011*20250115" false default_format_in default_format_out sample_world)
           [PosInt 1; PosInt 9]).
  vm_compute. reflexivity.
Defined.

Lemma returned_failures_are_of_the_call_witness :
  failure_of_call "SHP*01" (PosList [PosInt 1; PosInt 5]) default_format_in default_format_out
    (element_index_failure "SHP*01" 5).
Proof.
  apply (returned_failures_are_of_the_call Reference.strptime_strftime "SHP*01"
           (PosList [PosInt 1; PosInt 5]) false default_format_in default_format_out sample_world
           (VList [VStr "01"; VFail (element_index_failure "SHP*01" 5)]));
    [vm_compute; reflexivity | vm_compute; left; reflexivity].
Defined.

Lemma date_failures_need_a_strict_request_witness :
  true = true /\ reports_dates (Single (PosInt 2)) = true.
Proof.
  eapply (date_failures_need_a_strict_request Reference.strptime_strftime "DTM*011*notadate"
            (Single (PosInt 2)) true default_format_in default_format_out sample_world);
    [vm_compute; reflexivity | left; reflexivity | reflexivity].
Defined.

Lemma leaves_are_extracted_independently_witness :
  Forall2 (fun p v =>
             fst (extract_one Reference.strptime_strftime "DTM*011*20250115"
                    (PosList [PosInt 2; PosInt 9]) true default_format_in default_format_out
                    false (Some p) None sample_world) = Ok v)
    [PosInt 2; PosInt 9]
    [VStr "01-15-2025"; VFail (element_index_failure "DTM*011*20250115" 9)].
Proof.
  destruct (leaves_are_extracted_independently Reference.strptime_strftime "DTM*011*20250115"
              true default_format_in default_format_out sample_world) as [Hlist _];
    [vm_compute; exact I|].
  apply (Hlist [PosInt 2; PosInt 9]). vm_compute. reflexivity.
Defined.

Lemma extraction_never_raises_witness :
  exists v,
    fst (universal_element_extract Reference.strptime_strftime "DTM*011*notadate"
           (PosDict [("code", Plain (PosInt 1)); ("when", Spec (Some (PosInt 2)) (Some true));
                     ("part", Plain (PosTuple 9 0))])
           true default_format_in default_format_out sample_world) = Ok v.
Proof.
  apply (extraction_never_raises Reference.strptime_strftime "DTM*011*notadate"
           (PosDict [("code", Plain (PosInt 1)); ("when", Spec (Some (PosInt 2)) (Some true));
                     ("part", Plain (PosTuple 9 0))])
           true default_format_in default_format_out sample_world).
  - vm_compute. reflexivity.
  - split; [vm_compute; exact I|]. split; vm_compute; discriminate.
  - repeat (constructor; [vm_compute; discriminate|]). constructor.
Defined.

Lemma handle_inner_short_segment_raises_witness :
  handle_inner Reference.strptime_strftime "GS*SS*SENDER" sample_world
  = (Raise TypeError, log_failure (element_index_failure "GS*SS*SENDER" 8) sample_world).
Proof.
  destruct (handle_inner_short_segment_raises Reference.strptime_strftime "GS*SS*SENDER"
              sample_world ["GS"; "SS"; "SENDER"]) as [Hrun _];
    [vm_compute; reflexivity | simpl; lia | vm_compute; exact I | exact Hrun].
Defined.

Lemma handle_loop_unknown_type_raises_witness :
  exists w',
    handle_loop Reference.strptime_strftime "ST*999*0001" sample_world = (Raise KeyError, w')
    /\ self w' !! "document_type" = Some (VStr "999")
    /\ self w' !! "record_start_segment" = Some (VTuple [VStr "BFR"]).
Proof.
  destruct (handle_loop_unknown_type_raises Reference.strptime_strftime "ST*999*0001"
              sample_world ["ST"; "999"; "0001"]) as (w' & Hrun & Hdoc & Hcode & _);
    [vm_compute; reflexivity | vm_compute; exact I
    | intros t Ht; vm_compute in Ht; injection Ht as <-; reflexivity |].
  exists w'. split; [exact Hrun|]. split; [exact Hdoc|]. rewrite Hcode. vm_compute. reflexivity.
Defined.

Lemma document_type_decides_record_number_witness :
  exists w1 w2 opened,
    handle_loop Reference.strptime_strftime "ST*862*0001" sample_world = (Ok tt, w1)
    /\ self w1 !! "record_start_segment" = Some (VStr "BSS")
    /\ handle_start Reference.strptime_strftime "BSS*05*SS0042*20250115" w1 = (Ok tt, w2)
    /\ state w2 !! "edi_class" = Some opened
    /\ obj_getattr w2 opened "ref_no" = Some (VStr "SS0042").
Proof.
  destruct (document_type_decides_record_number Reference.strptime_strftime "ST*862*0001"
              "BSS*05*SS0042*20250115" "862" "BSS" sample_world ["ST"; "862"; "0001"]
              ["BSS"; "05"; "SS0042"; "20250115"] (VStr "%Y%m%d") (VRef 0%nat)
              (VStr "01-15-2025") [])
    as (w1 & w2 & opened & Hloop & _ & Hcode & Hstart & Hopen & Hrec);
    [vm_compute; reflexivity | vm_compute; reflexivity | vm_compute; reflexivity
    | vm_compute; reflexivity | vm_compute; exact I | vm_compute; reflexivity
    | vm_compute; reflexivity | vm_compute; reflexivity | intros _; vm_compute; reflexivity |].
  exists w1, w2, opened. split; [exact Hloop|]. split; [exact Hcode|]. split; [exact Hstart|].
  split; [exact Hopen|]. exact Hrec.
Defined.

Lemma default_start_segment_uses_element_zero_witness :
  exists w' opened,
    handle_start Reference.strptime_strftime "BFR*00*R1*REL7*DL*A*20250101*20251231*20250115"
      sample_world = (Ok tt, w')
    /\ state w' !! "edi_class" = Some opened
    /\ obj_getattr w' opened "ref_no" = Some (VStr "BFR").
Proof.
  destruct (default_start_segment_uses_element_zero Reference.strptime_strftime
              "BFR*00*R1*REL7*DL*A*20250101*20251231*20250115" "*" sample_world [VStr "BFR"]
              (VStr "%Y%m%d") (VRef 0%nat) (VStr "01-15-2025") [])
    as (w' & opened & e0 & Hrun & Hopen & He0 & Hrec);
    [vm_compute; reflexivity | discriminate | vm_compute; exact I | vm_compute; reflexivity
    | vm_compute; reflexivity | vm_compute; reflexivity | vm_compute; reflexivity
    | intros _; vm_compute; reflexivity |].
  vm_compute in He0. injection He0 as <-.
  exists w', opened. split; [exact Hrun|]. split; [exact Hopen | exact Hrec].
Defined.

Lemma first_document_archives_nothing_witness :
  exists w' doc,
    handle_start Reference.strptime_strftime "BFR*00*R1*REL7*DL*A*20250101*20251231*20250115"
      (with_state (insert "edi_class" VNone) sample_world) = (Ok tt, w')
    /\ state w' !! "edi_class" = Some (VRef 2%nat)
    /\ state w' !! "edi_class_list" = Some (VList [])
    /\ heap w' = [sample_document; sample_part; doc].
Proof.
  destruct (first_document_archives_nothing Reference.strptime_strftime
              "BFR*00*R1*REL7*DL*A*20250101*20251231*20250115"
              (with_state (insert "edi_class" VNone) sample_world)
              ["BFR"; "00"; "R1"; "REL7"; "DL"; "A"; "20250101"; "20251231"; "20250115"]
              (VTuple [VStr "BFR"]) (VStr "%Y%m%d") (VStr "01-15-2025"))
    as (w' & doc & Hrun & Hstate & Hlist & Hheap);
    [vm_compute; reflexivity | vm_compute; exact I | vm_compute; reflexivity
    | vm_compute; reflexivity | vm_compute; reflexivity | vm_compute; reflexivity |].
  exists w', doc. split; [exact Hrun|].
  split; [rewrite Hstate; vm_compute; reflexivity|].
  split; [rewrite Hlist; vm_compute; reflexivity | exact Hheap].
Defined.

Lemma short_start_segment_still_opens_document_witness :
  exists w' opened,
    handle_start Reference.strptime_strftime "BFR*00*R1*REL7" sample_world = (Ok tt, w')
    /\ state w' !! "edi_class" = Some opened
    /\ obj_getattr w' opened "horizon_start_date"
       = Some (VFail (element_index_failure "BFR*00*R1*REL7" 6))
    /\ obj_getattr w' opened "horizon_end_date"
       = Some (VFail (element_index_failure "BFR*00*R1*REL7" 7))
    /\ extraction_errors w'
       = [VFail (element_index_failure "BFR*00*R1*REL7" 6);
          VFail (element_index_failure "BFR*00*R1*REL7" 7)].
Proof.
  destruct (short_start_segment_still_opens_document Reference.strptime_strftime
              "BFR*00*R1*REL7" sample_world ["BFR"; "00"; "R1"; "REL7"] (VTuple [VStr "BFR"])
              (VStr "%Y%m%d") (VRef 0%nat) (VStr "01-15-2025") [])
    as (w' & opened & Hrun & Hopen & Hfrom & Hto & Hlog);
    [vm_compute; reflexivity | simpl; lia | vm_compute; exact I | vm_compute; reflexivity
    | vm_compute; reflexivity | vm_compute; reflexivity | vm_compute; reflexivity
    | intros _; vm_compute; reflexivity |].
  exists w', opened. split; [exact Hrun|]. split; [exact Hopen|]. split; [exact Hfrom|].
  split; [exact Hto|]. rewrite Hlog. vm_compute. reflexivity.
Defined.

Lemma handle_start_without_date_format_raises_witness :
  exists w',
    handle_start Reference.strptime_strftime "BFR*00*R1*REL7*DL*A*20250101*20251231*20250115"
      (with_self (delete "date_format") sample_world) = (Raise AttributeError, w')
    /\ state w' !! "edi_class" = Some VNone
    /\ state w' !! "edi_class_list" = Some (VList [VRef 0%nat]).
Proof.
  destruct (handle_start_without_date_format_raises Reference.strptime_strftime
              "BFR*00*R1*REL7*DL*A*20250101*20251231*20250115"
              (with_self (delete "date_format") sample_world)
              ["BFR"; "00"; "R1"; "REL7"; "DL"; "A"; "20250101"; "20251231"; "20250115"]
              (VTuple [VStr "BFR"]) (VStr "01-15-2025") [] 0%nat)
    as (w' & Hrun & Hopen & Hlist & _);
    [vm_compute; reflexivity | vm_compute; exact I | vm_compute; reflexivity
    | vm_compute; reflexivity | vm_compute; reflexivity | vm_compute; reflexivity
    | vm_compute; reflexivity |].
  exists w'. split; [exact Hrun|]. split; [exact Hopen | exact Hlist].
Defined.

Lemma handle_accum_totals_witness :
  (exists w',
     handle_accum Reference.strptime_strftime "ATH*02*20250101**4200**20250131" sample_world
     = (Ok tt, w')
     /\ obj_getattr w' (VRef 1%nat) "total_accum" = Some (VStr "01-01-2025")
     /\ obj_getattr w' (VRef 1%nat) "total_accum_start_date" = Some (VStr "4200")
     /\ obj_getattr w' (VRef 1%nat) "total_accum_end_date" = Some (VStr "01-31-2025")
     /\ obj_getattr w' (VRef 1%nat) "part_no" = Some (VStr "P100"))
  /\ (exists w',
        handle_accum Reference.strptime_strftime "ATH*PQ*20250131*4200" sample_world
        = (Ok tt, w')
        /\ obj_getattr w' (VRef 1%nat) "total_accum" = Some (VStr "4200")
        /\ obj_getattr w' (VRef 1%nat) "total_accum_start_date"
           = Some (VFail (element_index_failure "ATH*PQ*20250131*4200" 5))
        /\ obj_getattr w' (VRef 1%nat) "total_accum_end_date" = Some (VStr "01-31-2025")).
Proof.
  split.
  - destruct (handle_accum_totals Reference.strptime_strftime
                "ATH*02*20250101**4200**20250131" "02" 2 4 6 sample_world
                ["ATH"; "02"; "20250101"; ""; "4200"; ""; "20250131"] 1%nat sample_part)
      as (w' & Hrun & Ha & Hs & He & Hrest & _);
      [left; split; reflexivity | vm_compute; reflexivity | vm_compute; reflexivity
      | vm_compute; exact I | vm_compute; reflexivity | vm_compute; reflexivity |].
    exists w'. split; [exact Hrun|]. split; [exact Ha|]. split; [exact Hs|]. split; [exact He|].
    rewrite (Hrest "part_no") by discriminate. vm_compute. reflexivity.
  - destruct (handle_accum_totals Reference.strptime_strftime
                "ATH*PQ*20250131*4200" "PQ" 3 5 2 sample_world
                ["ATH"; "PQ"; "20250131"; "4200"] 1%nat sample_part)
      as (w' & Hrun & Ha & Hs & He & _);
      [right; split; reflexivity | vm_compute; reflexivity | vm_compute; reflexivity
      | vm_compute; exact I | vm_compute; reflexivity | vm_compute; reflexivity |].
    exists w'. split; [exact Hrun|]. split; [exact Ha|]. split; [exact Hs | exact He].
Defined.

Lemma handle_accum_does_nothing_otherwise_witness :
  handle_accum Reference.strptime_strftime "SHP*99*25" sample_world = (Ok tt, sample_world)
  /\ fst (handle_accum Reference.strptime_strftime "SHP*02*25"
            (with_state (delete "part_record") sample_world)) = Raise KeyError.
Proof.
  split.
  - destruct (handle_accum_does_nothing_otherwise Reference.strptime_strftime "SHP*99*25"
                sample_world ["SHP"; "99"; "25"]) as [Hskip _];
      [vm_compute; reflexivity | vm_compute; exact I |].
    destruct (Hskip (VRef 1%nat)) as [Hrun _];
      [vm_compute; reflexivity | right; repeat split; reflexivity | exact Hrun].
  - destruct (handle_accum_does_nothing_otherwise Reference.strptime_strftime "SHP*02*25"
                (with_state (delete "part_record") sample_world) ["SHP"; "02"; "25"])
      as [_ Hraise]; [vm_compute; reflexivity | vm_compute; exact I |].
    rewrite Hraise by (vm_compute; reflexivity). reflexivity.
Defined.

Lemma handle_address_ship_to_witness :
  exists w',
    handle_address Reference.strptime_strftime "N1*ST*PLANT 7*92*4410" sample_world = (Ok tt, w')
    /\ state w' !! "address" = Some (VStr "4410")
    /\ obj_getattr w' (VRef 1%nat) "plant" = Some (VStr "4410").
Proof.
  destruct (handle_address_ship_to Reference.strptime_strftime "N1*ST*PLANT 7*92*4410"
              sample_world ["N1"; "ST"; "PLANT 7"; "92"; "4410"] 1%nat sample_part)
    as (w' & Hrun & Hstate & Hplant & _);
    [vm_compute; reflexivity | vm_compute; reflexivity | vm_compute; exact I
    | vm_compute; reflexivity | vm_compute; reflexivity |].
  exists w'. split; [exact Hrun|]. split; [rewrite Hstate; vm_compute; reflexivity|].
  apply Hplant. reflexivity.
Defined.

Lemma handle_address_other_qualifier_witness :
  (exists w',
     handle_address Reference.strptime_strftime "N1*SU*SUPPLIER*92*77"
       (with_state (insert "address" (VStr "4410")) sample_world) = (Ok tt, w')
     /\ state w' !! "address" = Some (VStr "4410")
     /\ obj_getattr w' (VRef 1%nat) "plant" = Some (VStr "4410"))
  /\ fst (handle_address Reference.strptime_strftime "N1*SU*SUPPLIER*92*77"
            (with_state (delete "address") sample_world)) = Raise KeyError.
Proof.
  split.
  - destruct (handle_address_other_qualifier Reference.strptime_strftime "N1*SU*SUPPLIER*92*77"
                (with_state (insert "address" (VStr "4410")) sample_world)
                ["N1"; "SU"; "SUPPLIER"; "92"; "77"]) as [Hcopy _];
      [vm_compute; reflexivity | vm_compute; exact I | vm_compute; reflexivity |].
    destruct (Hcopy (VStr "4410") 1%nat sample_part) as (w' & Hrun & Hstate & Hplant);
      [vm_compute; reflexivity | reflexivity | vm_compute; reflexivity | vm_compute; reflexivity |].
    exists w'. split; [exact Hrun|]. split; [rewrite Hstate; vm_compute; reflexivity|].
    exact Hplant.
  - destruct (handle_address_other_qualifier Reference.strptime_strftime "N1*SU*SUPPLIER*92*77"
                (with_state (delete "address") sample_world)
                ["N1"; "SU"; "SUPPLIER"; "92"; "77"]) as [_ Hraise];
      [vm_compute; reflexivity | vm_compute; exact I | vm_compute; reflexivity |].
    rewrite Hraise by (vm_compute; reflexivity). reflexivity.
Defined.

Lemma handle_envelope_sets_parser_only_witness :
  exists w',
    handle_envelope Reference.strptime_strftime
      "ISA*00**00**ZZ*SENDER*01*RECEIVER*250115*1200*U*00401*000000001*0*P" sample_world
    = (Ok tt, w')
    /\ self w' !! "sender_id" = Some (VStr "SENDER")
    /\ self w' !! "sender_qualifier" = Some (VStr "ZZ")
    /\ self w' !! "receiver_id" = Some (VStr "RECEIVER")
    /\ self w' !! "receiver_qualifier" = Some (VStr "01")
    /\ self w' !! "transaction_no" = Some (VStr "000000001")
    /\ state w' = state sample_world
    /\ heap w' = heap sample_world.
Proof.
  apply (handle_envelope_sets_parser_only Reference.strptime_strftime
           "ISA*00**00**ZZ*SENDER*01*RECEIVER*250115*1200*U*00401*000000001*0*P" sample_world
           ["ISA"; "00"; ""; "00"; ""; "ZZ"; "SENDER"; "01"; "RECEIVER"; "250115"; "1200"; "U";
            "00401"; "000000001"; "0"; "P"]);
    [vm_compute; reflexivity | vm_compute; exact I].
Defined.

Lemma EdiPart_attributes_witness :
  exists o,
    EdiPart_init (PText "P100") PNone [("po", VStr ""); ("customer_po", VStr "PO7")] empty_world
    = (Ok (VRef 0%nat), with_heap (fun h => h ++ [o]) empty_world)
    /\ attrs o !! "part_no" = Some (VStr "P100")
    /\ attrs o !! "po" = Some (VStr "")
    /\ attrs o !! "part_rev" = Some (VStr "P100-None")
    /\ attrs o !! "part_list" = None.
Proof.
  destruct (EdiPart_attributes (PText "P100") PNone
              [("po", VStr ""); ("customer_po", VStr "PO7")] empty_world)
    as (o & Hrun & _ & Hno & _ & Hpo & Hrev & _ & Hlist).
  { split; [apply (bool_decide_unpack _); vm_compute; reflexivity|].
    split; vm_compute; reflexivity. }
  exists o. split; [exact Hrun|]. split; [exact Hno|]. split; [exact Hpo|].
  split; [exact Hrev | exact Hlist].
Defined.

Lemma invalid_language_raises_witness :
  instantiate [] (EdiBase_init Reference.escape_decode "TRADACOMS" None None None []) empty_world
  = (Raise ValueError, with_self (fun _ => ∅) empty_world).
Proof.
  apply (invalid_language_raises Reference.escape_decode "TRADACOMS" None None None []
           empty_world).
  reflexivity.
Defined.

Lemma keyword_arguments_become_attributes_witness :
  self (snd (instantiate []
               (EdiBase_init Reference.escape_decode "X12" None None None
                  [("customer", VStr "ACME"); ("loop_segment", VTuple [VStr "LS"])])
               empty_world)) !! "customer" = Some (VStr "ACME")
  /\ self (snd (instantiate []
                  (EdiBase_init Reference.escape_decode "X12" None None None
                     [("customer", VStr "ACME"); ("loop_segment", VTuple [VStr "LS"])])
                  empty_world)) !! "loop_segment" = Some (VTuple [VStr "LS"]).
Proof.
  assert (Hkw : keyword_arguments EdiBase_parameters
                  [("customer", VStr "ACME"); ("loop_segment", VTuple [VStr "LS"])]).
  { split; [apply (bool_decide_unpack _); vm_compute; reflexivity|].
    split; vm_compute; reflexivity. }
  pose proof (keyword_arguments_become_attributes Reference.escape_decode "X12"
                [("customer", VStr "ACME"); ("loop_segment", VTuple [VStr "LS"])] empty_world
                reference_decode_defaults eq_refl Hkw) as H.
  cbv zeta in H. destruct H as [Hattr _].
  split; [rewrite (Hattr "customer") by discriminate
         | rewrite (Hattr "loop_segment") by discriminate]; vm_compute; reflexivity.
Defined.

Lemma constructed_parser_is_ready_witness :
  exists w' element subelement,
    instantiate [] (EdiBase_init Reference.escape_decode "EDIFACT" None None None []) empty_world
    = (Ok tt, w')
    /\ table_get2 DEFAULT_SEPARATORS "EDIFACT" "ELEMENT" = Ok element
    /\ table_get2 DEFAULT_SEPARATORS "EDIFACT" "SUBELEMENT" = Ok subelement
    /\ self w' !! "element_separator" = Some (VStr element)
    /\ self w' !! "subelement_separator" = Some (VStr subelement)
    /\ self w' !! "extraction_errors" = None
    /\ parser_ready w'.
Proof.
  apply (constructed_parser_is_ready Reference.escape_decode "EDIFACT" empty_world);
    [exact reference_decode_defaults | reflexivity].
Defined.

Lemma dispatch_map_of_the_languages_witness :
  exists d,
    self (snd (instantiate []
                 (EdiBase_init Reference.escape_decode "EDIFACT" None None None [])
                 empty_world)) !! "DISPATCH_MAP" = Some (VDict d)
    /\ length d = 8%nat
    /\ In (VTuple [VStr ""], VMethod "handle_accum") d.
Proof.
  destruct (dispatch_map_of_the_languages Reference.escape_decode "EDIFACT" empty_world)
    as (d & Hmap & _ & Hedifact); [exact reference_decode_defaults | reflexivity |].
  destruct (Hedifact eq_refl) as [Hvalues Hin].
  exists d. split; [exact Hmap|]. split; [|exact Hin].
  rewrite <- (length_map snd d), Hvalues. reflexivity.
Defined.

Lemma unhashable_segment_attribute_raises_witness :
  fst (instantiate []
         (EdiBase_init Reference.escape_decode "X12" None None None
            [("accum_segment", VList [VStr "SHP"; VStr "ATH"])])
         empty_world) = Raise TypeError.
Proof.
  apply (unhashable_segment_attribute_raises Reference.escape_decode "X12" "accum_segment"
           "handle_accum" [("accum_segment", VList [VStr "SHP"; VStr "ATH"])]
           (VList [VStr "SHP"; VStr "ATH"]) empty_world);
    [exact reference_decode_defaults | reflexivity
    | split; [apply (bool_decide_unpack _); vm_compute; reflexivity
             | split; vm_compute; reflexivity]
    | vm_compute; tauto | vm_compute; reflexivity | reflexivity].
Defined.

Lemma add_attr_stores_keyword_arguments_witness :
  exists w' o',
    add_attr (VRef 1%nat) [("plant", VStr "4410"); ("po", VStr "PO7")] sample_world
    = (Ok tt, w')
    /\ heap w' !! 1%nat = Some o'
    /\ attrs o' !! "plant" = Some (VStr "4410")
    /\ attrs o' !! "po" = Some (VStr "PO7")
    /\ attrs o' !! "part_no" = Some (VStr "P100")
    /\ heap w' !! 0%nat = Some sample_document.
Proof.
  destruct (add_attr_stores_keyword_arguments 1%nat sample_part
              [("plant", VStr "4410"); ("po", VStr "PO7")] sample_world)
    as (w' & o' & Hrun & Hheap & _ & Hattr & Hother & _);
    [vm_compute; reflexivity | right; reflexivity
    | split; [apply (bool_decide_unpack _); vm_compute; reflexivity
             | split; vm_compute; reflexivity] |].
  exists w', o'. split; [exact Hrun|]. split; [exact Hheap|].
  split; [rewrite Hattr; vm_compute; reflexivity|].
  split; [rewrite Hattr; vm_compute; reflexivity|].
  split; [rewrite Hattr; vm_compute; reflexivity|].
  rewrite (Hother 0%nat) by discriminate. reflexivity.
Defined.

Lemma set_if_none_sets_only_none_witness :
  (exists w',
     set_if_none (VRef 1%nat) "po" (VStr "PO7") sample_world = (Ok tt, w')
     /\ obj_getattr w' (VRef 1%nat) "po" = Some (VStr "PO7"))
  /\ (exists w',
        set_if_none (VRef 1%nat) "part_no" (VStr "P200") sample_world = (Ok tt, w')
        /\ obj_getattr w' (VRef 1%nat) "part_no" = Some (VStr "P100"))
  /\ (exists w',
        set_if_none (VRef 1%nat) "plant" (VStr "4410") sample_world = (Ok tt, w')
        /\ obj_getattr w' (VRef 1%nat) "plant" = Some (VStr "4410")).
Proof.
  split; [|split].
  - destruct (set_if_none_sets_only_none 1%nat sample_part "po" (VStr "PO7") sample_world)
      as (w' & Hrun & Hattr & _);
      [vm_compute; reflexivity | reflexivity | split; vm_compute; reflexivity |].
    exists w'. split; [exact Hrun|]. rewrite Hattr. vm_compute. reflexivity.
  - destruct (set_if_none_sets_only_none 1%nat sample_part "part_no" (VStr "P200") sample_world)
      as (w' & Hrun & _ & Hkept & _);
      [vm_compute; reflexivity | reflexivity | split; vm_compute; reflexivity |].
    exists w'. split; [exact Hrun|]. apply Hkept; [vm_compute; reflexivity | discriminate].
  - destruct (set_if_none_sets_only_none 1%nat sample_part "plant" (VStr "4410") sample_world)
      as (w' & Hrun & Hattr & _);
      [vm_compute; reflexivity | reflexivity | split; vm_compute; reflexivity |].
    exists w'. split; [exact Hrun|]. rewrite Hattr. vm_compute. reflexivity.
Defined.

Lemma set_if_none_first_value_stays_witness :
  exists w1,
    bind (set_if_none (VRef 1%nat) "po" (VStr "PO7"))
      (fun _ => set_if_none (VRef 1%nat) "po" (VStr "PO8")) sample_world = (Ok tt, w1)
    /\ obj_getattr w1 (VRef 1%nat) "po" = Some (VStr "PO7").
Proof.
  destruct (set_if_none_first_value_stays 1%nat sample_part "po" (VStr "PO7") (VStr "PO8")
              sample_world) as (w1 & _ & Hrun & Hattr & _);
    [vm_compute; reflexivity | reflexivity | split; vm_compute; reflexivity | discriminate |].
  exists w1. split; [exact Hrun|]. rewrite Hattr. vm_compute. reflexivity.
Defined.

Lemma X12ReleaseDetails_decodes_codes_witness :
  (exists o,
     X12ReleaseDetails (VStr "20250115") (VStr "100") (VStr "C") (VStr "Q")
       [("uom", VStr "EA")] empty_world
     = (Ok (VRef 0%nat), with_heap (fun h => h ++ [o]) empty_world)
     /\ attrs o !! "date" = Some (VStr "20250115")
     /\ attrs o !! "quantity" = Some (VStr "100")
     /\ attrs o !! "rel_type" = Some (VStr "Firm")
     /\ attrs o !! "rel_timing" = Some VNone)
  /\ X12ReleaseDetails (VStr "20250115") (VStr "100") (VList [VStr "C"]) (VStr "W") []
       empty_world = (Raise TypeError, empty_world).
Proof.
  split.
  - destruct (X12ReleaseDetails_decodes_codes (VStr "20250115") (VStr "100") (VStr "C")
                (VStr "Q") [("uom", VStr "EA")] empty_world) as [Hnew _].
    { split; [apply (bool_decide_unpack _); vm_compute; reflexivity|].
      split; vm_compute; reflexivity. }
    apply Hnew; reflexivity.
  - destruct (X12ReleaseDetails_decodes_codes (VStr "20250115") (VStr "100") (VList [VStr "C"])
                (VStr "W") [] empty_world) as [_ Hraise].
    { split; [apply NoDup_nil; exact I|]. split; reflexivity. }
    apply Hraise. reflexivity.
Defined.
